(** * Oread: profile store and session manager

    A shallow embedding of [ProfileStorage] (src/backend/src/routes/auth.js)
    and [SessionManager] (src/backend/src/core/sessionManager.js).

    Conventions of the model:
    - JSON numbers are integers ([Z]); JS [undefined] is [None].
    - A file holds a [text]: the output of [JSON.stringify] of a value, an
      encrypted envelope around a text, or any other (non-JSON) text.
    - The profiles directory is a [gmap] from file name to [text]; a path
      [path.join(profilesDir, name + ".json")] is the file name
      [name ++ ".json"].
    - Async functions run in a state-and-error monad: a rejected promise is
      [Err msg], and the writes done before the rejection stay. *)

From Stdlib Require Import ZArith Ascii String List Bool Lia.
From stdpp Require Import base gmap strings list.
Import ListNotations.
Open Scope string_scope.
Set Warnings "-register-all".

(** ** JSON values *)

Inductive json : Type :=
| JNull
| JBool (b : bool)
| JNum (n : Z)
| JStr (s : string)
| JArr (xs : list json)
| JObj (ps : list (string * json)).

(** JS truthiness. *)
Definition truthy (j : json) : bool :=
  match j with
  | JNull => false
  | JBool b => b
  | JNum n => negb (Z.eqb n 0)
  | JStr s => negb (String.eqb s EmptyString)
  | JArr _ | JObj _ => true
  end.

(** [a || b] where [a] may be [undefined]. *)
Definition or_else (a : option json) (b : json) : json :=
  match a with
  | Some j => if truthy j then j else b
  | None => b
  end.

(** Own property of a JS object literal (first binding; keys are unique). *)
Fixpoint assoc {A} (k : string) (ps : list (string * A)) : option A :=
  match ps with
  | [] => None
  | (k', v) :: ps' => if String.eqb k k' then Some v else assoc k ps'
  end.

(** [obj[k] = v]: overwrite in place, or append (insertion order). *)
Fixpoint assoc_set {A} (k : string) (v : A) (ps : list (string * A))
  : list (string * A) :=
  match ps with
  | [] => [(k, v)]
  | (k', v') :: ps' =>
      if String.eqb k k' then (k', v) :: ps' else (k', v') :: assoc_set k v ps'
  end.

(** Optional chaining [j?.k]: [undefined] on anything but an object with
    that property. *)
Definition jopt (j : option json) (k : string) : option json :=
  match j with
  | Some (JObj ps) => assoc k ps
  | _ => None
  end.

(** Property read [j.k] (strict mode): throws on [null]; primitives and
    arrays have none of the properties the code reads. *)
Definition jget (j : json) (k : string) : option (option json) :=
  match j with
  | JNull => None
  | JObj ps => Some (assoc k ps)
  | _ => Some None
  end.

Definition is_str (j : option json) (s : string) : bool :=
  match j with Some (JStr s') => String.eqb s s' | _ => false end.

(** ** Strings *)

Definition ascii_eqb (a b : ascii) : bool := Ascii.eqb a b.

Fixpoint string_rev (s : string) : string :=
  match s with
  | EmptyString => EmptyString
  | String c s' => string_rev s' ++ String c EmptyString
  end.

Definition ends_with (s suf : string) : bool :=
  String.prefix (string_rev suf) (string_rev s).

(** [s.replace(pat, '')] with a string pattern: removes the first
    occurrence only. *)
Fixpoint replace_first (pat s : string) : string :=
  if String.prefix pat s then substring (String.length pat) (String.length s) s
  else match s with
       | EmptyString => EmptyString
       | String c s' => String c (replace_first pat s')
       end.

Definition nl : ascii := ascii_of_nat 10.

Fixpoint split_on (c : ascii) (s : string) : list string :=
  match s with
  | EmptyString => [EmptyString]
  | String d s' =>
      if ascii_eqb c d then EmptyString :: split_on c s'
      else match split_on c s' with
           | [] => [String d EmptyString]
           | w :: ws => String d w :: ws
           end
  end.

Definition is_ws (c : ascii) : bool :=
  (* JS [trim] also strips Unicode spaces; ASCII whitespace here. *)
  let n := nat_of_ascii c in
  (n =? 32)%nat || (n =? 9)%nat || (n =? 10)%nat || (n =? 11)%nat
  || (n =? 12)%nat || (n =? 13)%nat.

Fixpoint trim_start (s : string) : string :=
  match s with
  | String c s' => if is_ws c then trim_start s' else s
  | EmptyString => EmptyString
  end.

Definition trim (s : string) : string :=
  string_rev (trim_start (string_rev (trim_start s))).

(** [line.replace(/\\n/g, '\n')]: the two characters backslash, n become a
    newline. *)
Fixpoint unescape_nl (s : string) : string :=
  match s with
  | String c ((String d s') as rest) =>
      if (nat_of_ascii c =? 92)%nat && ascii_eqb d "n"%char
      then String nl (unescape_nl s')
      else String c (unescape_nl rest)
  | _ => s
  end.

(** ** Numbers: [String(x)] and [parseInt] *)

Fixpoint digits_of_pos (fuel : nat) (n : Z) (acc : string) : string :=
  match fuel with
  | O => acc
  | S f =>
      let d := ascii_of_nat (48 + Z.to_nat (n mod 10)) in
      if Z.ltb n 10 then String d acc
      else digits_of_pos f (n / 10) (String d acc)
  end.

Definition Z_to_string (n : Z) : string :=
  if Z.ltb n 0 then "-" ++ digits_of_pos (Z.to_nat (- n)) (- n) EmptyString
  else digits_of_pos (Z.to_nat n) n EmptyString.

Definition digit_val (c : ascii) : option Z :=
  let n := nat_of_ascii c in
  if (48 <=? n)%nat && (n <=? 57)%nat then Some (Z.of_nat (n - 48)) else None.

Fixpoint parse_digits (s : string) (acc : Z) (seen : bool) : option Z :=
  match s with
  | String c s' =>
      match digit_val c with
      | Some d => parse_digits s' (acc * 10 + d) true
      | None => if seen then Some acc else None
      end
  | EmptyString => if seen then Some acc else None
  end.

(** [parseInt] of a string; [None] is [NaN]. *)
Definition parseInt_str (s : string) : option Z :=
  match trim_start s with
  | String "-"%char s' => option_map Z.opp (parse_digits s' 0 false)
  | String "+"%char s' => parse_digits s' 0 false
  | s' => parse_digits s' 0 false
  end.

(** [String(x)] for the values [parseInt] may receive. *)
Fixpoint js_to_string (j : json) : string :=
  match j with
  | JNull => "null"
  | JBool true => "true"
  | JBool false => "false"
  | JNum n => Z_to_string n
  | JStr s => s
  | JArr xs =>
      (fix go (xs : list json) : string :=
         match xs with
         | [] => EmptyString
         | [x] => match x with JNull => EmptyString | _ => js_to_string x end
         | x :: xs' =>
             (match x with JNull => EmptyString | _ => js_to_string x end) ++ "," ++ go xs'
         end) xs
  | JObj _ => "[object Object]"
  end.

Definition parseInt (j : option json) : option Z :=
  match j with
  | None => None
  | Some j => parseInt_str (js_to_string j)
  end.

(** ** File contents *)

Inductive text : Type :=
| TJson (j : json)                  (* [JSON.stringify(j, null, 2)] *)
| TEnvelope (key : string) (t : text)
| TRaw (s : string).               (* any other text, never valid JSON *)

(** Modelled from the spec: the Cipher Adapter ([EncryptionService] of
    src/backend/src/utils/encryption.js). [encrypt] wraps the text in a
    self-describing envelope, [isEncrypted] recognises the envelope and never
    plain JSON, [decrypt] fails under any key other than the one used to
    encrypt. *)
Definition encrypt (t : text) (key : string) : text := TEnvelope key t.

Definition isEncrypted (t : text) : bool :=
  match t with TEnvelope _ _ => true | _ => false end.

Definition decrypt (t : text) (key : string) : option text :=
  match t with
  | TEnvelope k t' => if String.eqb k key then Some t' else None
  | _ => None
  end.

(** Modelled from the spec: the envelope is opaque ciphertext; its
    characters are rendered as one fixed marker line. *)
Definition envelope_string : string := "ENCRYPTED".

Definition json_escape_char (c : ascii) : string :=
  (* [JSON.stringify] also escapes the other control characters *)
  let n := nat_of_ascii c in
  if (n =? 34)%nat then String "\"%char (String c EmptyString)
  else if (n =? 92)%nat then String "\"%char (String c EmptyString)
  else if (n =? 10)%nat then String "\"%char "n"
  else String c EmptyString.

Fixpoint json_escape (s : string) : string :=
  match s with
  | EmptyString => EmptyString
  | String c s' => json_escape_char c ++ json_escape s'
  end.

Definition quote (s : string) : string :=
  String "034"%char (json_escape s ++ String "034"%char EmptyString).

Definition nl_s : string := String nl EmptyString.

Fixpoint join (sep : string) (xs : list string) : string :=
  match xs with
  | [] => EmptyString
  | [x] => x
  | x :: xs' => x ++ sep ++ join sep xs'
  end.

(** [JSON.stringify(j, null, 2)], [ind] being the current indentation. *)
Fixpoint json_stringify (ind : string) (j : json) : string :=
  match j with
  | JNull => "null"
  | JBool true => "true"
  | JBool false => "false"
  | JNum n => Z_to_string n
  | JStr s => quote s
  | JArr [] => "[]"
  | JArr xs =>
      "[" ++ nl_s
      ++ join ("," ++ nl_s)
           (map (fun x => ind ++ "  " ++ json_stringify (ind ++ "  ") x) xs)
      ++ nl_s ++ ind ++ "]"
  | JObj [] => "{}"
  | JObj ps =>
      "{" ++ nl_s
      ++ join ("," ++ nl_s)
           (map (fun '(k, v) =>
                   ind ++ "  " ++ quote k ++ ": " ++ json_stringify (ind ++ "  ") v) ps)
      ++ nl_s ++ ind ++ "}"
  end.

Definition text_string (t : text) : string :=
  match t with
  | TJson j => json_stringify EmptyString j
  | TEnvelope _ _ => envelope_string
  | TRaw s => s
  end.

(** [JSON.parse]: only stringified JSON parses. *)
Definition json_parse (t : text) : option json :=
  match t with
  | TJson j => Some j
  | _ => None
  end.

(** ** The store state and its monad *)

(** JS values held in the heap of live objects: primitives or references. *)
Inductive jval : Type :=
| VNull
| VBool (b : bool)
| VNum (n : Z)
| VStr (s : string)
| VRef (l : nat).

(** A heap object: a plain object, or an array with its named
    (non-index) properties. *)
Inductive hobj : Type :=
| HObj (props : list (string * jval))
| HArr (elems : list jval) (props : list (string * jval)).

Record store : Type := mkStore {
  files : gmap string text;     (* the profiles directory *)
  heap : gmap nat hobj;         (* live JS objects *)
  next_loc : nat;               (* next fresh location *)
  writes : list string          (* files written, oldest first *)
}.

Inductive result (A : Type) : Type :=
| Ok (a : A)
| Err (msg : string).
Arguments Ok {A} a.
Arguments Err {A} msg.

(** State-and-error computations over a state [S]. *)
Definition ST (S A : Type) : Type := S -> result A * S.

Abbreviation M := (ST store).

Definition ret {S A} (a : A) : ST S A := fun st => (Ok a, st).
Definition throw {S A} (msg : string) : ST S A := fun st => (Err msg, st).
Definition bind {S A B} (m : ST S A) (k : A -> ST S B) : ST S B :=
  fun st => match m st with
            | (Ok a, st') => k a st'
            | (Err e, st') => (Err e, st')
            end.
Definition try_catch {S A} (m : ST S A) (h : string -> ST S A) : ST S A :=
  fun st => match m st with
            | (Ok a, st') => (Ok a, st')
            | (Err e, st') => h e st'
            end.

Notation "'let!' x := m 'in' k" := (bind m (fun x => k))
  (at level 200, x name, m at level 100, k at level 200).

Definition lift_opt {S A} (o : option A) (msg : string) : ST S A :=
  match o with Some a => ret a | None => throw msg end.

Definition TypeError : string := "TypeError".

(** JS truthiness of an [encryptionKey] parameter ([null] is [None]). *)
Definition key_truthy (key : option string) : bool :=
  match key with Some k => negb (String.eqb k EmptyString) | None => false end.

(** ** File I/O *)

Definition fs_readFile (p : string) : M text :=
  fun st => match files st !! p with
            | Some t => (Ok t, st)
            | None => (Err "ENOENT", st)
            end.

Definition fs_access (p : string) : M unit :=
  fun st => match files st !! p with
            | Some _ => (Ok tt, st)
            | None => (Err "ENOENT", st)
            end.

Definition fs_writeFile (p : string) (t : text) : M unit :=
  fun st => (Ok tt, mkStore (<[p := t]> (files st)) (heap st) (next_loc st)
                            (writes st ++ [p])).

Definition decrypt_error : string :=
  "Failed to decrypt file - incorrect password or corrupted data".

Definition readFileContent (filePath : string) (encryptionKey : option string)
  : M text :=
  let! content := fs_readFile filePath in
  match encryptionKey with
  | Some k =>
      if key_truthy encryptionKey && isEncrypted content then
        match decrypt content k with
        | Some t => ret t
        | None => throw decrypt_error
        end
      else ret content
  | None => ret content
  end.

Definition writeFileContent (filePath : string) (content : text)
  (encryptionKey : option string) (shouldEncrypt : bool) : M unit :=
  let outputContent :=
    match encryptionKey with
    | Some k => if key_truthy encryptionKey && shouldEncrypt then encrypt content k
                else content
    | None => content
    end in
  fs_writeFile filePath outputContent.

Definition JSON_parse (t : text) : M json :=
  lift_opt (json_parse t) "SyntaxError: Unexpected token, not valid JSON".

Definition PUBLIC_PROFILES : list string := ["Echo"; "Kairos"].

Definition shouldEncryptProfile (profileName : string) : bool :=
  negb (existsb (String.eqb profileName) PUBLIC_PROFILES).

Definition json_path (name : string) : string := name ++ ".json".
Definition txt_path (name : string) : string := name ++ ".txt".
Definition user_profile_path : string := "user-profile.json".

(** [fs.readdir(profilesDir)] *)
Definition readdir (st : store) : list string := elements (dom (files st)).

(** [profileNames.add(x)] on a JS [Set] (insertion order). *)
Definition set_add (x : string) (s : list string) : list string :=
  if existsb (String.eqb x) s then s else s ++ [x].

Definition listProfiles_step (acc : list string) (f : string) : list string :=
  if ends_with f ".json" && negb (String.eqb f "user-profile.json") then
    set_add (replace_first ".json" f) acc
  else if ends_with f ".txt"
          && negb (String.eqb f "active-character.txt")
          && negb (String.eqb f "user-settings.txt")
          && negb (ends_with f "_avatar.txt") then
    set_add (replace_first ".txt" f) acc
  else acc.

Definition listProfiles : M (list string) :=
  fun st => (Ok (fold_left listProfiles_step (readdir st) []), st).

(** ** Character documents *)

(** [data.version === '2.0' && data.type === 'character'] (throws on a
    [null] document). *)
Definition is_v2_character (data : json) : M bool :=
  match jget data "version" with
  | None => throw TypeError
  | Some ver =>
      if is_str ver "2.0" then
        match jget data "type" with
        | None => throw TypeError
        | Some ty => ret (is_str ty "character")
        end
      else ret false
  end.

(** One line of the legacy [key=value] format. *)
Definition legacy_line (profile : list (string * json)) (line : string)
  : list (string * json) :=
  match String.index 0 "=" line with
  | Some firstEquals =>
      let key := trim (substring 0 firstEquals line) in
      let value := unescape_nl (substring (S firstEquals) (String.length line) line) in
      assoc_set key (if String.eqb key "notifications"
                     then JBool (String.eqb value "true") else JStr value) profile
  | None => profile
  end.

Definition getProfile (profileName : string) (encryptionKey : option string)
  : M json :=
  let jsonPath := json_path profileName in
  let txtPath := txt_path profileName in
  let needsDecryption := shouldEncryptProfile profileName in
  let! fromJson :=
    try_catch
      (let! content := readFileContent jsonPath
                         (if needsDecryption then encryptionKey else None) in
       let! data := JSON_parse content in
       let! v2 := is_v2_character data in
       ret (if v2 then Some data else None))
      (fun _ => ret None) in
  match fromJson with
  | Some data => ret data
  | None =>
      let! _ := try_catch (fs_access txtPath)
                  (fun _ => throw "Profile not found or cannot be decrypted") in
      let! content := fs_readFile txtPath in
      let lines := split_on nl (text_string content) in
      ret (JObj (fold_left legacy_line lines []))
  end.

(** Property of the incoming (non-null) [profileData]. *)
Definition pget (j : json) (k : string) : option json :=
  match j with JObj ps => assoc k ps | _ => None end.

(** [parseInt(profileData.age) || 25] *)
Definition age_of (a : option json) : Z :=
  match parseInt a with
  | Some n => if Z.eqb n 0 then 25 else n
  | None => 25
  end.

(** The v2.0 structure built by [saveProfile] from a partial update. *)
Definition build_character (profileName : string) (profileData : json)
  (existingData : option json) : json :=
  JObj [("version", JStr "2.0"); ("type", JStr "character");
        ("character", JObj [
           ("name", or_else (pget profileData "name") (JStr profileName));
           ("gender", or_else (pget profileData "gender") (JStr "female"));
           ("species", or_else (pget profileData "species") (JStr "human"));
           ("age", JNum (age_of (pget profileData "age")));
           ("role", or_else (pget profileData "role") (JStr EmptyString));
           ("companionType", or_else (pget profileData "companionType") (JStr "friend"));
           ("appearance", or_else (pget profileData "appearance") (JStr EmptyString));
           ("traits", or_else (pget profileData "traits") (JStr EmptyString));
           ("interests", or_else (pget profileData "interests") (JStr EmptyString));
           ("backstory", or_else (pget profileData "backstory") (JStr EmptyString));
           ("boundaries", or_else (pget profileData "boundaries") (JStr EmptyString));
           ("avoidWords", or_else (pget profileData "avoidWords") (JStr EmptyString));
           ("notifications",
              JBool (match pget profileData "notifications" with
                     | Some (JBool false) => false
                     | _ => true
                     end));
           ("tagSelections", or_else (pget profileData "tagSelections") (JObj []));
           ("favorites",
              or_else (pget profileData "favorites")
                (or_else (jopt (jopt existingData "character") "favorites") (JArr [])))])].

(** The built-in value [saveProfile] writes for a character field that a
    partial update leaves out. *)
Definition character_field_defaults : list (string * json) :=
  [("gender", JStr "female"); ("species", JStr "human"); ("age", JNum 25);
   ("role", JStr EmptyString); ("companionType", JStr "friend");
   ("appearance", JStr EmptyString); ("traits", JStr EmptyString);
   ("interests", JStr EmptyString); ("backstory", JStr EmptyString);
   ("boundaries", JStr EmptyString); ("avoidWords", JStr EmptyString);
   ("notifications", JBool true); ("tagSelections", JObj [])].

(** The character fields [saveProfile] copies from the update when their
    value is truthy. *)
Definition character_copied_fields : list string :=
  ["name"; "gender"; "species"; "role"; "companionType"; "appearance"; "traits";
   "interests"; "backstory"; "boundaries"; "avoidWords"; "tagSelections"; "favorites"].

Definition saveProfile (profileName : string) (profileData : json)
  (encryptionKey : option string) : M unit :=
  let jsonPath := json_path profileName in
  let! full := is_v2_character profileData in
  let! data :=
    if full then ret profileData
    else
      let needsDecryption := shouldEncryptProfile profileName in
      let! existingData :=
        try_catch
          (let! content := readFileContent jsonPath
                             (if needsDecryption then encryptionKey else None) in
           let! e := JSON_parse content in
           ret (Some e))
          (fun _ => ret None) in
      ret (build_character profileName profileData existingData) in
  let shouldEncrypt := shouldEncryptProfile profileName in
  writeFileContent jsonPath (TJson data) encryptionKey shouldEncrypt.

(** [favorites.filter(fav => fav.id !== favoriteId)]; [fav.id] throws on a
    [null] entry. *)
Fixpoint filter_favorites (favoriteId : string) (favs : list json)
  : option (list json) :=
  match favs with
  | [] => Some []
  | fav :: rest =>
      match jget fav "id", filter_favorites favoriteId rest with
      | Some id, Some rest' =>
          Some (if is_str id favoriteId then rest' else fav :: rest')
      | _, _ => None
      end
  end.

(** The entry's [id] is [favoriteId] ([fav.id === favoriteId]). *)
Definition fav_has_id (favoriteId : string) (fav : json) : bool :=
  match jget fav "id" with Some id => is_str id favoriteId | None => false end.

Definition not_found_msg (favoriteId : string) : string :=
  "Favorite " ++ favoriteId ++ " not found".

(** The favorites step of [removeFavorite] on [data.character]: the new
    character object, or the error it throws. *)
Definition remove_from_character (favoriteId : string) (character : option json)
  : M json :=
  match character with
  | Some (JObj cs) =>
      let favs := or_else (assoc "favorites" cs) (JArr []) in
      match favs with
      | JArr xs =>
          match filter_favorites favoriteId xs with
          | Some xs' =>
              if Nat.eqb (length xs') (length xs) then throw (not_found_msg favoriteId)
              else ret (JObj (assoc_set "favorites" (JArr xs') cs))
          | None => throw TypeError
          end
      | _ => throw TypeError   (* [.filter] is not a function *)
      end
  | Some (JArr _) =>
      (* the [favorites = []] lands on the array as a named property *)
      throw (not_found_msg favoriteId)
  | _ => throw TypeError
  end.

Definition removeFavorite (profileName favoriteId : string)
  (encryptionKey : option string) : M bool :=
  let jsonPath := json_path profileName in
  let needsEncryption := shouldEncryptProfile profileName in
  let! done_ :=
    try_catch
      (let! content := readFileContent jsonPath
                         (if needsEncryption then encryptionKey else None) in
       let! data := JSON_parse content in
       let! v2 := is_v2_character data in
       if v2 then
         let! character := remove_from_character favoriteId (pget data "character") in
         let data' := match data with
                      | JObj ps => JObj (assoc_set "character" character ps)
                      | _ => data
                      end in
         let! _ := writeFileContent jsonPath (TJson data') encryptionKey needsEncryption in
         ret true
       else ret false)
      (fun err => throw err) in
  if done_ then ret true
  else throw ("Profile " ++ profileName ++ " not found or invalid format").

(** ** Re-encryption *)

(** Read under [oldPassword], else under [newPassword]; the flag is
    [alreadyReEncrypted]. *)
Definition read_old_or_new (p : string) (oldPassword newPassword : string)
  (errMsg : string) : M (text * bool) :=
  try_catch
    (let! c := readFileContent p (Some oldPassword) in ret (c, false))
    (fun _ =>
       try_catch
         (let! c := readFileContent p (Some newPassword) in ret (c, true))
         (fun _ => throw errMsg)).

Definition reEncryptProfile (oldPassword newPassword profileName : string)
  : M unit :=
  if negb (shouldEncryptProfile profileName) then ret tt
  else
    try_catch
      (let! r := read_old_or_new (json_path profileName) oldPassword newPassword
                   "Cannot decrypt profile - may be corrupted" in
       if snd r then ret tt
       else
         let! profileData := JSON_parse (fst r) in
         saveProfile profileName profileData (Some newPassword))
      (fun _ => throw "Failed to re-encrypt profile").

Fixpoint reEncryptProfiles (oldPassword newPassword : string) (profiles : list string)
  : M unit :=
  match profiles with
  | [] => ret tt
  | profileName :: rest =>
      let! _ := reEncryptProfile oldPassword newPassword profileName in
      reEncryptProfiles oldPassword newPassword rest
  end.

(** The user document is parsed and re-serialised unchanged; the fresh
    object [JSON.parse] creates is not shared, so it is kept as a value. *)
Definition reEncryptUser (oldPassword newPassword : string) : M unit :=
  try_catch
    (let! r := read_old_or_new user_profile_path oldPassword newPassword
                 "Cannot decrypt user profile - may be corrupted" in
     if snd r then ret tt
     else
       let! userProfileData := JSON_parse (fst r) in
       writeFileContent user_profile_path (TJson userProfileData) (Some newPassword) true)
    (fun _ => throw "Failed to re-encrypt user profile").

Definition reEncryptAllData (oldPassword newPassword : string) : M unit :=
  let! profiles := listProfiles in
  let! _ := reEncryptProfiles oldPassword newPassword profiles in
  reEncryptUser oldPassword newPassword.

(** ** Live objects: the user document and the module-level defaults *)

Definition truthy_val (v : jval) : bool :=
  match v with
  | VNull => false
  | VBool b => b
  | VNum n => negb (Z.eqb n 0)
  | VStr s => negb (String.eqb s EmptyString)
  | VRef _ => true
  end.

Definition truthy_opt (v : option jval) : bool :=
  match v with Some v => truthy_val v | None => false end.

(** Allocation of a fresh JS value for a JSON value (what [JSON.parse] or an
    object literal creates); children first. *)
Fixpoint alloc (j : json) (h : gmap nat hobj) (n : nat)
  : jval * gmap nat hobj * nat :=
  match j with
  | JNull => (VNull, h, n)
  | JBool b => (VBool b, h, n)
  | JNum z => (VNum z, h, n)
  | JStr s => (VStr s, h, n)
  | JArr xs =>
      let '(vs, h1, n1) :=
        (fix go (xs : list json) (h : gmap nat hobj) (n : nat) :=
           match xs with
           | [] => ([], h, n)
           | x :: xs' =>
               let '(v, h1, n1) := alloc x h n in
               let '(vs, h2, n2) := go xs' h1 n1 in
               (v :: vs, h2, n2)
           end) xs h n in
      (VRef n1, <[n1 := HArr vs []]> h1, S n1)
  | JObj ps =>
      let '(vs, h1, n1) :=
        (fix go (ps : list (string * json)) (h : gmap nat hobj) (n : nat) :=
           match ps with
           | [] => ([], h, n)
           | (k, x) :: ps' =>
               let '(v, h1, n1) := alloc x h n in
               let '(vs, h2, n2) := go ps' h1 n1 in
               ((k, v) :: vs, h2, n2)
           end) ps h n in
      (VRef n1, <[n1 := HObj vs]> h1, S n1)
  end.

(** The JSON value of a live value; [None] on a cycle or a dangling
    reference ([JSON.stringify] throws). Each object on a path consumes
    one unit of [fuel]. *)
Fixpoint to_json (fuel : nat) (h : gmap nat hobj) (v : jval) : option json :=
  match v with
  | VNull => Some JNull
  | VBool b => Some (JBool b)
  | VNum z => Some (JNum z)
  | VStr s => Some (JStr s)
  | VRef l =>
      match fuel with
      | O => None
      | S f =>
          match h !! l with
          | Some (HObj ps) =>
              option_map JObj
                ((fix go (ps : list (string * jval)) : option (list (string * json)) :=
                    match ps with
                    | [] => Some []
                    | (k, x) :: ps' =>
                        match to_json f h x, go ps' with
                        | Some j, Some js => Some ((k, j) :: js)
                        | _, _ => None
                        end
                    end) ps)
          | Some (HArr vs _) =>
              (* named properties of an array are not serialised *)
              option_map JArr
                ((fix go (vs : list jval) : option (list json) :=
                    match vs with
                    | [] => Some []
                    | x :: vs' =>
                        match to_json f h x, go vs' with
                        | Some j, Some js => Some (j :: js)
                        | _, _ => None
                        end
                    end) vs)
          | None => None
          end
      end
  end.

(** The loops of [alloc] and [to_json] over the children, by name. *)
Fixpoint alloc_elems (xs : list json) (h : gmap nat hobj) (n : nat)
  : list jval * gmap nat hobj * nat :=
  match xs with
  | [] => ([], h, n)
  | x :: xs' =>
      let '(v, h1, n1) := alloc x h n in
      let '(vs, h2, n2) := alloc_elems xs' h1 n1 in
      (v :: vs, h2, n2)
  end.

Fixpoint alloc_props (ps : list (string * json)) (h : gmap nat hobj) (n : nat)
  : list (string * jval) * gmap nat hobj * nat :=
  match ps with
  | [] => ([], h, n)
  | (k, x) :: ps' =>
      let '(v, h1, n1) := alloc x h n in
      let '(vs, h2, n2) := alloc_props ps' h1 n1 in
      ((k, v) :: vs, h2, n2)
  end.

Fixpoint to_json_elems (fuel : nat) (h : gmap nat hobj) (vs : list jval)
  : option (list json) :=
  match vs with
  | [] => Some []
  | x :: vs' =>
      match to_json fuel h x, to_json_elems fuel h vs' with
      | Some j, Some js => Some (j :: js)
      | _, _ => None
      end
  end.

Fixpoint to_json_props (fuel : nat) (h : gmap nat hobj) (ps : list (string * jval))
  : option (list (string * json)) :=
  match ps with
  | [] => Some []
  | (k, x) :: ps' =>
      match to_json fuel h x, to_json_props fuel h ps' with
      | Some j, Some js => Some ((k, j) :: js)
      | _, _ => None
      end
  end.

(** Nesting depth of a JSON value: the objects and arrays on its longest
    path. *)
Fixpoint json_depth (j : json) : nat :=
  match j with
  | JArr xs =>
      S ((fix go (xs : list json) : nat :=
            match xs with [] => 0 | x :: xs' => Nat.max (json_depth x) (go xs') end) xs)
  | JObj ps =>
      S ((fix go (ps : list (string * json)) : nat :=
            match ps with [] => 0 | (_, x) :: ps' => Nat.max (json_depth x) (go ps') end) ps)
  | _ => 0
  end.

Fixpoint depth_elems (xs : list json) : nat :=
  match xs with [] => 0 | x :: xs' => Nat.max (json_depth x) (depth_elems xs') end.

Fixpoint depth_props (ps : list (string * json)) : nat :=
  match ps with [] => 0 | (_, x) :: ps' => Nat.max (json_depth x) (depth_props ps') end.

Definition alloc_m (j : json) : M jval :=
  fun st => let '(v, h, n) := alloc j (heap st) (next_loc st) in
            (Ok v, mkStore (files st) h n (writes st)).

(** Every live object sits below [next_loc], so a path without a cycle
    visits at most [next_loc] objects: running out of that much fuel means
    a cycle. *)
Definition JSON_stringify (v : jval) : M json :=
  fun st => match to_json (S (next_loc st)) (heap st) v with
            | Some j => (Ok j, st)
            | None => (Err TypeError, st)
            end.

(** [JSON.parse] producing fresh live objects. *)
Definition JSON_parse_live (t : text) : M jval :=
  let! j := JSON_parse t in alloc_m j.

(** [v.k] *)
Definition get_prop (v : jval) (k : string) : M (option jval) :=
  fun st =>
    match v with
    | VNull => (Err TypeError, st)
    | VRef l =>
        match heap st !! l with
        | Some (HObj ps) => (Ok (assoc k ps), st)
        | Some (HArr _ ps) => (Ok (assoc k ps), st)
        | None => (Err TypeError, st)
        end
    | _ => (Ok None, st)
    end.

(** [v.k = x] (strict mode: throws on a primitive). *)
Definition set_prop (v : jval) (k : string) (x : jval) : M unit :=
  fun st =>
    match v with
    | VRef l =>
        match heap st !! l with
        | Some (HObj ps) =>
            (Ok tt, mkStore (files st) (<[l := HObj (assoc_set k x ps)]> (heap st))
                            (next_loc st) (writes st))
        | Some (HArr vs ps) =>
            (Ok tt, mkStore (files st) (<[l := HArr vs (assoc_set k x ps)]> (heap st))
                            (next_loc st) (writes st))
        | None => (Err TypeError, st)
        end
    | _ => (Err TypeError, st)
    end.

(** [v.k = x] where [v] may be [undefined]. *)
Definition set_on (v : option jval) (k : string) (x : jval) : M unit :=
  match v with Some v => set_prop v k x | None => throw TypeError end.

(** [{ ...v }]: a fresh object with the same own properties (shallow). *)
Definition spread (v : jval) : M jval :=
  fun st =>
    let n := next_loc st in
    let fresh ps := (Ok (VRef n), mkStore (files st) (<[n := HObj ps]> (heap st))
                                         (S n) (writes st)) in
    match v with
    | VRef l =>
        match heap st !! l with
        | Some (HObj ps) => fresh ps
        | Some (HArr vs ps) =>
            fresh (app (imap (fun i x => (Z_to_string (Z.of_nat i), x)) vs) ps)
        | None => (Err TypeError, st)
        end
    | _ => fresh []
    end.

Definition empty_preferences : json :=
  JObj [("music", JArr []); ("books", JArr []); ("movies", JArr []);
        ("hobbies", JArr []); ("other", JStr EmptyString)].

Definition default_user_json : json :=
  JObj [("version", JStr "2.0"); ("type", JStr "user");
        ("user", JObj [("name", JStr "User"); ("gender", JStr "non-binary");
                       ("species", JStr "human"); ("timezone", JStr "UTC");
                       ("backstory", JStr EmptyString);
                       ("preferences", empty_preferences);
                       ("majorLifeEvents", JArr []);
                       ("communicationBoundaries", JStr EmptyString)]);
        ("settings", JObj []);
        ("sharedMemory", JObj [("roleplayEvents", JArr [])])].

(** The module is loaded into an empty heap: [const DEFAULT_USER_DATA = {...}]
    is the first allocation. *)
Definition default_alloc : jval * gmap nat hobj * nat := alloc default_user_json ∅ 0.

Definition DEFAULT_USER_DATA : jval := fst (fst default_alloc).

(** The store right after the module is loaded, over a given directory. *)
Definition init_store (fs : gmap string text) : store :=
  mkStore fs (snd (fst default_alloc)) (snd default_alloc) [].

(** ** User document operations *)

Definition setActiveProfile (profileName : string) (encryptionKey : option string)
  : M unit :=
  let userProfilePath := user_profile_path in
  try_catch
    (let! content := readFileContent userProfilePath encryptionKey in
     let! data := JSON_parse_live content in
     let! settings := get_prop data "settings" in
     let! _ := if truthy_opt settings then ret tt
               else let! o := alloc_m (JObj []) in set_prop data "settings" o in
     let! settings := get_prop data "settings" in
     let! _ := set_on settings "defaultActiveCharacter" (VStr profileName) in
     let! j := JSON_stringify data in
     writeFileContent userProfilePath (TJson j) encryptionKey true)
    (fun _ =>
       let! newData := spread DEFAULT_USER_DATA in
       let! settings := get_prop newData "settings" in
       let! _ := set_on settings "defaultActiveCharacter" (VStr profileName) in
       let! j := JSON_stringify newData in
       writeFileContent userProfilePath (TJson j) encryptionKey true).

Definition refusal_msg : string :=
  "Cannot save user settings - unable to read existing profile (encryption key mismatch?)".

(** [existingData.settings.k = x] *)
Definition set_setting (existingData : jval) (k : string) (x : jval) : M unit :=
  let! s := get_prop existingData "settings" in set_on s k x.

Definition saveUserSettings (settings : list (string * json))
  (encryptionKey : option string) : M unit :=
  let jsonFile := user_profile_path in
  let field k := assoc k settings in
  let! existingData :=
    try_catch
      (let! content := readFileContent jsonFile encryptionKey in
       JSON_parse_live content)
      (fun _ =>
         let! _ := try_catch
                     (let! _ := fs_access jsonFile in throw refusal_msg)
                     (fun _ => ret tt) in
         ret DEFAULT_USER_DATA) in
  let! user := alloc_m (JObj [
      ("name", or_else (field "userName") (JStr "User"));
      ("gender", or_else (field "userGender") (JStr "non-binary"));
      ("species", or_else (field "userSpecies") (JStr "human"));
      ("timezone", or_else (field "timezone") (JStr "UTC"));
      ("backstory", or_else (field "userBackstory") (JStr EmptyString));
      ("preferences", or_else (field "userPreferences") empty_preferences);
      ("majorLifeEvents", or_else (field "majorLifeEvents") (JArr []));
      ("communicationBoundaries",
         or_else (field "communicationBoundaries") (JStr EmptyString))]) in
  let! _ := set_prop existingData "user" user in
  let! sharedMemory :=
    alloc_m (JObj [("roleplayEvents", or_else (field "sharedRoleplayEvents") (JArr []))]) in
  let! _ := set_prop existingData "sharedMemory" sharedMemory in
  let! cur := get_prop existingData "settings" in
  let! _ := if truthy_opt cur then ret tt
            else let! o := alloc_m (JObj []) in set_prop existingData "settings" o in
  let! enableMemory :=
    alloc_m (match field "enableMemory" with Some j => j | None => JBool false end) in
  let! _ := set_setting existingData "enableMemory" enableMemory in
  let! enableWebSearch :=
    alloc_m (match field "enableWebSearch" with Some j => j | None => JBool false end) in
  let! _ := set_setting existingData "enableWebSearch" enableWebSearch in
  let! webSearchApiKey := alloc_m (or_else (field "webSearchApiKey") (JStr EmptyString)) in
  let! _ := set_setting existingData "webSearchApiKey" webSearchApiKey in
  let! _ := match field "defaultActiveCharacter" with
            | Some j => let! v := alloc_m j in
                        set_setting existingData "defaultActiveCharacter" v
            | None => ret tt
            end in
  let! j := JSON_stringify existingData in
  writeFileContent jsonFile (TJson j) encryptionKey true.

Definition saveConsent (consentData : json) (encryptionKey : option string) : M unit :=
  let jsonFile := user_profile_path in
  let! existingData :=
    try_catch
      (let! content := readFileContent jsonFile encryptionKey in
       JSON_parse_live content)
      (fun _ => ret DEFAULT_USER_DATA) in
  let! consent := alloc_m consentData in
  let! _ := set_prop existingData "consent" consent in
  let! j := JSON_stringify existingData in
  writeFileContent jsonFile (TJson j) encryptionKey (key_truthy encryptionKey).

(** ** Session manager *)

(** ** Further profile storage operations *)

Definition active_character_path : string := "active-character.txt".

Definition user_settings_path : string := "user-settings.txt".

(** [getActiveProfile(encryptionKey)]; [null] is [JNull]. *)
Definition getActiveProfile (encryptionKey : option string) : M json :=
  let! fromJson :=
    try_catch
      (let! content := readFileContent user_profile_path encryptionKey in
       let! data := JSON_parse content in
       match jget data "version" with
       | None => throw TypeError
       | Some ver =>
           if is_str ver "2.0" then
             match jopt (jopt (Some data) "settings") "defaultActiveCharacter" with
             | Some d => ret (if truthy d then Some d else None)
             | None => ret None
             end
           else ret None
       end)
      (fun _ => ret None) in
  match fromJson with
  | Some d => ret d
  | None =>
      try_catch
        (let! activeName := fs_readFile active_character_path in
         ret (JStr (trim (text_string activeName))))
        (fun _ => ret JNull)
  end.

Definition profileExists (profileName : string) : M bool :=
  try_catch
    (let! _ := fs_access (json_path profileName) in ret true)
    (fun _ =>
       try_catch
         (let! _ := fs_access (txt_path profileName) in ret true)
         (fun _ => ret false)).

(** [fs.unlink(p)] *)
Definition fs_unlink (p : string) : M unit :=
  fun st => match files st !! p with
            | Some _ => (Ok tt, mkStore (delete p (files st)) (heap st) (next_loc st)
                                        (writes st))
            | None => (Err "ENOENT", st)
            end.

Definition avatar_path (name : string) : string := name ++ "_avatar.txt".

Definition delete_avatar_upload (profileName : string) (uploads : option (list string))
  : option (list string) :=
  match uploads with
  | None => None
  | Some fs =>
      match List.find (fun f => String.prefix (profileName ++ ".") f) fs with
      | Some avatarFile => Some (List.filter (fun f => negb (String.eqb f avatarFile)) fs)
      | None => Some fs
      end
  end.

Definition deleteProfile (profileName : string) (uploads : option (list string))
  : M (option (list string)) :=
  let! _ := try_catch (fs_unlink (json_path profileName)) (fun _ => ret tt) in
  let! _ := try_catch (fs_unlink (txt_path profileName)) (fun _ => ret tt) in
  let! _ := try_catch (fs_unlink (avatar_path profileName)) (fun _ => ret tt) in
  ret (delete_avatar_upload profileName uploads).

(** The [settings] literal of the legacy path of [getUserSettings]. *)
Definition default_user_settings : list (string * json) :=
  [("userName", JStr "User"); ("userGender", JStr "non-binary");
   ("userSpecies", JStr "human"); ("timezone", JStr "UTC");
   ("userBackstory", JStr EmptyString); ("userPreferences", empty_preferences);
   ("majorLifeEvents", JArr []); ("sharedRoleplayEvents", JArr [])].

(** The properties every object inherits from [Object.prototype]. *)
Definition object_prototype_names : list string :=
  ["constructor"; "__defineGetter__"; "__defineSetter__"; "hasOwnProperty";
   "__lookupGetter__"; "__lookupSetter__"; "isPrototypeOf";
   "propertyIsEnumerable"; "toString"; "valueOf"; "__proto__"; "toLocaleString"].

Definition settings_line (settings : list (string * json)) (line : string)
  : list (string * json) :=
  match String.index 0 "=" line with
  | Some firstEquals =>
      let key := trim (substring 0 firstEquals line) in
      let value := substring (S firstEquals) (String.length line) line in
      if String.eqb key "__proto__" then settings
      else if (if assoc key settings then true else false)
              || existsb (String.eqb key) object_prototype_names
      then assoc_set key (JStr value) settings
      else settings
  | None => settings
  end.

Definition getUserSettings (encryptionKey : option string) : M json :=
  let! fromJson :=
    try_catch
      (let! content := readFileContent user_profile_path encryptionKey in
       let! data := JSON_parse content in
       match jget data "version" with
       | None => throw TypeError
       | Some ver =>
           if is_str ver "2.0" then
             match jget data "type" with
             | None => throw TypeError
             | Some ty => ret (if is_str ty "user" then Some data else None)
             end
           else ret None
       end)
      (fun _ => ret None) in
  match fromJson with
  | Some data => ret data
  | None =>
      try_catch
        (let! content := fs_readFile user_settings_path in
         let lines := split_on nl (text_string content) in
         ret (JObj (fold_left settings_line lines default_user_settings)))
        (fun _ => ret (JObj default_user_settings))
  end.

(** The object [getConsent] returns when no consent is stored. *)
Definition default_consent : json :=
  JObj [("accepted", JBool false); ("timestamp", JNull); ("version", JStr "1.0");
        ("checkboxes", JObj [("ageConfirmation", JBool false);
                             ("fictionalityAcknowledgment", JBool false);
                             ("prohibitedActivities", JBool false);
                             ("realPersonLikeness", JBool false);
                             ("aiLimitations", JBool false);
                             ("narrativeConsent", JBool false);
                             ("experimentalRisks", JBool false);
                             ("termsOfService", JBool false)])].

Definition getConsent (encryptionKey : option string) : M json :=
  let! stored :=
    try_catch
      (let! content := readFileContent user_profile_path encryptionKey in
       let! data := JSON_parse content in
       match jget data "consent" with
       | None => throw TypeError
       | Some (Some c) => ret (if truthy c then Some c else None)
       | Some None => ret None
       end)
      (fun _ => ret None) in
  match stored with
  | Some c => ret c
  | None => ret default_consent
  end.

Definition getFavorites (profileName : string) (encryptionKey : option string) : M json :=
  let jsonPath := json_path profileName in
  let needsDecryption := shouldEncryptProfile profileName in
  try_catch
    (let! content := readFileContent jsonPath
                       (if needsDecryption then encryptionKey else None) in
     let! data := JSON_parse content in
     let! v2 := is_v2_character data in
     if v2 then
       match pget data "character" with
       | Some c =>
           match jget c "favorites" with
           | Some f => ret (or_else f (JArr []))
           | None => throw TypeError
           end
       | None => throw TypeError
       end
     else ret (JArr []))
    (fun _ => ret (JArr [])).

Definition favorite_with_id (favorite : json) (now : Z) (rnd iso : string)
  : option json :=
  match jget favorite "id" with
  | None => None
  | Some id =>
      Some (JObj ([("id", or_else id (JStr ("fav-" ++ Z_to_string now ++ "-" ++ rnd)))]
                  ++ match pget favorite "text" with
                     | Some t => [("text", t)]
                     | None => []
                     end
                  ++ [("senderName", or_else (pget favorite "senderName") (JStr "Unknown"));
                      ("timestamp", or_else (pget favorite "timestamp") (JStr iso));
                      ("emotion", or_else (pget favorite "emotion") JNull);
                      ("sentiment", or_else (pget favorite "sentiment") JNull)]))
  end.

Definition default_favorites (character : option json) : M json :=
  match character with
  | Some (JObj cs) =>
      match assoc "favorites" cs with
      | Some f => if truthy f then ret (JObj cs)
                  else ret (JObj (assoc_set "favorites" (JArr []) cs))
      | None => ret (JObj (assoc_set "favorites" (JArr []) cs))
      end
  | Some (JArr xs) => ret (JArr xs)
  | _ => throw TypeError     (* [undefined], [null], or a primitive (strict mode) *)
  end.

(** [data.character.favorites.push(favoriteWithId)] *)
Definition push_favorite (favoriteWithId : json) (character : json) : M json :=
  match character with
  | JObj cs =>
      match assoc "favorites" cs with
      | Some (JArr xs) => ret (JObj (assoc_set "favorites" (JArr (xs ++ [favoriteWithId])) cs))
      | _ => throw TypeError   (* [.push] is not a function *)
      end
  | JArr xs => ret (JArr xs)   (* pushed onto the named property *)
  | _ => throw TypeError
  end.

Definition addFavorite (profileName : string) (favorite : json)
  (encryptionKey : option string) (now : Z) (rnd iso : string) : M json :=
  let jsonPath := json_path profileName in
  let needsEncryption := shouldEncryptProfile profileName in
  let! added :=
    try_catch
      (let! content := readFileContent jsonPath
                         (if needsEncryption then encryptionKey else None) in
       let! data := JSON_parse content in
       let! v2 := is_v2_character data in
       if v2 then
         let! character := default_favorites (pget data "character") in
         let! favoriteWithId := lift_opt (favorite_with_id favorite now rnd iso) TypeError in
         let! character := push_favorite favoriteWithId character in
         let data' := match data with
                      | JObj ps => JObj (assoc_set "character" character ps)
                      | _ => data
                      end in
         let! _ := writeFileContent jsonPath (TJson data') encryptionKey needsEncryption in
         ret (Some favoriteWithId)
       else ret None)
      (fun err => throw err) in
  match added with
  | Some favoriteWithId => ret favoriteWithId
  | None => throw ("Profile " ++ profileName ++ " not found or invalid format")
  end.

(** [m] leaves the state as it was, or succeeds with a result satisfying [P]. *)
Definition keeps_unless {A} (P : A -> Prop) (m : M A) : Prop :=
  forall st r st', m st = (r, st') -> st' = st \/ exists a, r = Ok a /\ P a.

Definition pure_m {A} (m : M A) : Prop := forall st, snd (m st) = st.

Definition total_m {A} (m : M A) : Prop := forall st, exists a, m st = (Ok a, st).

(** The [user] object literal [saveUserSettings] writes. *)
Definition saved_user (settings : list (string * json)) : json :=
  let field k := assoc k settings in
  JObj [
    ("name", or_else (field "userName") (JStr "User"));
    ("gender", or_else (field "userGender") (JStr "non-binary"));
    ("species", or_else (field "userSpecies") (JStr "human"));
    ("timezone", or_else (field "timezone") (JStr "UTC"));
    ("backstory", or_else (field "userBackstory") (JStr EmptyString));
    ("preferences", or_else (field "userPreferences") empty_preferences);
    ("majorLifeEvents", or_else (field "majorLifeEvents") (JArr []));
    ("communicationBoundaries",
       or_else (field "communicationBoundaries") (JStr EmptyString))].

(** The [sharedMemory] object literal [saveUserSettings] writes. *)
Definition saved_sharedMemory (settings : list (string * json)) : json :=
  JObj [("roleplayEvents", or_else (assoc "sharedRoleplayEvents" settings) (JArr []))].

(** The settings object [ss] after the four assignments of [saveUserSettings]. *)
Definition saved_settings (settings ss : list (string * json)) : list (string * json) :=
  let field k := assoc k settings in
  let ss1 := assoc_set "enableMemory"
               (match field "enableMemory" with Some j => j | None => JBool false end) ss in
  let ss2 := assoc_set "enableWebSearch"
               (match field "enableWebSearch" with Some j => j | None => JBool false end) ss1 in
  let ss3 := assoc_set "webSearchApiKey"
               (or_else (field "webSearchApiKey") (JStr EmptyString)) ss2 in
  match field "defaultActiveCharacter" with
  | Some j => assoc_set "defaultActiveCharacter" j ss3
  | None => ss3
  end.

(** The keys [settings_line] can give a value to. *)
Definition legacy_settings_ok (ps : list (string * json)) : Prop :=
  forall k v, assoc k ps = Some v ->
    (assoc k default_user_settings <> None \/ (In k object_prototype_names /\ k <> "__proto__")) /\
    ((exists s, v = JStr s) \/ assoc k default_user_settings = Some v).

Module Sessions.

(** Modelled from the spec: the agent instance ([HybridChatbot] of
    src/backend/src/core/chatbotHybrid.js): its character loader's key, the
    active character name, the conversation history and the cached-character
    slot. *)
Record agent : Type := mkAgent {
  ag_key : option string;
  ag_active : option string;
  ag_history : list string;
  ag_cached : option string
}.

(** Modelled from the spec: [new HybridChatbot()]. *)
Definition new_agent : agent := mkAgent None None [] None.

Record manager : Type := mkManager {
  sessions : gmap string nat;                    (* sessionId -> chatbot *)
  sessionCharacters : gmap string (option string); (* sessionId -> character *)
  lastActivity : gmap string Z;                  (* sessionId -> Date.now() *)
  agents : gmap nat agent;                       (* live chatbot instances *)
  next_agent : nat
}.

Abbreviation SM := (ST manager).

Definition set_sessions (f : gmap string nat -> gmap string nat) : SM unit :=
  fun m => (Ok tt, mkManager (f (sessions m)) (sessionCharacters m) (lastActivity m)
                             (agents m) (next_agent m)).
Definition set_sessionCharacters
  (f : gmap string (option string) -> gmap string (option string)) : SM unit :=
  fun m => (Ok tt, mkManager (sessions m) (f (sessionCharacters m)) (lastActivity m)
                             (agents m) (next_agent m)).
Definition set_lastActivity (f : gmap string Z -> gmap string Z) : SM unit :=
  fun m => (Ok tt, mkManager (sessions m) (sessionCharacters m) (f (lastActivity m))
                             (agents m) (next_agent m)).
Definition update_agent (a : nat) (f : agent -> agent) : SM unit :=
  fun m => (Ok tt, mkManager (sessions m) (sessionCharacters m) (lastActivity m)
                             (alter f a (agents m)) (next_agent m)).
Definition get_agent (a : nat) : SM agent :=
  fun m => match agents m !! a with
           | Some ag => (Ok ag, m)
           | None => (Err TypeError, m)
           end.
Definition new_chatbot : SM nat :=
  fun m => (Ok (next_agent m),
            mkManager (sessions m) (sessionCharacters m) (lastActivity m)
                      (<[next_agent m := new_agent]> (agents m)) (S (next_agent m))).

Section WithAgent.

(** Modelled from the spec: [characterLoader.loadCharacter(name?)] with the
    loader's key; it yields the active character name or fails. *)
Variable loadCharacter : option string -> option string -> result string.

(** Modelled from the spec: [chatbot.initialize()], the agent initialisation
    that runs after the character is fixed. *)
Variable initialize : agent -> result agent.

Definition lift {A} (r : result A) : SM A :=
  match r with Ok a => ret a | Err e => throw e end.

(** [chatbot.characterLoader.loadCharacterAsync(name)] *)
Definition loadCharacterAsync (a : nat) (name : option string) : SM unit :=
  let! ag := get_agent a in
  let! loaded := lift (loadCharacter name (ag_key ag)) in
  update_agent a (fun ag => mkAgent (ag_key ag) (Some loaded) (ag_history ag) (ag_cached ag)).

Definition setEncryptionKey (a : nat) (k : string) : SM unit :=
  update_agent a (fun ag => mkAgent (Some k) (ag_active ag) (ag_history ag) (ag_cached ag)).

(** [chatbot.cachedCharacter = null; chatbot.clearHistory()] *)
Definition reset_agent (a : nat) : SM unit :=
  update_agent a (fun ag => mkAgent (ag_key ag) (ag_active ag) [] None).

Definition initialize_m (a : nat) : SM unit :=
  let! ag := get_agent a in
  let! ag' := lift (initialize ag) in
  update_agent a (fun _ => ag').

(** [characterName && characterName !== currentCharacter] *)
Definition switch_needed (characterName : option string)
  (currentCharacter : option (option string)) : option string :=
  match characterName with
  | Some n =>
      if String.eqb n EmptyString then None
      else match currentCharacter with
           | Some (Some c) => if String.eqb n c then None else Some n
           | _ => Some n
           end
  | None => None
  end.

(** [getChatbot(sessionId, characterName, encryptionKey)], [Date.now()]
    being [now]. *)
Definition getChatbot (sessionId : string) (characterName : option string)
  (encryptionKey : option string) (now : Z) : SM nat :=
  if String.eqb sessionId EmptyString then throw "Session ID is required"
  else
    let! _ := set_lastActivity (fun la => <[sessionId := now]> la) in
    fun m =>
      match sessions m !! sessionId with
      | Some chatbot =>
          (let currentCharacter := sessionCharacters m !! sessionId in
           let! _ := match encryptionKey with
                     | Some k => if key_truthy encryptionKey
                                 then setEncryptionKey chatbot k else ret tt
                     | None => ret tt
                     end in
           let! _ := match switch_needed characterName currentCharacter with
                     | Some n =>
                         let! _ := loadCharacterAsync chatbot (Some n) in
                         let! _ := set_sessionCharacters
                                     (fun sc => <[sessionId := Some n]> sc) in
                         reset_agent chatbot
                     | None => ret tt
                     end in
           ret chatbot) m
      | None =>
          (let! chatbot := new_chatbot in
           let! _ := match encryptionKey with
                     | Some k => if key_truthy encryptionKey
                                 then setEncryptionKey chatbot k else ret tt
                     | None => ret tt
                     end in
           let! _ := match characterName with
                     | Some n =>
                         if String.eqb n EmptyString then
                           let! _ := loadCharacterAsync chatbot None in
                           let! ag := get_agent chatbot in
                           set_sessionCharacters
                             (fun sc => <[sessionId := ag_active ag]> sc)
                         else
                           let! _ := loadCharacterAsync chatbot (Some n) in
                           set_sessionCharacters (fun sc => <[sessionId := Some n]> sc)
                     | None =>
                         let! _ := loadCharacterAsync chatbot None in
                         let! ag := get_agent chatbot in
                         set_sessionCharacters (fun sc => <[sessionId := ag_active ag]> sc)
                     end in
           let! _ := initialize_m chatbot in
           let! _ := set_sessions (fun s => <[sessionId := chatbot]> s) in
           ret chatbot) m
      end.

End WithAgent.

Definition deleteSession (sessionId : string) (m : manager) : manager :=
  match sessions m !! sessionId with
  | Some _ => mkManager (delete sessionId (sessions m)) (sessionCharacters m)
                        (delete sessionId (lastActivity m)) (agents m) (next_agent m)
  | None => m
  end.

(** ** Session lifecycle and starter tracking *)

(** [this.sessionTimeout]: 30 minutes, in milliseconds. *)
Definition sessionTimeout : Z := 30 * 60 * 1000.

Definition clear_history (ag : agent) : agent :=
  mkAgent (ag_key ag) (ag_active ag) [] (ag_cached ag).

(** [clearSession(sessionId)], [Date.now()] being [now]. *)
Definition clearSession (sessionId : string) (now : Z) (m : manager) : manager :=
  match sessions m !! sessionId with
  | Some chatbot =>
      mkManager (sessions m) (sessionCharacters m) (<[sessionId := now]> (lastActivity m))
                (alter clear_history chatbot (agents m)) (next_agent m)
  | None => m
  end.

Section WithLoader.
Variable loadCharacter : option string -> option string -> result string.
Definition setActiveCharacterForSession (sessionId characterName : string) : SM unit :=
  fun m =>
    match sessions m !! sessionId with
    | None => (Err ("Session " ++ sessionId ++ " not found"), m)
    | Some chatbot =>
        (let! _ := loadCharacterAsync loadCharacter chatbot (Some characterName) in
         let! _ := set_sessionCharacters (fun sc => <[sessionId := Some characterName]> sc) in
         reset_agent chatbot) m
    end.
End WithLoader.

Definition cleanupInactiveSessions (now : Z) (m : manager) : manager :=
  let sessionsToDelete :=
    map fst (List.filter (fun e => Z.ltb sessionTimeout (now - snd e))
                         (map_to_list (lastActivity m))) in
  if Nat.ltb 0 (length sessionsToDelete)
  then fold_left (fun m sessionId => deleteSession sessionId m) sessionsToDelete m
  else m.

(** Every registered session has an activity timestamp. *)
Definition activity_covers (m : manager) : Prop :=
  forall sid, is_Some (sessions m !! sid) -> is_Some (lastActivity m !! sid).

Definition sess_frame {A} (sid : string) (op : SM A) : Prop :=
  forall m, lastActivity (snd (op m)) = lastActivity m /\
            forall x, x <> sid -> sessions (snd (op m)) !! x = sessions m !! x.

(** [needsStarter(characterName)] over [charactersWithStarters]. *)
Definition needsStarter (characterName : string) (charactersWithStarters : gset string) : bool :=
  negb (bool_decide (characterName ∈ charactersWithStarters)).

Definition markStarterShown (characterName : string) (charactersWithStarters : gset string)
  : gset string := {[characterName]} ∪ charactersWithStarters.

Definition clearAllStarterTracking (charactersWithStarters : gset string) : gset string := ∅.

(** A sequence of calls to the starter-tracking methods. *)
Inductive starter_call : Type :=
| MarkStarterShown (characterName : string)
| ClearAllStarterTracking.

Definition run_starter_call (s : gset string) (c : starter_call) : gset string :=
  match c with
  | MarkStarterShown n => markStarterShown n s
  | ClearAllStarterTracking => clearAllStarterTracking s
  end.

Definition marks (n : string) (c : starter_call) : bool :=
  match c with MarkStarterShown n' => String.eqb n n' | ClearAllStarterTracking => false end.

(** [op] is a [markStarterShown] call. *)
Definition is_mark (op : starter_call) : bool :=
  match op with MarkStarterShown _ => true | ClearAllStarterTracking => false end.

End Sessions.

(** ** Fallback conditions *)

(** The user document does not read under [key], or does not parse: the
    condition under which the user-document operations fall back to
    [DEFAULT_USER_DATA]. *)
Definition unreadable_user_doc (key : option string) (st : store) : Prop :=
  match fst (readFileContent user_profile_path key st) with
  | Ok t => json_parse t = None
  | Err _ => True
  end.

(** The heap right after the module is loaded: [DEFAULT_USER_DATA] is
    location 10, its [settings] object location 7. *)
Definition default_heap : gmap nat hobj := snd (fst default_alloc).

Definition default_root_props : list (string * jval) :=
  [("version", VStr "2.0"); ("type", VStr "user"); ("user", VRef 6);
   ("settings", VRef 7); ("sharedMemory", VRef 9)].

(** The heap after [setActiveProfile name] took its fallback from the
    loaded module: the spread copy at 11, and the shared settings object
    holding the name. *)
Definition heap_after_fallback (name : string) : gmap nat hobj :=
  <[7 := HObj [("defaultActiveCharacter", VStr name)]]>
    (<[11 := HObj default_root_props]> default_heap).

(** ** Key rotation *)

(** [p] holds a JSON document encrypted under [k]. *)
Definition rekeyed (st : store) (k p : string) : Prop :=
  exists d, files st !! p = Some (TEnvelope k (TJson d)).

(** [p] holds what it held in [st0], or a document encrypted under [k]. *)
Definition kept_or_rekeyed (st0 st : store) (k p : string) : Prop :=
  files st !! p = files st0 !! p \/ rekeyed st k p.

(** ** Frame of a store operation *)

(** [m] changes the contents of no file other than [p]. *)
Definition only_writes {A} (p : string) (m : M A) : Prop :=
  forall st q, q <> p -> files (snd (m st)) !! q = files st !! q.

(** ** Test fixtures *)

Module Fixtures.
Import Sessions.

(** A loader that cannot read the requested character. *)
Definition failing_loader : option string -> option string -> result string :=
  fun _ _ => Err "Profile not found or cannot be decrypted".

(** A loader that finds every requested character ("Echo" by default). *)
Definition echo_loader : option string -> option string -> result string :=
  fun name _ => match name with Some n => Ok n | None => Ok "Echo" end.

Definition init_ok : agent -> result agent := fun a => Ok a.

Definition empty_manager : manager := mkManager ∅ ∅ ∅ ∅ 0.

(** The manager after a [getChatbot("s1", "Nova")] whose load failed. *)
Definition after_failed_load : manager :=
  snd (getChatbot failing_loader init_ok "s1" (Some "Nova") None 1000 empty_manager).

(** The manager after session "s1" was created with character "Nova". *)
Definition nova_session : manager :=
  snd (getChatbot echo_loader init_ok "s1" (Some "Nova") None 1 empty_manager).

(** A character document with one favorite. *)
Definition nova_doc : json :=
  JObj [("version", JStr "2.0"); ("type", JStr "character");
        ("character", JObj [("name", JStr "Nova"); ("gender", JStr "male");
                            ("favorites", JArr [JObj [("id", JStr "f1");
                                                      ("text", JStr "hi")]])])].

Definition user_doc : json :=
  JObj [("version", JStr "2.0"); ("type", JStr "user");
        ("consent", JObj [("accepted", JBool true)])].

(** A directory with "Nova" and the user document encrypted under "k". *)
Definition nova_store : store :=
  init_store (<["Nova.json" := TEnvelope "k" (TJson nova_doc)]>
               (<["user-profile.json" := TEnvelope "k" (TJson user_doc)]> ∅)).

(** "Nova" encrypted under a key other than the ones a rotation uses. *)
Definition foreign_store : store :=
  init_store (<["Nova.json" := TEnvelope "other" (TJson nova_doc)]>
               (<["user-profile.json" := TEnvelope "k" (TJson user_doc)]> ∅)).

(** A private profile "Old" that exists only in the legacy text format. *)
Definition legacy_store : store :=
  init_store (<["Old.txt" := TRaw "name=Old"]>
               (<["user-profile.json" := TEnvelope "k" (TJson user_doc)]> ∅)).


Definition fav_hello : json := JObj [("text", JStr "hello")].

Definition fw_hello : json :=
  JObj [("id", JStr "fav-7-x1"); ("text", JStr "hello"); ("senderName", JStr "Unknown");
        ("timestamp", JStr "now"); ("emotion", JNull); ("sentiment", JNull)].

Definition nova_f1 : json := JObj [("id", JStr "f1"); ("text", JStr "hi")].

Definition nova_character : list (string * json) :=
  [("name", JStr "Nova"); ("gender", JStr "male"); ("favorites", JArr [nova_f1])].

Definition nova_props : list (string * json) :=
  [("version", JStr "2.0"); ("type", JStr "character"); ("character", JObj nova_character)].

Definition user_props : list (string * json) :=
  [("version", JStr "2.0"); ("type", JStr "user");
   ("consent", JObj [("accepted", JBool true)])].

(** A directory with only the legacy settings file. *)
Definition legacy_settings_text : string := "userName=Ada=B
toString=x
color=red".

Definition legacy_settings_store : store :=
  init_store (<[user_settings_path := TRaw legacy_settings_text]> ∅).

End Fixtures.

(** * Properties *)

Import Sessions.

(** ** Session manager *)

(** C8 (amended): [deleteSession(sessionId)] always leaves no session record
    for the id; when a session exists it also removes its activity
    timestamp, and when none exists it changes nothing (a timestamp recorded
    without a session stays); calling it twice is the same as calling it
    once; the other entries, the session-to-character map and the agents
    are untouched, and it works on the in-memory manager only. *)
Theorem deleteSession_spec (m : manager) (sid : string) :
  sessions (deleteSession sid m) !! sid = None /\
  deleteSession sid (deleteSession sid m) = deleteSession sid m /\
  (is_Some (sessions m !! sid) ->
     lastActivity (deleteSession sid m) !! sid = None) /\
  (sessions m !! sid = None -> deleteSession sid m = m) /\
  (forall x, x <> sid ->
     sessions (deleteSession sid m) !! x = sessions m !! x /\
     lastActivity (deleteSession sid m) !! x = lastActivity m !! x) /\
  sessionCharacters (deleteSession sid m) = sessionCharacters m /\
  agents (deleteSession sid m) = agents m.
Proof.
  unfold deleteSession.
  destruct (sessions m !! sid) as [a|] eqn:Hs; simpl.
  - rewrite lookup_delete_eq.
    split; [reflexivity|]. split; [reflexivity|].
    split; [intros _; apply lookup_delete_eq|].
    split; [discriminate|].
    split; [|split; reflexivity].
    intros y Hy. rewrite !lookup_delete_ne by congruence. split; reflexivity.
  - rewrite Hs.
    split; [first [assumption|reflexivity]|]. split; [reflexivity|].
    split; [intros [a Ha]; discriminate|].
    split; [reflexivity|].
    split; [|split; reflexivity].
    intros y Hy. split; reflexivity.
Qed.

(** C8 (counterexample): after a failed session creation for "s1" the
    activity timestamp is recorded without a session, and [deleteSession]
    keeps it. *)
Lemma deleteSession_keeps_orphan_timestamp :
  lastActivity (deleteSession "s1" Fixtures.after_failed_load) !! "s1" = Some 1000%Z.
Proof. vm_compute. reflexivity. Qed.

(** C5 (amended): when no session is registered for [sid] and loading the
    requested character [n] fails with [e], [getChatbot] rejects with [e];
    the session registry and the session-to-character map are unchanged
    (no entry is added for [sid]), and the only trace of the call is the
    activity timestamp recorded at its start. *)
Theorem getChatbot_load_failure
    (loadCharacter : option string -> option string -> result string)
    (initialize : agent -> result agent)
    (sid n : string) (key : option string) (now : Z) (m : manager) (e : string)
    (Hsid : sid <> EmptyString) (Hn : n <> EmptyString)
    (Hnew : sessions m !! sid = None)
    (Hload : loadCharacter (Some n) (if key_truthy key then key else None) = Err e) :
  let r := getChatbot loadCharacter initialize sid (Some n) key now m in
  fst r = Err e /\
  sessions (snd r) = sessions m /\
  sessionCharacters (snd r) = sessionCharacters m /\
  lastActivity (snd r) = <[sid := now]> (lastActivity m).
Proof.
  apply String.eqb_neq in Hsid. apply String.eqb_neq in Hn.
  unfold getChatbot. rewrite Hsid.
  unfold bind, ret, set_lastActivity. cbn [sessions]. rewrite Hnew.
  unfold new_chatbot. cbn [sessions sessionCharacters lastActivity agents next_agent].
  destruct key as [k|]; [destruct (String.eqb k EmptyString) eqn:Hk|];
    unfold key_truthy in Hload; rewrite ?Hk in Hload; cbn in Hload;
    unfold key_truthy; rewrite ?Hk; cbn [negb]; rewrite Hn;
    unfold setEncryptionKey, loadCharacterAsync, get_agent, update_agent, bind, ret;
    cbn [sessions sessionCharacters lastActivity agents next_agent].
  all: unfold lift, throw; cbn; rewrite ?lookup_alter_eq, lookup_insert_eq; cbn;
    rewrite Hload; cbn.
  all: split; [reflexivity|]; split; [reflexivity|]; split; reflexivity.
Qed.

(** C5 (witness) *)
Lemma getChatbot_load_failure_witness :
  let r := getChatbot Fixtures.failing_loader Fixtures.init_ok "s1" (Some "Nova") None
             1000 Fixtures.empty_manager in
  fst r = Err "Profile not found or cannot be decrypted" /\
  sessions (snd r) = sessions Fixtures.empty_manager /\
  sessionCharacters (snd r) = sessionCharacters Fixtures.empty_manager /\
  lastActivity (snd r) = <["s1" := 1000%Z]> (lastActivity Fixtures.empty_manager).
Proof.
  apply (getChatbot_load_failure Fixtures.failing_loader Fixtures.init_ok "s1" "Nova"
           None 1000 Fixtures.empty_manager "Profile not found or cannot be decrypted").
  - discriminate.
  - discriminate.
  - reflexivity.
  - reflexivity.
Defined.

(** C5 (counterexample): a creation of session "s1" whose character load
    fails still leaves an activity timestamp for "s1". *)
Lemma getChatbot_failure_leaves_timestamp :
  fst (getChatbot Fixtures.failing_loader Fixtures.init_ok "s1" (Some "Nova") None
         1000 Fixtures.empty_manager) = Err "Profile not found or cannot be decrypted" /\
  lastActivity Fixtures.after_failed_load !! "s1" = Some 1000%Z.
Proof. split; vm_compute; reflexivity. Qed.

Lemma switch_needed_different (n : string) (current : option (option string)) :
  n <> EmptyString -> current <> Some (Some n) ->
  switch_needed (Some n) current = Some n.
Proof.
  intros Hn Hc. unfold switch_needed.
  apply String.eqb_neq in Hn. rewrite Hn.
  destruct current as [[c|]|]; try reflexivity.
  destruct (String.eqb n c) eqn:E; [|reflexivity].
  apply String.eqb_eq in E. subst. congruence.
Qed.

(** A call without a character on an existing session returns its agent
    and changes neither the registry, the recorded characters, nor any
    agent's active character, history or cached slot. *)
Lemma getChatbot_existing_no_character
    (loadCharacter : option string -> option string -> result string)
    (initialize : agent -> result agent)
    (sid : string) (key : option string) (now : Z) (m : manager) (a : nat) :
  sid <> EmptyString -> sessions m !! sid = Some a ->
  exists m',
    getChatbot loadCharacter initialize sid None key now m = (Ok a, m') /\
    sessions m' = sessions m /\
    sessionCharacters m' = sessionCharacters m /\
    (forall b, (fun g => (ag_active g, ag_history g, ag_cached g)) <$> agents m' !! b
             = (fun g => (ag_active g, ag_history g, ag_cached g)) <$> agents m !! b).
Proof.
  intros Hsid Hs. apply String.eqb_neq in Hsid.
  unfold getChatbot. rewrite Hsid.
  unfold bind, ret, set_lastActivity. cbn [sessions]. rewrite Hs.
  destruct key as [k|]; [destruct (String.eqb k EmptyString) eqn:Hk|];
    unfold key_truthy; rewrite ?Hk; cbn; eexists; (split; [reflexivity|]);
    cbn; (split; [reflexivity|]); (split; [reflexivity|]); try reflexivity.
  intros b. destruct (decide (a = b)) as [<-|Hab].
  - rewrite lookup_alter_eq. destruct (agents m !! a); reflexivity.
  - rewrite lookup_alter_ne by exact Hab. reflexivity.
Qed.

(** C6: on an existing session, a request for a different character [n]
    (whose load succeeds with name [l]) returns the same agent, reloads the
    character into it, clears its history and cached-character slot and
    records [n] as the session's character; a following call without a
    character returns the same agent with its history, active character and
    the recorded character unchanged. *)
Theorem getChatbot_switch_character
    (loadCharacter : option string -> option string -> result string)
    (initialize : agent -> result agent)
    (sid n : string) (key key2 : option string) (now now2 : Z)
    (m : manager) (a : nat) (ag : agent) (l : string)
    (Hsid : sid <> EmptyString) (Hn : n <> EmptyString)
    (Hs : sessions m !! sid = Some a) (Ha : agents m !! a = Some ag)
    (Hdiff : sessionCharacters m !! sid <> Some (Some n))
    (Hload : loadCharacter (Some n) (if key_truthy key then key else ag_key ag) = Ok l) :
  exists m1,
    getChatbot loadCharacter initialize sid (Some n) key now m = (Ok a, m1) /\
    sessions m1 = sessions m /\
    sessionCharacters m1 !! sid = Some (Some n) /\
    (exists ag1, agents m1 !! a = Some ag1 /\
       ag_active ag1 = Some l /\ ag_history ag1 = [] /\ ag_cached ag1 = None) /\
    exists m2,
      getChatbot loadCharacter initialize sid None key2 now2 m1 = (Ok a, m2) /\
      sessions m2 = sessions m1 /\
      sessionCharacters m2 = sessionCharacters m1 /\
      (exists ag2, agents m2 !! a = Some ag2 /\
         ag_active ag2 = Some l /\ ag_history ag2 = []).
Proof.
  pose proof (switch_needed_different n (sessionCharacters m !! sid) Hn Hdiff) as Hsw.
  apply String.eqb_neq in Hsid as Hsid'.
  assert (Hrun : exists m1,
    getChatbot loadCharacter initialize sid (Some n) key now m = (Ok a, m1) /\
    sessions m1 = sessions m /\
    sessionCharacters m1 !! sid = Some (Some n) /\
    agents m1 !! a = Some (mkAgent (if key_truthy key then key else ag_key ag)
                                   (Some l) [] None)).
  { unfold getChatbot. rewrite Hsid'.
    unfold bind, ret, set_lastActivity. cbn [sessions sessionCharacters]. rewrite Hs, Hsw.
    destruct key as [k|]; [destruct (String.eqb k EmptyString) eqn:Hk|];
      unfold key_truthy in Hload |- *; rewrite ?Hk in Hload |- *; cbn in Hload |- *;
      unfold loadCharacterAsync, get_agent, update_agent, setEncryptionKey,
        set_sessionCharacters, reset_agent, lift, bind, ret; cbn;
      rewrite ?lookup_alter_eq, Ha; cbn; rewrite Hload; cbn;
      eexists; (split; [reflexivity|]); cbn;
      (split; [reflexivity|]); (split; [apply lookup_insert_eq|]);
      rewrite !lookup_alter_eq, ?Ha; reflexivity. }
  destruct Hrun as (m1 & Hrun & Hs1 & Hc1 & Ha1).
  exists m1. split; [exact Hrun|]. split; [exact Hs1|]. split; [exact Hc1|].
  split.
  { eexists. split; [exact Ha1|]. split; [reflexivity|]. split; reflexivity. }
  destruct (getChatbot_existing_no_character loadCharacter initialize sid key2 now2 m1 a)
    as (m2 & Hrun2 & Hs2 & Hc2 & Hag2); [exact Hsid| rewrite Hs1; exact Hs|].
  exists m2. split; [exact Hrun2|]. split; [exact Hs2|]. split; [exact Hc2|].
  specialize (Hag2 a). rewrite Ha1 in Hag2.
  destruct (agents m2 !! a) as [ag2|] eqn:E; [|discriminate].
  cbn in Hag2. injection Hag2 as H1 H2 H3.
  exists ag2. split; [reflexivity|]. split; assumption.
Qed.

(** C6 (witness): session "s1" created with "Nova", then switched to
    "Astra", then called without a character. *)
Lemma getChatbot_switch_character_witness :
  exists m1,
    getChatbot Fixtures.echo_loader Fixtures.init_ok "s1" (Some "Astra") None 2
      Fixtures.nova_session = (Ok 0, m1) /\
    sessions m1 = sessions Fixtures.nova_session /\
    sessionCharacters m1 !! "s1" = Some (Some "Astra") /\
    (exists ag1, agents m1 !! 0 = Some ag1 /\
       ag_active ag1 = Some "Astra" /\ ag_history ag1 = [] /\ ag_cached ag1 = None) /\
    exists m2,
      getChatbot Fixtures.echo_loader Fixtures.init_ok "s1" None None 3 m1 = (Ok 0, m2) /\
      sessions m2 = sessions m1 /\
      sessionCharacters m2 = sessionCharacters m1 /\
      (exists ag2, agents m2 !! 0 = Some ag2 /\
         ag_active ag2 = Some "Astra" /\ ag_history ag2 = []).
Proof.
  apply (getChatbot_switch_character Fixtures.echo_loader Fixtures.init_ok "s1" "Astra"
           None None 2 3 Fixtures.nova_session 0 (mkAgent None (Some "Nova") [] None)).
  - discriminate.
  - discriminate.
  - vm_compute. reflexivity.
  - vm_compute. reflexivity.
  - vm_compute. discriminate.
  - vm_compute. reflexivity.
Defined.

(** ** Profile store: reads, writes and favorites *)

Lemma readFileContent_pure (p : string) (k : option string) (st : store) :
  snd (readFileContent p k st) = st.
Proof.
  unfold readFileContent, bind, fs_readFile.
  destruct (files st !! p) as [t|]; [|reflexivity].
  destruct k as [k|]; [|reflexivity].
  destruct (key_truthy (Some k) && isEncrypted t); [|reflexivity].
  destruct (decrypt t k); reflexivity.
Qed.

(** A document written by the store for [name] reads back, with the key
    the store uses for [name], as the text that was written. *)
Lemma write_then_read (name : string) (p : string) (t : text) (key : option string)
  (st : store) :
  let st' := snd (writeFileContent p t key (shouldEncryptProfile name) st) in
  readFileContent p (if shouldEncryptProfile name then key else None) st' = (Ok t, st').
Proof.
  cbn zeta. unfold writeFileContent, fs_writeFile, readFileContent, bind, fs_readFile; cbn.
  rewrite lookup_insert_eq.
  destruct (shouldEncryptProfile name); destruct key as [k|]; cbn; try reflexivity;
    destruct (String.eqb k EmptyString); cbn; try reflexivity.
  rewrite String.eqb_refl. reflexivity.
Qed.

Lemma filter_favorites_spec (fid : string) (xs : list json) :
  Forall (fun f => f <> JNull) xs ->
  filter_favorites fid xs = Some (List.filter (fun f => negb (fav_has_id fid f)) xs).
Proof.
  induction 1 as [|x xs Hx _ IH]; [reflexivity|].
  cbn. rewrite IH. unfold fav_has_id.
  destruct x; try congruence; cbn; try reflexivity.
  destruct (assoc "id" ps) as [j|]; cbn; [|reflexivity].
  destruct j; cbn; try reflexivity.
  destruct (String.eqb fid s); reflexivity.
Qed.

Lemma filter_none_match (fid : string) (xs : list json) :
  Forall (fun f => fav_has_id fid f = false) xs ->
  List.filter (fun f => negb (fav_has_id fid f)) xs = xs.
Proof.
  induction 1 as [|x xs Hx _ IH]; [reflexivity|].
  cbn. rewrite Hx, IH. reflexivity.
Qed.

Lemma assoc_assoc_set_ne {A} (k k' : string) (v : A) (ps : list (string * A)) :
  k <> k' -> assoc k (assoc_set k' v ps) = assoc k ps.
Proof.
  intros Hne. induction ps as [|[k0 v0] ps IH]; cbn.
  - apply String.eqb_neq in Hne. rewrite Hne. reflexivity.
  - destruct (String.eqb k' k0) eqn:E1; cbn.
    + apply String.eqb_eq in E1. subst k0.
      apply String.eqb_neq in Hne. rewrite Hne. reflexivity.
    + destruct (String.eqb k k0); [reflexivity|exact IH].
Qed.

Lemma is_v2_character_ok (ps : list (string * json)) (st : store) :
  assoc "version" ps = Some (JStr "2.0") -> assoc "type" ps = Some (JStr "character") ->
  is_v2_character (JObj ps) st = (Ok true, st).
Proof. intros Hv Ht. unfold is_v2_character. cbn. rewrite Hv, Ht. reflexivity. Qed.

(** C7: on a stored version-2.0 character document (read with the key the
    store uses for [name]) whose favorites are an array of entries: when no
    entry has id [fid], [removeFavorite] rejects with the not-found error
    and the store (files and write log included) is exactly as before; when
    exactly one entry [f] has id [fid], it succeeds, the document read back
    is the old one with [f] removed from the favorites and nothing else
    changed, and no other file is touched. *)
Theorem removeFavorite_spec (st : store) (name fid : string) (key : option string)
    (ps cs : list (string * json)) (favs : list json)
    (Hread : readFileContent (json_path name)
               (if shouldEncryptProfile name then key else None) st
             = (Ok (TJson (JObj ps)), st))
    (Hver : assoc "version" ps = Some (JStr "2.0"))
    (Htype : assoc "type" ps = Some (JStr "character"))
    (Hch : assoc "character" ps = Some (JObj cs))
    (Hfav : assoc "favorites" cs = Some (JArr favs))
    (Hnn : Forall (fun f => f <> JNull) favs) :
  (Forall (fun f => fav_has_id fid f = false) favs ->
     removeFavorite name fid key st = (Err (not_found_msg fid), st)) /\
  (forall pre f post,
     favs = (pre ++ f :: post)%list -> fav_has_id fid f = true ->
     Forall (fun g => fav_has_id fid g = false) (pre ++ post)%list ->
     exists st',
       removeFavorite name fid key st = (Ok true, st') /\
       getProfile name key st' =
         (Ok (JObj (assoc_set "character"
                      (JObj (assoc_set "favorites" (JArr (pre ++ post)%list) cs)) ps)), st') /\
       (forall q, q <> json_path name -> files st' !! q = files st !! q)).
Proof.
  assert (Hrun : forall r st1,
    remove_from_character fid (Some (JObj cs)) st = (r, st1) ->
    removeFavorite name fid key st =
      match r with
      | Ok c =>
          let data' := JObj (assoc_set "character" c ps) in
          (Ok true, snd (writeFileContent (json_path name) (TJson data') key
                           (shouldEncryptProfile name) st1))
      | Err e => (Err e, st1)
      end).
  { intros r st1 Hr. unfold removeFavorite, try_catch, bind.
    rewrite Hread. cbn [JSON_parse json_parse lift_opt ret].
    rewrite is_v2_character_ok by assumption.
    cbn [pget]. rewrite Hch, Hr.
    destruct r as [c|e]; [|reflexivity].
    unfold writeFileContent, fs_writeFile, ret. reflexivity. }
  assert (Hfilter := filter_favorites_spec fid favs Hnn).
  split.
  - intros Hnone.
    rewrite (Hrun (Err (not_found_msg fid)) st); [reflexivity|].
    unfold remove_from_character. rewrite Hfav. cbn [or_else truthy].
    rewrite Hfilter, filter_none_match by exact Hnone.
    rewrite Nat.eqb_refl. reflexivity.
  - intros pre f post -> Hf Hrest.
    assert (Hflt : List.filter (fun g => negb (fav_has_id fid g)) (pre ++ f :: post)%list
                   = (pre ++ post)%list).
    { rewrite !List.filter_app. cbn. rewrite Hf. cbn.
      apply Forall_app in Hrest as [Hpre Hpost].
      rewrite !filter_none_match by assumption. reflexivity. }
    set (c := JObj (assoc_set "favorites" (JArr (pre ++ post)%list) cs)).
    rewrite (Hrun (Ok c) st).
    2:{ unfold remove_from_character. rewrite Hfav. cbn [or_else truthy].
        rewrite Hfilter, Hflt.
        assert (Hlen : Nat.eqb (length (pre ++ post)%list) (length (pre ++ f :: post)%list)
                       = false).
        { apply Nat.eqb_neq. rewrite !length_app. cbn. lia. }
        rewrite Hlen. reflexivity. }
    set (data' := JObj (assoc_set "character" c ps)).
    set (st' := snd (writeFileContent (json_path name) (TJson data') key
                       (shouldEncryptProfile name) st)).
    exists st'. split; [reflexivity|]. split.
    + pose proof (write_then_read name (json_path name) (TJson data') key st) as W.
      cbv zeta in W. fold st' in W.
      unfold getProfile. cbv zeta. unfold try_catch, bind.
      rewrite W. cbn [JSON_parse json_parse lift_opt ret].
      unfold data'. rewrite is_v2_character_ok.
      * reflexivity.
      * rewrite assoc_assoc_set_ne by discriminate. exact Hver.
      * rewrite assoc_assoc_set_ne by discriminate. exact Htype.
    + intros q Hq. subst st'. unfold writeFileContent, fs_writeFile. cbn.
      rewrite lookup_insert_ne by congruence. reflexivity.
Qed.

(** C7 (witness): removing an unknown favorite from "Nova". *)
Lemma removeFavorite_spec_witness :
  removeFavorite "Nova" "f9" (Some "k") Fixtures.nova_store
  = (Err (not_found_msg "f9"), Fixtures.nova_store).
Proof.
  apply (proj1 (removeFavorite_spec Fixtures.nova_store "Nova" "f9" (Some "k")
    [("version", JStr "2.0"); ("type", JStr "character");
     ("character", JObj [("name", JStr "Nova"); ("gender", JStr "male");
                         ("favorites", JArr [JObj [("id", JStr "f1");
                                                   ("text", JStr "hi")]])])]
    [("name", JStr "Nova"); ("gender", JStr "male");
     ("favorites", JArr [JObj [("id", JStr "f1"); ("text", JStr "hi")]])]
    [JObj [("id", JStr "f1"); ("text", JStr "hi")]]
    ltac:(vm_compute; reflexivity) eq_refl eq_refl eq_refl eq_refl
    ltac:(repeat constructor; discriminate))).
  repeat constructor.
Defined.

(** ** Profile store: merge on save *)

(** What [saveProfile] reads back of the existing document (best effort). *)
Lemma saveProfile_partial_run (st : store) (name : string) (key : option string)
    (ps : list (string * json)) :
  is_str (assoc "version" ps) "2.0" && is_str (assoc "type" ps) "character" = false ->
  let ex := match fst (readFileContent (json_path name)
                         (if shouldEncryptProfile name then key else None) st) with
            | Ok t => json_parse t
            | Err _ => None
            end in
  saveProfile name (JObj ps) key st =
    (Ok tt, snd (writeFileContent (json_path name) (TJson (build_character name (JObj ps) ex))
                   key (shouldEncryptProfile name) st)).
Proof.
  intros Hp. cbv zeta. unfold saveProfile. cbv zeta.
  unfold bind at 1. cbv beta.
  assert (Hv : is_v2_character (JObj ps) st = (Ok false, st)).
  { unfold is_v2_character. cbn [jget].
    destruct (is_str (assoc "version" ps) "2.0") eqn:E; cbn in Hp |- *;
      [rewrite Hp|]; reflexivity. }
  rewrite Hv.
  unfold bind, try_catch.
  pose proof (readFileContent_pure (json_path name)
                (if shouldEncryptProfile name then key else None) st) as Hpure.
  destruct (readFileContent (json_path name)
              (if shouldEncryptProfile name then key else None) st) as [[t|e] st0];
    cbn in Hpure; subst st0; cbn [fst].
  - unfold JSON_parse, lift_opt. destruct (json_parse t); reflexivity.
  - reflexivity.
Qed.

(** C1 (amended): for a partial update (not a full version-2.0 character
    document), [saveProfile] then [getProfile] with the same key yields a
    version-2.0 character document in which each listed character field the
    update leaves out holds its built-in default (the name defaults to the
    profile name) whatever the stored document had, each copied field the
    update sets to a truthy value holds that value, and only [favorites],
    when the update leaves it out, keeps the list of the previously stored
    document. *)
Theorem saveProfile_partial_update (st : store) (name : string) (key : option string)
    (ps : list (string * json))
    (Hpartial : is_str (assoc "version" ps) "2.0" && is_str (assoc "type" ps) "character"
                = false) :
  exists st1 d,
    saveProfile name (JObj ps) key st = (Ok tt, st1) /\
    getProfile name key st1 = (Ok d, st1) /\
    jopt (Some d) "version" = Some (JStr "2.0") /\
    jopt (Some d) "type" = Some (JStr "character") /\
    (forall f v, In (f, v) character_field_defaults -> assoc f ps = None ->
       jopt (jopt (Some d) "character") f = Some v) /\
    (assoc "name" ps = None -> jopt (jopt (Some d) "character") "name" = Some (JStr name)) /\
    (forall f v, In f character_copied_fields -> assoc f ps = Some v -> truthy v = true ->
       jopt (jopt (Some d) "character") f = Some v) /\
    (assoc "favorites" ps = None ->
       forall e favs,
         readFileContent (json_path name)
           (if shouldEncryptProfile name then key else None) st = (Ok (TJson e), st) ->
         jopt (jopt (Some e) "character") "favorites" = Some favs -> truthy favs = true ->
         jopt (jopt (Some d) "character") "favorites" = Some favs).
Proof.
  pose proof (saveProfile_partial_run st name key ps Hpartial) as Hrun.
  cbv zeta in Hrun.
  set (ex := match fst (readFileContent (json_path name)
                          (if shouldEncryptProfile name then key else None) st) with
             | Ok t => json_parse t
             | Err _ => None
             end) in Hrun.
  set (d := build_character name (JObj ps) ex) in Hrun.
  set (st1 := snd (writeFileContent (json_path name) (TJson d) key
                     (shouldEncryptProfile name) st)) in Hrun.
  exists st1, d. split; [exact Hrun|]. split.
  { pose proof (write_then_read name (json_path name) (TJson d) key st) as W.
    cbv zeta in W. fold st1 in W.
    unfold getProfile. cbv zeta. unfold try_catch, bind.
    rewrite W. cbn [JSON_parse json_parse lift_opt ret].
    unfold d, build_character. rewrite is_v2_character_ok by reflexivity. reflexivity. }
  split; [reflexivity|]. split; [reflexivity|].
  split.
  { intros f v Hin Hnone. cbn in Hin.
    repeat destruct Hin as [Hin|Hin]; try contradiction; injection Hin as <- <-;
      cbn; rewrite Hnone; reflexivity. }
  split.
  { intros Hnone. cbn. rewrite Hnone. reflexivity. }
  split.
  { intros f v Hin Hv Ht. cbn in Hin.
    repeat destruct Hin as [Hin|Hin]; try contradiction; subst f;
      cbn; rewrite Hv; cbn; rewrite Ht; reflexivity. }
  intros Hnone e favs Hread He Ht.
  assert (Hex : ex = Some e) by (subst ex; rewrite Hread; reflexivity).
  cbn. rewrite Hnone. cbn. rewrite Hex. cbn in He |- *. rewrite He. cbn. rewrite Ht. reflexivity.
Qed.

Lemma saveProfile_partial_update_witness :
  is_str (assoc "version" [("name", JStr "Nova")]) "2.0"
    && is_str (assoc "type" [("name", JStr "Nova")]) "character" = false /\
  exists st1 d,
    saveProfile "Nova" (JObj [("name", JStr "Nova")]) (Some "k") Fixtures.nova_store
      = (Ok tt, st1) /\
    getProfile "Nova" (Some "k") st1 = (Ok d, st1).
Proof.
  split; [reflexivity|].
  destruct (saveProfile_partial_update Fixtures.nova_store "Nova" (Some "k")
              [("name", JStr "Nova")] eq_refl) as (st1 & d & H1 & H2 & _).
  exists st1, d. split; [exact H1 | exact H2].
Defined.

(** C1 counterexample: the stored Nova document has gender "male"; after
    saving an update that only carries the name, the document read back has
    gender "female" (the built-in default), not the stored value. *)
Lemma saveProfile_drops_stored_gender :
  jopt (jopt (Some Fixtures.nova_doc) "character") "gender" = Some (JStr "male") /\
  match fst (getProfile "Nova" (Some "k")
               (snd (saveProfile "Nova" (JObj [("name", JStr "Nova")]) (Some "k")
                       Fixtures.nova_store))) with
  | Ok d => jopt (jopt (Some d) "character") "gender"
  | Err _ => None
  end = Some (JStr "female").
Proof. split; vm_compute; reflexivity. Qed.

(** ** Re-encryption: frame and failure *)

Lemma string_length_append (a b : string) :
  String.length (a ++ b) = String.length a + String.length b.
Proof.
  induction a as [|c a IH]; [reflexivity|].
  change (S (String.length (a ++ b)) = S (String.length a + String.length b)).
  rewrite IH. reflexivity.
Qed.

Lemma string_append_inj_r (a b u : string) : a ++ u = b ++ u -> a = b.
Proof.
  revert b. induction a as [|c a IH]; intros [|c' b] H.
  - reflexivity.
  - apply (f_equal String.length) in H.
    change (String.length u = S (String.length (b ++ u))) in H.
    rewrite string_length_append in H. lia.
  - apply (f_equal String.length) in H.
    change (S (String.length (a ++ u)) = String.length u) in H.
    rewrite string_length_append in H. lia.
  - injection H as -> H. f_equal. exact (IH b H).
Qed.

Lemma json_path_inj (a b : string) : json_path a = json_path b -> a = b.
Proof. apply string_append_inj_r. Qed.

Lemma only_writes_ret {A} (p : string) (a : A) : only_writes p (ret a).
Proof. intros st q _. reflexivity. Qed.

Lemma only_writes_throw {A} (p msg : string) : only_writes (A:=A) p (throw msg).
Proof. intros st q _. reflexivity. Qed.

Lemma only_writes_bind {A B} (p : string) (m : M A) (k : A -> M B) :
  only_writes p m -> (forall a, only_writes p (k a)) -> only_writes p (bind m k).
Proof.
  intros Hm Hk st q Hq. unfold bind.
  specialize (Hm st q Hq). destruct (m st) as [[a|e] st']; cbn in Hm |- *.
  - rewrite (Hk a st' q Hq). exact Hm.
  - exact Hm.
Qed.

Lemma only_writes_try_catch {A} (p : string) (m : M A) (h : string -> M A) :
  only_writes p m -> (forall e, only_writes p (h e)) -> only_writes p (try_catch m h).
Proof.
  intros Hm Hh st q Hq. unfold try_catch.
  specialize (Hm st q Hq). destruct (m st) as [[a|e] st']; cbn in Hm |- *.
  - exact Hm.
  - rewrite (Hh e st' q Hq). exact Hm.
Qed.

Lemma only_writes_readFileContent (p f : string) (k : option string) :
  only_writes p (readFileContent f k).
Proof. intros st q _. rewrite readFileContent_pure. reflexivity. Qed.

Lemma only_writes_JSON_parse (p : string) (t : text) : only_writes p (JSON_parse t).
Proof. intros st q _. unfold JSON_parse, lift_opt. destruct (json_parse t); reflexivity. Qed.

Lemma only_writes_is_v2_character (p : string) (d : json) :
  only_writes p (is_v2_character d).
Proof.
  intros st q _. unfold is_v2_character.
  destruct (jget d "version") as [v|]; [|reflexivity].
  destruct (is_str v "2.0"); [|reflexivity].
  destruct (jget d "type"); reflexivity.
Qed.

Lemma only_writes_writeFileContent (p : string) (t : text) (k : option string) (b : bool) :
  only_writes p (writeFileContent p t k b).
Proof.
  intros st q Hq. unfold writeFileContent, fs_writeFile. cbn.
  apply lookup_insert_ne. congruence.
Qed.

Create HintDb frame.
#[local] Hint Resolve only_writes_ret only_writes_throw only_writes_bind
  only_writes_try_catch only_writes_readFileContent only_writes_JSON_parse
  only_writes_is_v2_character only_writes_writeFileContent : frame.

Lemma only_writes_saveProfile (n : string) (d : json) (k : option string) :
  only_writes (json_path n) (saveProfile n d k).
Proof.
  unfold saveProfile. cbv zeta.
  apply only_writes_bind; [auto with frame|]. intros full.
  apply only_writes_bind; [|auto with frame].
  destruct full; eauto 7 with frame.
Qed.

Lemma only_writes_read_old_or_new (p f o nw msg : string) :
  only_writes p (read_old_or_new f o nw msg).
Proof. unfold read_old_or_new. eauto 7 with frame. Qed.

Lemma only_writes_reEncryptProfile (o nw n : string) :
  only_writes (json_path n) (reEncryptProfile o nw n).
Proof.
  unfold reEncryptProfile.
  destruct (negb (shouldEncryptProfile n)); [auto with frame|].
  apply only_writes_try_catch; [|auto with frame].
  apply only_writes_bind; [apply only_writes_read_old_or_new|]. intros r.
  destruct (snd r); [auto with frame|].
  apply only_writes_bind; [auto with frame|]. intros d. apply only_writes_saveProfile.
Qed.

(** Every failure of one profile's re-encryption is the same fixed error. *)
Lemma reEncryptProfile_result (o nw n : string) (st : store) :
  fst (reEncryptProfile o nw n st) = Ok tt \/
  fst (reEncryptProfile o nw n st) = Err "Failed to re-encrypt profile".
Proof.
  unfold reEncryptProfile.
  destruct (negb (shouldEncryptProfile n)); [left; reflexivity|].
  unfold try_catch.
  match goal with |- context [match ?m st with _ => _ end] => destruct (m st) as [[[]|e] st'] end;
    [left | right]; reflexivity.
Qed.

Lemma readFileContent_same_file (p : string) (k : option string) (st st' : store) :
  files st' !! p = files st !! p ->
  fst (readFileContent p k st') = fst (readFileContent p k st).
Proof.
  intros H. unfold readFileContent, bind, fs_readFile. rewrite H.
  destruct (files st !! p) as [t|]; [|reflexivity].
  destruct k as [k|]; [|reflexivity].
  destruct (key_truthy (Some k) && isEncrypted t); [|reflexivity].
  destruct (decrypt t k); reflexivity.
Qed.

(** A private profile whose file reads under neither key fails, and the
    store is left as it was. *)
Lemma reEncryptProfile_unreadable (o nw n : string) (st : store) :
  shouldEncryptProfile n = true ->
  (forall t, fst (readFileContent (json_path n) (Some o) st) <> Ok t) ->
  (forall t, fst (readFileContent (json_path n) (Some nw) st) <> Ok t) ->
  reEncryptProfile o nw n st = (Err "Failed to re-encrypt profile", st).
Proof.
  intros Hpriv Ho Hn. unfold reEncryptProfile. rewrite Hpriv. cbn [negb].
  unfold try_catch, bind at 1, read_old_or_new, try_catch, bind.
  pose proof (readFileContent_pure (json_path n) (Some o) st) as Po.
  destruct (readFileContent (json_path n) (Some o) st) as [[t|e] s1] eqn:Eo;
    cbn in Po, Ho; subst s1; [exfalso; exact (Ho t eq_refl)|].
  pose proof (readFileContent_pure (json_path n) (Some nw) st) as Pn.
  destruct (readFileContent (json_path n) (Some nw) st) as [[t|e'] s2] eqn:En;
    cbn in Pn, Hn; subst s2; [exfalso; exact (Hn t eq_refl)|].
  reflexivity.
Qed.

Lemma reEncryptProfiles_unreadable (o nw n : string) :
  shouldEncryptProfile n = true ->
  forall l st, In n l ->
  (forall t, fst (readFileContent (json_path n) (Some o) st) <> Ok t) ->
  (forall t, fst (readFileContent (json_path n) (Some nw) st) <> Ok t) ->
  fst (reEncryptProfiles o nw l st) = Err "Failed to re-encrypt profile".
Proof.
  intros Hpriv l. induction l as [|m l IH]; intros st Hin Ho Hn; [destruct Hin|].
  cbn [reEncryptProfiles]. unfold bind at 1.
  destruct (String.eqb_spec m n) as [->|Hmn].
  { rewrite reEncryptProfile_unreadable by assumption. reflexivity. }
  destruct Hin as [Hin|Hin]; [congruence|].
  pose proof (reEncryptProfile_result o nw m st) as Hr.
  pose proof (only_writes_reEncryptProfile o nw m st (json_path n)) as Hf.
  destruct (reEncryptProfile o nw m st) as [r st'] eqn:E; cbn in Hr, Hf.
  destruct Hr as [-> | ->]; [|reflexivity].
  assert (Hp : json_path n <> json_path m) by (intros Hj; apply Hmn, json_path_inj; auto).
  specialize (Hf Hp).
  apply IH; [exact Hin| |]; intros t; rewrite (readFileContent_same_file _ _ st st' Hf); auto.
Qed.

(** [reEncryptAllData] aborts with the fixed error as soon as one listed
    private profile reads under neither key. *)
Lemma reEncryptAllData_unreadable (o nw n : string) (st : store) :
  In n (fold_left listProfiles_step (readdir st) []) ->
  shouldEncryptProfile n = true ->
  (forall t, fst (readFileContent (json_path n) (Some o) st) <> Ok t) ->
  (forall t, fst (readFileContent (json_path n) (Some nw) st) <> Ok t) ->
  fst (reEncryptAllData o nw st) = Err "Failed to re-encrypt profile".
Proof.
  intros Hin Hpriv Ho Hn. unfold reEncryptAllData, listProfiles, bind at 1 2.
  pose proof (reEncryptProfiles_unreadable o nw n Hpriv _ st Hin Ho Hn) as H.
  destruct (reEncryptProfiles o nw (fold_left listProfiles_step (readdir st) []) st)
    as [r st']. cbn in H. subst r. reflexivity.
Qed.

Lemma readFileContent_missing (p : string) (k : option string) (st : store) :
  files st !! p = None -> forall t, fst (readFileContent p k st) <> Ok t.
Proof. intros H t. unfold readFileContent, bind, fs_readFile. rewrite H. discriminate. Qed.

(** C4 (amended): when a private profile that [listProfiles] reports reads
    under neither the old nor the new key, [reEncryptAllData] aborts with
    the fixed error "Failed to re-encrypt profile"; the message is the same
    whichever profile failed, so it does not identify the document. *)
Theorem reEncryptAllData_corrupted_profile (o nw n : string) (st : store)
    (names : list string)
    (Hlist : listProfiles st = (Ok names, st)) (Hin : In n names)
    (Hpriv : shouldEncryptProfile n = true)
    (Ho : forall t, fst (readFileContent (json_path n) (Some o) st) <> Ok t)
    (Hn : forall t, fst (readFileContent (json_path n) (Some nw) st) <> Ok t) :
  fst (reEncryptAllData o nw st) = Err "Failed to re-encrypt profile".
Proof.
  unfold listProfiles in Hlist. injection Hlist as Hnames. subst names.
  exact (reEncryptAllData_unreadable o nw n st Hin Hpriv Ho Hn).
Qed.

Lemma reEncryptAllData_corrupted_profile_witness :
  listProfiles Fixtures.foreign_store = (Ok ["Nova"], Fixtures.foreign_store) /\
  fst (reEncryptAllData "k" "k2" Fixtures.foreign_store) = Err "Failed to re-encrypt profile".
Proof.
  assert (Hl : listProfiles Fixtures.foreign_store = (Ok ["Nova"], Fixtures.foreign_store))
    by (vm_compute; reflexivity).
  split; [exact Hl|].
  apply (reEncryptAllData_corrupted_profile "k" "k2" "Nova" Fixtures.foreign_store ["Nova"] Hl).
  - left; reflexivity.
  - reflexivity.
  - intros t; vm_compute; discriminate.
  - intros t; vm_compute; discriminate.
Defined.

(** C4 counterexample: "Nova" is encrypted under a third key; the rotation
    from "k" to "k2" fails with an error whose text does not contain the
    name "Nova". *)
Lemma reEncryptAllData_error_omits_name :
  fst (reEncryptAllData "k" "k2" Fixtures.foreign_store) = Err "Failed to re-encrypt profile" /\
  String.index 0 "Nova" "Failed to re-encrypt profile" = None.
Proof. split; vm_compute; reflexivity. Qed.

(** C10: a private profile that [listProfiles] reports but that has no
    [<name>.json] file (a legacy [.txt]-only profile) makes every
    [reEncryptAllData] fail with "Failed to re-encrypt profile", whatever
    the old and new keys. *)
Theorem reEncryptAllData_legacy_only (n : string) (st : store) (names : list string)
    (Hlist : listProfiles st = (Ok names, st)) (Hin : In n names)
    (Hpriv : shouldEncryptProfile n = true)
    (Hjson : files st !! json_path n = None) :
  forall o nw, fst (reEncryptAllData o nw st) = Err "Failed to re-encrypt profile".
Proof.
  intros o nw. unfold listProfiles in Hlist. injection Hlist as Hnames. subst names.
  apply (reEncryptAllData_unreadable o nw n st Hin Hpriv);
    apply readFileContent_missing; exact Hjson.
Qed.

Lemma reEncryptAllData_legacy_only_witness :
  listProfiles Fixtures.legacy_store = (Ok ["Old"], Fixtures.legacy_store) /\
  fst (reEncryptAllData "k" "k2" Fixtures.legacy_store) = Err "Failed to re-encrypt profile".
Proof.
  assert (Hl : listProfiles Fixtures.legacy_store = (Ok ["Old"], Fixtures.legacy_store))
    by (vm_compute; reflexivity).
  split; [exact Hl|].
  apply (reEncryptAllData_legacy_only "Old" Fixtures.legacy_store ["Old"] Hl).
  - left; reflexivity.
  - reflexivity.
  - vm_compute; reflexivity.
Defined.

(** ** User settings *)

(** C3: the user document exists (encrypted under "k") but does not read
    under the key "other"; [saveUserSettings] does not fail: it succeeds and
    replaces the file with a document built from the defaults, encrypted
    under "other", which has lost the stored consent. *)
Theorem saveUserSettings_overwrites_unreadable :
  let st := Fixtures.nova_store in
  let r := saveUserSettings [] (Some "other") st in
  files st !! user_profile_path = Some (TEnvelope "k" (TJson Fixtures.user_doc)) /\
  jopt (Some Fixtures.user_doc) "consent" = Some (JObj [("accepted", JBool true)]) /\
  fst (readFileContent user_profile_path (Some "other") st) = Err decrypt_error /\
  fst r = Ok tt /\
  match files (snd r) !! user_profile_path with
  | Some (TEnvelope k (TJson j)) => k = "other" /\ jopt (Some j) "consent" = None
  | _ => False
  end.
Proof.
  cbv zeta. split; [vm_compute; reflexivity|]. split; [reflexivity|].
  split; [vm_compute; reflexivity|]. split; [vm_compute; reflexivity|].
  vm_compute. split; reflexivity.
Qed.

(** ** Live objects: allocation and serialisation *)

Lemma json_ind' (P : json -> Prop)
    (Hnull : P JNull) (Hbool : forall b, P (JBool b)) (Hnum : forall z, P (JNum z))
    (Hstr : forall s, P (JStr s))
    (Harr : forall xs, Forall P xs -> P (JArr xs))
    (Hobj : forall ps, Forall (fun p => P (snd p)) ps -> P (JObj ps)) :
  forall j, P j.
Proof.
  exact (fix F j :=
    match j return P j with
    | JNull => Hnull
    | JBool b => Hbool b
    | JNum z => Hnum z
    | JStr s => Hstr s
    | JArr xs =>
        Harr xs ((fix G (xs : list json) : Forall P xs :=
                    match xs return Forall P xs with
                    | [] => @List.Forall_nil _ _
                    | x :: xs' => @List.Forall_cons _ _ x xs' (F x) (G xs')
                    end) xs)
    | JObj ps =>
        Hobj ps ((fix G (ps : list (string * json)) : Forall (fun p => P (snd p)) ps :=
                    match ps return Forall (fun p => P (snd p)) ps with
                    | [] => @List.Forall_nil _ _
                    | (k, x) :: ps' => @List.Forall_cons _ _ (k, x) ps' (F x) (G ps')
                    end) ps)
    end).
Qed.

Lemma alloc_JArr (xs : list json) (h : gmap nat hobj) (n : nat) :
  alloc (JArr xs) h n =
    let '(vs, h1, n1) := alloc_elems xs h n in (VRef n1, <[n1 := HArr vs []]> h1, S n1).
Proof. reflexivity. Qed.

Lemma alloc_JObj (ps : list (string * json)) (h : gmap nat hobj) (n : nat) :
  alloc (JObj ps) h n =
    let '(vs, h1, n1) := alloc_props ps h n in (VRef n1, <[n1 := HObj vs]> h1, S n1).
Proof. reflexivity. Qed.

Lemma to_json_ref (f : nat) (h : gmap nat hobj) (l : nat) :
  to_json (S f) h (VRef l) =
    match h !! l with
    | Some (HObj ps) => option_map JObj (to_json_props f h ps)
    | Some (HArr vs _) => option_map JArr (to_json_elems f h vs)
    | None => None
    end.
Proof.
  cbn [to_json]. destruct (h !! l) as [[ps|vs ps]|]; [f_equal..|reflexivity].
  - induction ps as [|[k x] ps IH]; [reflexivity|].
    cbn [to_json_props]. rewrite <- IH. reflexivity.
  - induction vs as [|x vs IH]; [reflexivity|].
    cbn [to_json_elems]. rewrite <- IH. reflexivity.
Qed.

Lemma json_depth_JArr (xs : list json) : json_depth (JArr xs) = S (depth_elems xs).
Proof. reflexivity. Qed.

Lemma json_depth_JObj (ps : list (string * json)) : json_depth (JObj ps) = S (depth_props ps).
Proof. reflexivity. Qed.

(** What allocating [j] at [n] guarantees: it uses at least [json_depth j]
    fresh locations from [n] on, changes nothing outside them, and reads
    back as [j] from any heap that agrees on them. *)
Definition alloc_ok (j : json) (h : gmap nat hobj) (n : nat) (v : jval)
  (h' : gmap nat hobj) (n' : nat) : Prop :=
  n + json_depth j <= n' /\
  (forall l, (l < n \/ n' <= l)%nat -> h' !! l = h !! l) /\
  (forall f h'', (forall l, (n <= l < n')%nat -> h'' !! l = h' !! l) ->
     json_depth j <= f -> to_json f h'' v = Some j).

Lemma alloc_spec (j : json) :
  forall h n v h' n', alloc j h n = (v, h', n') -> alloc_ok j h n v h' n'.
Proof.
  induction j as [| b | z | s | xs IH | ps IH] using json_ind';
    intros h n v h' n' E.
  1-4: cbn in E; injection E as <- <- <-; split; [cbn; lia|];
       split; [reflexivity|]; intros f h'' _ _; destruct f; reflexivity.
  - rewrite alloc_JArr in E.
    assert (Hl : forall h n vs h1 n1, alloc_elems xs h n = (vs, h1, n1) ->
              n + depth_elems xs <= n1 /\
              (forall l, (l < n \/ n1 <= l)%nat -> h1 !! l = h !! l) /\
              (forall f h'', (forall l, (n <= l < n1)%nat -> h'' !! l = h1 !! l) ->
                 depth_elems xs <= f -> to_json_elems f h'' vs = Some xs)).
    { clear E. induction IH as [|x xs Hx Hxs IHxs]; intros h0 n0 vs h1 n1 E.
      - cbn in E. injection E as <- <- <-. split; [cbn; lia|].
        split; [reflexivity|]. intros; reflexivity.
      - cbn in E.
        destruct (alloc x h0 n0) as [[vx hx] nx] eqn:Ex.
        destruct (alloc_elems xs hx nx) as [[vs' h2] n2] eqn:Exs.
        injection E as <- <- <-.
        destruct (Hx _ _ _ _ _ Ex) as (Dx & Fx & Rx).
        destruct (IHxs _ _ _ _ _ Exs) as (Ds & Fs & Rs).
        cbn [depth_elems]. split; [lia|]. split.
        + intros l Hl. rewrite Fs by lia. apply Fx. lia.
        + intros f h'' Hag Hf. cbn [to_json_elems].
          rewrite (Rx f h''), (Rs f h''); [reflexivity| | lia | | lia].
          * intros l Hl. apply Hag. lia.
          * intros l Hl. rewrite Hag by lia. apply Fs. lia. }
    destruct (alloc_elems xs h n) as [[vs h1] n1] eqn:Exs.
    injection E as <- <- <-.
    destruct (Hl _ _ _ _ _ Exs) as (D & F & R).
    unfold alloc_ok. rewrite json_depth_JArr. split; [lia|]. split.
    + intros l Hl'. rewrite lookup_insert_ne by lia. apply F. lia.
    + intros f h'' Hag Hf. destruct f as [|f]; [lia|].
      rewrite to_json_ref, Hag, lookup_insert_eq by lia. cbn.
      rewrite (R f h''); [reflexivity| |lia].
      intros l Hl'. rewrite Hag by lia. apply lookup_insert_ne. lia.
  - rewrite alloc_JObj in E.
    assert (Hl : forall h n vs h1 n1, alloc_props ps h n = (vs, h1, n1) ->
              n + depth_props ps <= n1 /\
              (forall l, (l < n \/ n1 <= l)%nat -> h1 !! l = h !! l) /\
              (forall f h'', (forall l, (n <= l < n1)%nat -> h'' !! l = h1 !! l) ->
                 depth_props ps <= f -> to_json_props f h'' vs = Some ps)).
    { clear E. induction IH as [|[k x] ps Hx Hps IHps]; intros h0 n0 vs h1 n1 E.
      - cbn in E. injection E as <- <- <-. split; [cbn; lia|].
        split; [reflexivity|]. intros; reflexivity.
      - cbn in E, Hx.
        destruct (alloc x h0 n0) as [[vx hx] nx] eqn:Ex.
        destruct (alloc_props ps hx nx) as [[vs' h2] n2] eqn:Eps.
        injection E as <- <- <-.
        destruct (Hx _ _ _ _ _ Ex) as (Dx & Fx & Rx).
        destruct (IHps _ _ _ _ _ Eps) as (Ds & Fs & Rs).
        cbn [depth_props]. split; [lia|]. split.
        + intros l Hl. rewrite Fs by lia. apply Fx. lia.
        + intros f h'' Hag Hf. cbn [to_json_props].
          rewrite (Rx f h''), (Rs f h''); [reflexivity| | lia | | lia].
          * intros l Hl. apply Hag. lia.
          * intros l Hl. rewrite Hag by lia. apply Fs. lia. }
    destruct (alloc_props ps h n) as [[vs h1] n1] eqn:Eps.
    injection E as <- <- <-.
    destruct (Hl _ _ _ _ _ Eps) as (D & F & R).
    unfold alloc_ok. rewrite json_depth_JObj. split; [lia|]. split.
    + intros l Hl'. rewrite lookup_insert_ne by lia. apply F. lia.
    + intros f h'' Hag Hf. destruct f as [|f]; [lia|].
      rewrite to_json_ref, Hag, lookup_insert_eq by lia. cbn.
      rewrite (R f h''); [reflexivity| |lia].
      intros l Hl'. rewrite Hag by lia. apply lookup_insert_ne. lia.
Qed.

Lemma read_parse_fails {A} (p : string) (k : option string) (K : jval -> M A) (st : store) :
  match fst (readFileContent p k st) with Ok t => json_parse t = None | Err _ => True end ->
  exists e, (let! c := readFileContent p k in let! d := JSON_parse_live c in K d) st = (Err e, st).
Proof.
  intros H. unfold bind at 1.
  pose proof (readFileContent_pure p k st) as P.
  destruct (readFileContent p k st) as [[t|e] s] eqn:E; cbn in H, P; subst s.
  - unfold bind, JSON_parse_live, JSON_parse, lift_opt, bind. rewrite H. eexists; reflexivity.
  - eexists; reflexivity.
Qed.

Lemma read_parse_fails' (p : string) (k : option string) (st : store) :
  match fst (readFileContent p k st) with Ok t => json_parse t = None | Err _ => True end ->
  exists e, (let! c := readFileContent p k in JSON_parse_live c) st = (Err e, st).
Proof.
  intros H. unfold bind at 1.
  pose proof (readFileContent_pure p k st) as P.
  destruct (readFileContent p k st) as [[t|e] s] eqn:E; cbn in H, P; subst s.
  - unfold JSON_parse_live, JSON_parse, lift_opt, bind. rewrite H. eexists; reflexivity.
  - eexists; reflexivity.
Qed.

Lemma setActiveProfile_fallback (name : string) (key : option string) (st : store) :
  heap st = default_heap -> next_loc st = 11 -> unreadable_user_doc key st ->
  exists T,
    setActiveProfile name key st =
      (Ok tt, mkStore (<[user_profile_path := T]> (files st))
                (<[7 := HObj [("defaultActiveCharacter", VStr name)]]>
                   (<[11 := HObj default_root_props]> default_heap))
                12 (writes st ++ [user_profile_path])).
Proof.
  intros Hh Hn Hu. unfold setActiveProfile. cbv zeta.
  unfold try_catch at 1.
  destruct (read_parse_fails user_profile_path key
    (fun data =>
       let! settings := get_prop data "settings" in
       let! _ := if truthy_opt settings then ret tt
                 else let! o := alloc_m (JObj []) in set_prop data "settings" o in
       let! settings := get_prop data "settings" in
       let! _ := set_on settings "defaultActiveCharacter" (VStr name) in
       let! j := JSON_stringify data in
       writeFileContent user_profile_path (TJson j) key true) st Hu) as [e He].
  rewrite He.
  destruct st as [fs h n w]; cbn in Hh, Hn; subst h n.
  unfold bind. cbn -[insert]. simplify_map_eq. cbn -[insert]. simplify_map_eq.
  cbn -[insert]. simplify_map_eq.
  unfold JSON_stringify. cbn [heap next_loc].
  match goal with |- context [to_json ?f ?h ?v] => remember (to_json f h v) as r eqn:Er end.
  vm_compute in Er. subst r.
  eexists. reflexivity.
Qed.

Ltac eval_default_lookups :=
  repeat match goal with
  | |- context [default_heap !! ?l] =>
      let x := eval vm_compute in (default_heap !! l) in change (default_heap !! l) with x
  end.

Ltac heap_steps Hag :=
  do 4 (rewrite ?Hag by lia; eval_default_lookups; cbn -[default_heap]).

Lemma default_user_subtree (f : nat) (h : gmap nat hobj) :
  3 <= f -> (forall l, l <= 6 -> h !! l = default_heap !! l) ->
  to_json f h (VRef 6) = jopt (Some default_user_json) "user".
Proof.
  intros Hf Hag. destruct f as [|[|[|f]]]; try lia.
  rewrite to_json_ref. heap_steps Hag. reflexivity.
Qed.

Lemma default_sharedMemory_subtree (f : nat) (h : gmap nat hobj) :
  2 <= f -> (forall l, l <= 9 -> l <> 7 -> h !! l = default_heap !! l) ->
  to_json f h (VRef 9) = jopt (Some default_user_json) "sharedMemory".
Proof.
  intros Hf Hag. destruct f as [|[|f]]; try lia.
  rewrite to_json_ref. heap_steps Hag. reflexivity.
Qed.

Lemma heap_after_fallback_default (name : string) (l : nat) :
  l <> 7 -> l <> 11 -> heap_after_fallback name !! l = default_heap !! l.
Proof. intros H7 H11. unfold heap_after_fallback. rewrite !lookup_insert_ne by lia. reflexivity. Qed.

Lemma heap_after_fallback_settings (name : string) :
  heap_after_fallback name !! 7 = Some (HObj [("defaultActiveCharacter", VStr name)]).
Proof. unfold heap_after_fallback. apply lookup_insert_eq. Qed.

Lemma saveConsent_fallback (name : string) (c : json) (key : option string) (st : store) :
  heap st = heap_after_fallback name -> next_loc st = 12 -> unreadable_user_doc key st ->
  exists st2 j,
    saveConsent c key st = writeFileContent user_profile_path (TJson j) key (key_truthy key) st2 /\
    jopt (jopt (Some j) "settings") "defaultActiveCharacter" = Some (JStr name) /\
    jopt (Some j) "consent" = Some c.
Proof.
  intros Hh Hn Hu. unfold saveConsent. cbv zeta. unfold bind at 1.
  destruct (read_parse_fails' user_profile_path key st Hu) as [e He].
  unfold try_catch at 1. rewrite He.
  change (ret DEFAULT_USER_DATA st) with (@Ok jval (VRef 10), st).
  cbv beta iota.
  destruct st as [fs h n w]; cbn in Hh, Hn; subst h n.
  unfold bind at 1, alloc_m. cbn [heap next_loc files writes].
  destruct (alloc c (heap_after_fallback name) 12) as [[v h2] n2] eqn:Ea.
  destruct (alloc_spec _ _ _ _ _ _ Ea) as (D & Fr & R).
  assert (E10 : h2 !! 10 = Some (HObj default_root_props))
    by (rewrite Fr by lia; reflexivity).
  unfold bind at 1, set_prop. cbn [heap next_loc files writes]. rewrite E10.
  unfold bind, JSON_stringify. cbn [heap next_loc files writes].
  set (h3 := <[10 := HObj (assoc_set "consent" v default_root_props)]> h2).
  assert (Hag : forall l, l < 12 -> l <> 10 -> h3 !! l = heap_after_fallback name !! l).
  { intros l Hl Hl'. unfold h3. rewrite lookup_insert_ne by lia. apply Fr. lia. }
  rewrite to_json_ref. unfold h3 at 1. rewrite lookup_insert_eq. fold h3.
  cbn [assoc_set default_root_props String.eqb Ascii.eqb Bool.eqb andb].
  cbn [to_json_props].
  assert (E6 : to_json n2 h3 (VRef 6) = jopt (Some default_user_json) "user").
  { apply default_user_subtree; [lia|].
    intros l Hl. rewrite Hag, heap_after_fallback_default by lia. reflexivity. }
  assert (E9 : to_json n2 h3 (VRef 9) = jopt (Some default_user_json) "sharedMemory").
  { apply default_sharedMemory_subtree; [lia|].
    intros l Hl Hl'. rewrite Hag, heap_after_fallback_default by lia. reflexivity. }
  assert (Ec : to_json n2 h3 v = Some c).
  { apply R; [|lia]. intros l Hl. unfold h3. apply lookup_insert_ne. lia. }
  rewrite E6, E9, Ec.
  destruct n2 as [|m]; [lia|].
  rewrite to_json_ref, Hag, heap_after_fallback_settings by lia.
  cbn [to_json_props to_json option_map].
  replace (to_json m h3 (VStr name)) with (Some (JStr name)) by (destruct m; reflexivity).
  eexists _, _. split; [reflexivity|]. split; reflexivity.
Qed.

Lemma bind_ok {S A B} (m : ST S A) (k : A -> ST S B) (st st' : S) (a : A) :
  m st = (Ok a, st') -> bind m k st = k a st'.
Proof. intros H. unfold bind. rewrite H. reflexivity. Qed.

Lemma alloc_m_eq (j : json) (st : store) (v : jval) (h : gmap nat hobj) (n : nat) :
  alloc j (heap st) (next_loc st) = (v, h, n) ->
  alloc_m j st = (Ok v, mkStore (files st) h n (writes st)).
Proof. intros H. unfold alloc_m. rewrite H. reflexivity. Qed.

Lemma set_prop_eq (l : nat) (k : string) (x : jval) (ps : list (string * jval)) (st : store) :
  heap st !! l = Some (HObj ps) ->
  set_prop (VRef l) k x st =
    (Ok tt, mkStore (files st) (<[l := HObj (assoc_set k x ps)]> (heap st)) (next_loc st) (writes st)).
Proof. intros H. unfold set_prop. rewrite H. reflexivity. Qed.

Lemma get_prop_eq (l : nat) (k : string) (ps : list (string * jval)) (st : store) :
  heap st !! l = Some (HObj ps) -> get_prop (VRef l) k st = (Ok (assoc k ps), st).
Proof. intros H. unfold get_prop. rewrite H. reflexivity. Qed.

Lemma set_setting_eq (k : string) (x : jval) (ps qs : list (string * jval)) (l : nat)
    (st : store) :
  heap st !! 10 = Some (HObj ps) -> assoc "settings" ps = Some (VRef l) ->
  heap st !! l = Some (HObj qs) ->
  set_setting (VRef 10) k x st =
    (Ok tt, mkStore (files st) (<[l := HObj (assoc_set k x qs)]> (heap st)) (next_loc st) (writes st)).
Proof.
  intros H10 Hs Hl. unfold set_setting. rewrite (bind_ok _ _ _ _ _ (get_prop_eq _ _ _ _ H10)).
  rewrite Hs. cbn [set_on]. apply set_prop_eq. exact Hl.
Qed.

Lemma refusal_swallowed (st : store) :
  try_catch (let! _ := fs_access user_profile_path in throw refusal_msg)
            (fun _ => ret tt) st = (Ok tt, st).
Proof. unfold try_catch, bind, fs_access. destruct (files st !! user_profile_path); reflexivity. Qed.

Ltac solve_lookup :=
  repeat first
    [ rewrite lookup_insert_eq
    | rewrite lookup_insert_ne by lia
    | match goal with
      | H : forall l, _ -> ?h !! l = _ |- context [?h !! _] => rewrite H by lia
      end ];
  try reflexivity.

Lemma bind_ret {S A B} (a : A) (k : A -> ST S B) (st : S) : bind (ret a) k st = k a st.
Proof. reflexivity. Qed.

Ltac step_get :=
  match goal with
  | |- context [bind (get_prop (VRef ?l) ?k) ?K ?st] =>
      let ps := fresh "ps" in
      let E := fresh "E" in
      evar (ps : list (string * jval));
      assert (E : heap st !! l = Some (HObj ps)) by (cbn [heap]; subst ps; solve_lookup);
      subst ps;
      rewrite (bind_ok _ K st st _ (get_prop_eq l k _ st E)); clear E;
      cbn [assoc String.eqb Ascii.eqb Bool.eqb andb truthy_opt truthy_val]; cbv beta
  end.

Ltac step_alloc v h n Ea D F R :=
  match goal with
  | |- context [bind (alloc_m ?j) ?k ?st] =>
      destruct (alloc j (heap st) (next_loc st)) as [[v h] n] eqn:Ea;
      rewrite (bind_ok (alloc_m j) k st _ v (alloc_m_eq j st v h n Ea));
      destruct (alloc_spec _ _ _ _ _ _ Ea) as (D & F & R);
      cbn [heap next_loc files writes] in *; cbv beta
  end.

Ltac step_set :=
  match goal with
  | |- context [bind (set_prop (VRef ?l) ?k ?x) ?K ?st] =>
      let ps := fresh "ps" in
      let E := fresh "E" in
      evar (ps : list (string * jval));
      assert (E : heap st !! l = Some (HObj ps)) by (cbn [heap]; subst ps; solve_lookup);
      subst ps;
      rewrite (bind_ok _ K st _ tt (set_prop_eq l k x _ st E)); clear E;
      cbn [heap next_loc files writes assoc_set String.eqb Ascii.eqb Bool.eqb andb]; cbv beta
  | |- context [bind (set_setting (VRef 10) ?k ?x) ?K ?st] =>
      let ps := fresh "ps" in
      let qs := fresh "qs" in
      let E := fresh "E" in
      let E' := fresh "E" in
      evar (ps : list (string * jval));
      assert (E : heap st !! 10 = Some (HObj ps)) by (cbn [heap]; subst ps; solve_lookup);
      subst ps;
      evar (qs : list (string * jval));
      assert (E' : heap st !! 7 = Some (HObj qs)) by (cbn [heap]; subst qs; solve_lookup);
      subst qs;
      rewrite (bind_ok _ K st _ tt (set_setting_eq k x _ _ 7 st E eq_refl E')); clear E E';
      cbn [heap next_loc files writes assoc_set String.eqb Ascii.eqb Bool.eqb andb]; cbv beta
  end.

Lemma saveUserSettings_fallback (name : string) (ss : list (string * json))
    (key : option string) (st : store) :
  heap st = heap_after_fallback name -> next_loc st = 12 -> unreadable_user_doc key st ->
  assoc "defaultActiveCharacter" ss = None ->
  exists st2 j,
    saveUserSettings ss key st = writeFileContent user_profile_path (TJson j) key true st2 /\
    jopt (jopt (Some j) "settings") "defaultActiveCharacter" = Some (JStr name).
Proof.
  intros Hh Hn Hu Hd. unfold saveUserSettings. cbv zeta.
  destruct (read_parse_fails' user_profile_path key st Hu) as [e He].
  rewrite (bind_ok _ _ st st DEFAULT_USER_DATA); cycle 1.
  { unfold try_catch at 1. rewrite He. cbv beta.
    rewrite (bind_ok _ _ st st tt (refusal_swallowed st)). reflexivity. }
  change DEFAULT_USER_DATA with (VRef 10).
  destruct st as [fs h0 n0 w]; cbn in Hh, Hn; subst h0 n0.
  assert (H10 : heap_after_fallback name !! 10 = Some (HObj default_root_props))
    by reflexivity.
  pose proof (heap_after_fallback_settings name) as H7.
  step_alloc u hA nA EA DA FA RA.
  step_set.
  step_alloc sm hC nC EC DC FC RC.
  step_set.
  step_get. rewrite bind_ret.
  step_alloc em hE nE EE DE FE RE.
  step_set.
  step_alloc ew hG nG EG DG FG RG.
  step_set.
  step_alloc wk hI nI EI DI FI RI.
  step_set.
  rewrite Hd, bind_ret.
  unfold bind, JSON_stringify. cbn [heap next_loc files writes].
  match goal with |- context [to_json _ ?h _] => set (hJ := h) end.
  destruct nI as [|m]; [lia|].
  rewrite to_json_ref.
  replace (hJ !! 10) with (Some (HObj [("version", VStr "2.0"); ("type", VStr "user");
                                      ("user", u); ("settings", VRef 7);
                                      ("sharedMemory", sm)]))
    by (unfold hJ; solve_lookup).
  cbn [to_json_props].
  rewrite (RA (S m) hJ); [| intros l Hl; unfold hJ; solve_lookup | lia].
  rewrite (RC (S m) hJ); [| intros l Hl; unfold hJ; solve_lookup | lia].
  rewrite to_json_ref.
  replace (hJ !! 7) with (Some (HObj [("defaultActiveCharacter", VStr name);
                                     ("enableMemory", em); ("enableWebSearch", ew);
                                     ("webSearchApiKey", wk)]))
    by (unfold hJ; solve_lookup).
  cbn [to_json_props].
  rewrite (RE m hJ); [| intros l Hl; unfold hJ; solve_lookup | lia].
  rewrite (RG m hJ); [| intros l Hl; unfold hJ; solve_lookup | lia].
  rewrite (RI m hJ); [| intros l Hl; unfold hJ; solve_lookup | lia].
  replace (to_json m hJ (VStr name)) with (Some (JStr name)) by (destruct m; reflexivity).
  cbn [option_map to_json].
  eexists _, _. split; [reflexivity|]. reflexivity.
Qed.

(** ** The shared default user document *)

(** C9: [DEFAULT_USER_DATA] is one shared object. From the freshly loaded
    module, when the user document does not read (or parse) under [key],
    [setActiveProfile name key] succeeds through its fallback, and the
    settings object of [DEFAULT_USER_DATA], which had no
    [defaultActiveCharacter], now holds [name] (the spread copy shares it).
    A later [saveConsent], or [saveUserSettings] whose settings leave
    [defaultActiveCharacter] out, that also falls back starts from this
    mutated object: the document it writes has [settings.defaultActiveCharacter]
    equal to [name]. *)
Theorem default_user_data_shared (fs : gmap string text) (name : string)
    (key : option string) (Hfb : unreadable_user_doc key (init_store fs)) :
  let st0 := init_store fs in
  let st1 := snd (setActiveProfile name key st0) in
  fst (setActiveProfile name key st0) = Ok tt /\
  exists s,
    fst (get_prop DEFAULT_USER_DATA "settings" st0) = Ok (Some s) /\
    fst (get_prop DEFAULT_USER_DATA "settings" st1) = Ok (Some s) /\
    fst (get_prop s "defaultActiveCharacter" st0) = Ok None /\
    fst (get_prop s "defaultActiveCharacter" st1) = Ok (Some (VStr name)) /\
    (forall c key', unreadable_user_doc key' st1 ->
       exists st2 j,
         saveConsent c key' st1
           = writeFileContent user_profile_path (TJson j) key' (key_truthy key') st2 /\
         jopt (jopt (Some j) "settings") "defaultActiveCharacter" = Some (JStr name)) /\
    (forall ss key', unreadable_user_doc key' st1 ->
       assoc "defaultActiveCharacter" ss = None ->
       exists st2 j,
         saveUserSettings ss key' st1
           = writeFileContent user_profile_path (TJson j) key' true st2 /\
         jopt (jopt (Some j) "settings") "defaultActiveCharacter" = Some (JStr name)).
Proof.
  cbv zeta.
  destruct (setActiveProfile_fallback name key (init_store fs) eq_refl eq_refl Hfb)
    as [T E].
  rewrite E. cbn [fst snd]. split; [reflexivity|].
  exists (VRef 7). split; [reflexivity|]. split; [reflexivity|].
  split; [reflexivity|]. split.
  { unfold get_prop. cbn [heap]. rewrite lookup_insert_eq. reflexivity. }
  split.
  - intros c key' Hu.
    match type of Hu with
    | unreadable_user_doc _ ?st =>
        destruct (saveConsent_fallback name c key' st eq_refl eq_refl Hu)
          as (st2 & j & H1 & H2 & _)
    end.
    exists st2, j. split; assumption.
  - intros ss key' Hu Hd.
    match type of Hu with
    | unreadable_user_doc _ ?st =>
        exact (saveUserSettings_fallback name ss key' st eq_refl eq_refl Hu Hd)
    end.
Qed.

Lemma default_user_data_shared_witness :
  unreadable_user_doc (Some "k") (init_store ∅) /\
  unreadable_user_doc None (snd (setActiveProfile "Nova" (Some "k") (init_store ∅))) /\
  exists s,
    fst (get_prop DEFAULT_USER_DATA "settings"
           (snd (setActiveProfile "Nova" (Some "k") (init_store ∅)))) = Ok (Some s) /\
    fst (get_prop s "defaultActiveCharacter"
           (snd (setActiveProfile "Nova" (Some "k") (init_store ∅)))) = Ok (Some (VStr "Nova")).
Proof.
  assert (Hfb : unreadable_user_doc (Some "k") (init_store ∅)) by (vm_compute; trivial).
  split; [exact Hfb|]. split; [vm_compute; reflexivity|].
  destruct (default_user_data_shared ∅ "Nova" (Some "k") Hfb)
    as [_ (s & _ & H1 & _ & H2 & _)].
  exists s. split; [exact H1 | exact H2].
Defined.

(** ** Key rotation run twice *)

Lemma writeFileContent_encrypted (p : string) (t : text) (k : string) (st : store) :
  k <> EmptyString ->
  writeFileContent p t (Some k) true st =
    (Ok tt, mkStore (<[p := TEnvelope k t]> (files st)) (heap st) (next_loc st)
                    (writes st ++ [p])).
Proof.
  intros Hk. unfold writeFileContent, fs_writeFile, key_truthy.
  apply String.eqb_neq in Hk. rewrite Hk. reflexivity.
Qed.

Lemma saveProfile_encrypted (n : string) (d : json) (nw : string) (st : store) :
  shouldEncryptProfile n = true -> d <> JNull ->
  exists d', saveProfile n d (Some nw) st =
               writeFileContent (json_path n) (TJson d') (Some nw) true st.
Proof.
  intros Hp Hd. unfold saveProfile. cbv zeta. rewrite Hp.
  assert (Hv : exists b, is_v2_character d st = (Ok b, st)).
  { unfold is_v2_character.
    destruct d as [| | | | |ps]; [exfalso; apply Hd; reflexivity|..];
      cbn; try (eexists; reflexivity).
    destruct (is_str (assoc "version" ps) "2.0"); eexists; reflexivity. }
  destruct Hv as [b Hv].
  rewrite (bind_ok _ _ st st b Hv).
  destruct b.
  - rewrite bind_ret. eexists; reflexivity.
  - unfold bind, try_catch.
    pose proof (readFileContent_pure (json_path n) (Some nw) st) as P.
    destruct (readFileContent (json_path n) (Some nw) st) as [[t|e] s] eqn:E;
      cbn in P; subst s.
    + unfold JSON_parse, lift_opt. destruct (json_parse t) as [j|].
      * exists (build_character n d (Some j)). reflexivity.
      * exists (build_character n d None). reflexivity.
    + exists (build_character n d None). reflexivity.
Qed.

Section Rotation.
Variables (o nw : string).
Hypotheses (Hdiff : o <> nw) (Ho : o <> EmptyString) (Hnw : nw <> EmptyString).

Lemma read_rekeyed (p : string) (st : store) (d : json) :
  files st !! p = Some (TEnvelope nw (TJson d)) ->
  readFileContent p (Some o) st = (Err decrypt_error, st) /\
  readFileContent p (Some nw) st = (Ok (TJson d), st).
Proof.
  intros H. unfold readFileContent, bind, fs_readFile, key_truthy. rewrite H.
  assert (E1 : String.eqb o EmptyString = false) by (apply String.eqb_neq; exact Ho).
  assert (E2 : String.eqb nw EmptyString = false) by (apply String.eqb_neq; exact Hnw).
  assert (E3 : String.eqb nw o = false) by (apply String.eqb_neq; congruence).
  rewrite E1, E2. cbn. rewrite E3, String.eqb_refl. split; reflexivity.
Qed.

Lemma read_old_or_new_rekeyed (p msg : string) (st : store) (d : json) :
  files st !! p = Some (TEnvelope nw (TJson d)) ->
  read_old_or_new p o nw msg st = (Ok (TJson d, true), st).
Proof.
  intros H. destruct (read_rekeyed p st d H) as [E1 E2].
  unfold read_old_or_new, try_catch, bind. rewrite E1, E2. reflexivity.
Qed.

Lemma read_old_or_new_fresh (p msg : string) (st : store) (t : text) :
  fst (readFileContent p (Some o) st) = Ok t ->
  read_old_or_new p o nw msg st = (Ok (t, false), st).
Proof.
  intros H. pose proof (readFileContent_pure p (Some o) st) as P.
  unfold read_old_or_new, try_catch, bind.
  destruct (readFileContent p (Some o) st) as [r s]; cbn in H, P; subst r s. reflexivity.
Qed.

Lemma readFileContent_ok_exists (p : string) (k : option string) (st : store) (t : text) :
  fst (readFileContent p k st) = Ok t -> is_Some (files st !! p).
Proof.
  unfold readFileContent, bind, fs_readFile.
  destruct (files st !! p); [intros _; eexists; reflexivity | discriminate].
Qed.

Lemma reEncryptProfile_rekeyed (n : string) (st : store) :
  rekeyed st nw (json_path n) -> reEncryptProfile o nw n st = (Ok tt, st).
Proof.
  intros [d H]. unfold reEncryptProfile.
  destruct (negb (shouldEncryptProfile n)); [reflexivity|].
  unfold try_catch. rewrite (bind_ok _ _ st st _ (read_old_or_new_rekeyed _ _ st d H)).
  reflexivity.
Qed.

Lemma reEncryptProfile_fresh (n : string) (st : store) (j : json) :
  shouldEncryptProfile n = true ->
  fst (readFileContent (json_path n) (Some o) st) = Ok (TJson j) -> j <> JNull ->
  exists d, reEncryptProfile o nw n st =
    (Ok tt, mkStore (<[json_path n := TEnvelope nw (TJson d)]> (files st)) (heap st)
                    (next_loc st) (writes st ++ [json_path n])).
Proof.
  intros Hp Hr Hj. unfold reEncryptProfile. rewrite Hp. cbn [negb].
  unfold try_catch. rewrite (bind_ok _ _ st st _ (read_old_or_new_fresh _ _ st _ Hr)).
  cbn [snd fst]. unfold JSON_parse, lift_opt. cbn [json_parse]. rewrite bind_ret.
  destruct (saveProfile_encrypted n j nw st Hp Hj) as [d E].
  exists d. rewrite E, writeFileContent_encrypted by exact Hnw. reflexivity.
Qed.

Lemma reEncryptProfile_step (st0 st : store) (n : string) :
  (shouldEncryptProfile n = true ->
     exists j, fst (readFileContent (json_path n) (Some o) st0) = Ok (TJson j) /\ j <> JNull) ->
  (forall p, kept_or_rekeyed st0 st nw p) ->
  exists st',
    reEncryptProfile o nw n st = (Ok tt, st') /\
    (forall p, kept_or_rekeyed st0 st' nw p) /\
    (forall p, rekeyed st nw p -> rekeyed st' nw p) /\
    (shouldEncryptProfile n = true -> rekeyed st' nw (json_path n)) /\
    (forall p, is_Some (files st' !! p) <-> is_Some (files st !! p)).
Proof.
  intros Hyp Hinv.
  destruct (shouldEncryptProfile n) eqn:Hp.
  2:{ exists st. split; [unfold reEncryptProfile; rewrite Hp; reflexivity|].
      repeat split; auto; discriminate. }
  destruct (Hyp eq_refl) as (j & Hr & Hj).
  destruct (Hinv (json_path n)) as [Hk | Hrk].
  - rewrite <- (readFileContent_same_file _ _ st0 st Hk) in Hr.
    destruct (reEncryptProfile_fresh n st j Hp Hr Hj) as [d E].
    pose proof (readFileContent_ok_exists _ _ _ _ Hr) as Hex.
    eexists. split; [exact E|]. cbn [files]. split; [|split; [|split]].
    + intros p. destruct (String.eqb_spec p (json_path n)) as [->|Hne].
      * right. exists d. cbn. apply lookup_insert_eq.
      * destruct (Hinv p) as [H|[d' H]]; [left|right; exists d']; cbn;
          rewrite lookup_insert_ne by congruence; exact H.
    + intros p [d' H]. destruct (String.eqb_spec p (json_path n)) as [->|Hne].
      * exists d. cbn. apply lookup_insert_eq.
      * exists d'. cbn. rewrite lookup_insert_ne by congruence. exact H.
    + intros _. exists d. cbn. apply lookup_insert_eq.
    + intros p. cbn. destruct (String.eqb_spec p (json_path n)) as [->|Hne].
      * rewrite lookup_insert_eq. split; [intros _; exact Hex | intros _; eexists; reflexivity].
      * rewrite lookup_insert_ne by congruence. reflexivity.
  - exists st. split; [apply reEncryptProfile_rekeyed; exact Hrk|].
    repeat split; auto.
Qed.


Lemma reEncryptProfiles_first (st0 : store) (l : list string) :
  (forall n, In n l -> shouldEncryptProfile n = true ->
     exists j, fst (readFileContent (json_path n) (Some o) st0) = Ok (TJson j) /\ j <> JNull) ->
  forall st, (forall p, kept_or_rekeyed st0 st nw p) ->
  exists st',
    reEncryptProfiles o nw l st = (Ok tt, st') /\
    (forall p, kept_or_rekeyed st0 st' nw p) /\
    (forall p, rekeyed st nw p -> rekeyed st' nw p) /\
    (forall n, In n l -> shouldEncryptProfile n = true -> rekeyed st' nw (json_path n)) /\
    (forall p, is_Some (files st' !! p) <-> is_Some (files st !! p)).
Proof.
  induction l as [|m l IH]; intros Hyp st Hinv.
  - exists st. split; [reflexivity|]. repeat split; auto. intros n [].
  - destruct (reEncryptProfile_step st0 st m (Hyp m (or_introl eq_refl)) Hinv)
      as (st1 & E1 & Inv1 & Keep1 & Done1 & Dom1).
    destruct (IH (fun n Hn => Hyp n (or_intror Hn)) st1 Inv1)
      as (st2 & E2 & Inv2 & Keep2 & Done2 & Dom2).
    exists st2. cbn [reEncryptProfiles]. split.
    { rewrite (bind_ok _ _ st st1 tt E1). exact E2. }
    split; [exact Inv2|]. split; [auto|]. split.
    + intros n [<-|Hn] Hp; [apply Keep2, Done1, Hp | apply Done2; assumption].
    + intros p. rewrite Dom2. apply Dom1.
Qed.

Lemma reEncryptProfiles_again (l : list string) (st : store) :
  (forall n, In n l -> shouldEncryptProfile n = true -> rekeyed st nw (json_path n)) ->
  reEncryptProfiles o nw l st = (Ok tt, st).
Proof.
  induction l as [|m l IH]; intros Hdone; [reflexivity|].
  cbn [reEncryptProfiles].
  assert (E : reEncryptProfile o nw m st = (Ok tt, st)).
  { destruct (shouldEncryptProfile m) eqn:Hp.
    - apply reEncryptProfile_rekeyed. apply Hdone; [left; reflexivity | exact Hp].
    - unfold reEncryptProfile. rewrite Hp. reflexivity. }
  rewrite (bind_ok _ _ st st tt E). apply IH. intros n Hn. apply Hdone. right. exact Hn.
Qed.

Lemma reEncryptUser_rekeyed (st : store) :
  rekeyed st nw user_profile_path -> reEncryptUser o nw st = (Ok tt, st).
Proof.
  intros [d H]. unfold reEncryptUser, try_catch.
  rewrite (bind_ok _ _ st st _ (read_old_or_new_rekeyed _ _ st d H)). reflexivity.
Qed.

Lemma reEncryptUser_first (st0 st : store) (j : json) :
  fst (readFileContent user_profile_path (Some o) st0) = Ok (TJson j) ->
  kept_or_rekeyed st0 st nw user_profile_path ->
  exists st',
    reEncryptUser o nw st = (Ok tt, st') /\
    rekeyed st' nw user_profile_path /\
    (forall p, rekeyed st nw p -> rekeyed st' nw p) /\
    (forall p, is_Some (files st' !! p) <-> is_Some (files st !! p)).
Proof.
  intros Hr [Hk|Hrk].
  - rewrite <- (readFileContent_same_file _ _ st0 st Hk) in Hr.
    pose proof (readFileContent_ok_exists _ _ _ _ Hr) as Hex.
    eexists. split.
    { unfold reEncryptUser, try_catch.
      rewrite (bind_ok _ _ st st _ (read_old_or_new_fresh _ _ st _ Hr)).
      cbn [snd fst]. unfold JSON_parse, lift_opt. cbn [json_parse]. rewrite bind_ret.
      rewrite writeFileContent_encrypted by exact Hnw. reflexivity. }
    cbn [files]. split; [|split].
    + exists j. apply lookup_insert_eq.
    + intros p [d' H]. destruct (String.eqb_spec p user_profile_path) as [->|Hne].
      * exists j. apply lookup_insert_eq.
      * exists d'. cbn [files]. rewrite lookup_insert_ne by congruence. exact H.
    + intros p. cbn [files]. destruct (String.eqb_spec p user_profile_path) as [->|Hne].
      * rewrite lookup_insert_eq. split; [intros _; exact Hex | intros _; eexists; reflexivity].
      * rewrite lookup_insert_ne by congruence. reflexivity.
  - exists st. split; [apply reEncryptUser_rekeyed; exact Hrk|]. repeat split; auto.
Qed.

Lemma readdir_same_dom (st st' : store) :
  (forall p, is_Some (files st' !! p) <-> is_Some (files st !! p)) -> readdir st' = readdir st.
Proof.
  intros H. unfold readdir. f_equal. apply set_eq. intros p. rewrite !elem_of_dom. apply H.
Qed.

End Rotation.

(** C2 (amended): with two different non-empty keys, on a directory where
    every private profile that [listProfiles] reports reads under the old
    key to a (non-null) JSON document and the user document reads under
    the old key, the first [reEncryptAllData] succeeds and leaves each of
    these documents encrypted under the new key: reading it under the old
    key fails, under the new key succeeds. A second run then succeeds and
    changes nothing, the store (including the write log) is the same, so
    no document is written again. *)
Theorem reEncryptAllData_twice (o nw : string) (st : store) (names : list string)
    (Hdiff : o <> nw) (Ho : o <> EmptyString) (Hnw : nw <> EmptyString)
    (Hlist : listProfiles st = (Ok names, st))
    (Hdocs : forall n, In n names -> shouldEncryptProfile n = true ->
       exists j, fst (readFileContent (json_path n) (Some o) st) = Ok (TJson j) /\ j <> JNull)
    (Huser : exists j, fst (readFileContent user_profile_path (Some o) st) = Ok (TJson j)) :
  exists st1,
    reEncryptAllData o nw st = (Ok tt, st1) /\
    (forall n, In n names -> shouldEncryptProfile n = true ->
       exists d, files st1 !! json_path n = Some (TEnvelope nw (TJson d)) /\
         fst (readFileContent (json_path n) (Some o) st1) = Err decrypt_error /\
         readFileContent (json_path n) (Some nw) st1 = (Ok (TJson d), st1)) /\
    (exists d, files st1 !! user_profile_path = Some (TEnvelope nw (TJson d)) /\
       fst (readFileContent user_profile_path (Some o) st1) = Err decrypt_error /\
       readFileContent user_profile_path (Some nw) st1 = (Ok (TJson d), st1)) /\
    reEncryptAllData o nw st1 = (Ok tt, st1).
Proof.
  unfold listProfiles in Hlist. injection Hlist as Hnames.
  destruct (reEncryptProfiles_first o nw Hdiff Ho Hnw st names Hdocs st
              (fun p => or_introl eq_refl))
    as (st' & E1 & Inv & _ & Done & Dom).
  destruct Huser as [j Hj].
  destruct (reEncryptUser_first o nw Hdiff Ho Hnw st st' j Hj (Inv user_profile_path))
    as (st1 & E2 & U & Keep & Dom2).
  assert (Hrd : readdir st1 = readdir st).
  { apply readdir_same_dom. intros p. rewrite Dom2. apply Dom. }
  assert (Hdone : forall n, In n names -> shouldEncryptProfile n = true ->
                    rekeyed st1 nw (json_path n)).
  { intros n Hn Hp. apply Keep, Done; assumption. }
  exists st1. split; [|split; [|split]].
  - unfold reEncryptAllData.
    rewrite (bind_ok listProfiles _ st st _ eq_refl), Hnames.
    rewrite (bind_ok _ _ st st' tt E1). exact E2.
  - intros n Hn Hp. destruct (Hdone n Hn Hp) as [d H].
    destruct (read_rekeyed o nw Hdiff Ho Hnw _ st1 d H) as [R1 R2].
    exists d. rewrite R1. auto.
  - destruct U as [d H].
    destruct (read_rekeyed o nw Hdiff Ho Hnw _ st1 d H) as [R1 R2].
    exists d. rewrite R1. auto.
  - unfold reEncryptAllData.
    rewrite (bind_ok listProfiles _ st1 st1 _ eq_refl), Hrd, Hnames.
    rewrite (bind_ok _ _ st1 st1 tt (reEncryptProfiles_again o nw Hdiff Ho Hnw names st1 Hdone)).
    apply reEncryptUser_rekeyed; assumption.
Qed.

Lemma reEncryptAllData_twice_witness :
  listProfiles Fixtures.nova_store = (Ok ["Nova"], Fixtures.nova_store) /\
  exists st1,
    reEncryptAllData "k" "k2" Fixtures.nova_store = (Ok tt, st1) /\
    reEncryptAllData "k" "k2" st1 = (Ok tt, st1).
Proof.
  assert (Hl : listProfiles Fixtures.nova_store = (Ok ["Nova"], Fixtures.nova_store))
    by (vm_compute; reflexivity).
  split; [exact Hl|].
  destruct (reEncryptAllData_twice "k" "k2" Fixtures.nova_store ["Nova"]
              ltac:(discriminate) ltac:(discriminate) ltac:(discriminate) Hl)
    as (st1 & E1 & _ & _ & E2).
  - intros n [<-|[]] _. exists Fixtures.nova_doc. split; [vm_compute; reflexivity | discriminate].
  - exists Fixtures.user_doc. vm_compute. reflexivity.
  - exists st1. split; assumption.
Defined.

(** C2 counterexample: rotating from "k" to "k" itself; each run reads
    every document under the old key and writes it again, so the second run
    is not a no-op: it appends to the write log. *)
Lemma reEncryptAllData_same_key_rewrites :
  let st1 := snd (reEncryptAllData "k" "k" Fixtures.nova_store) in
  fst (reEncryptAllData "k" "k" Fixtures.nova_store) = Ok tt /\
  fst (reEncryptAllData "k" "k" st1) = Ok tt /\
  writes st1 = ["Nova.json"; "user-profile.json"] /\
  writes (snd (reEncryptAllData "k" "k" st1))
    = ["Nova.json"; "user-profile.json"; "Nova.json"; "user-profile.json"].
Proof. cbv zeta. vm_compute. repeat split. Qed.

(** ** Session lifecycle and starter tracking *)

(** Modelled from the spec: [chatbot.clearHistory()] empties the
    conversation history. *)

(** [setActiveCharacterForSession(sessionId, characterName)] *)
(** [cleanupInactiveSessions()], [Date.now()] being [now]: the ids whose
    last activity is older than the timeout, collected first, then each
    passed to [deleteSession]. *)

(** An operation that leaves the activity map alone and registers sessions
    at most under [sid]. *)
Lemma sess_frame_ret {A} sid (a : A) : sess_frame sid (ret a).
Proof. intros m. split; reflexivity. Qed.

Lemma sess_frame_throw {A} sid msg : sess_frame (A:=A) sid (throw msg).
Proof. intros m. split; reflexivity. Qed.

Lemma sess_frame_bind {A B} sid (op : SM A) (k : A -> SM B) :
  sess_frame sid op -> (forall a, sess_frame sid (k a)) -> sess_frame sid (bind op k).
Proof.
  intros H1 H2 m. unfold bind. specialize (H1 m).
  destruct (op m) as [[a|e] m1]; cbn in *; [|exact H1].
  destruct H1 as [L1 S1]. destruct (H2 a m1) as [L2 S2].
  split; [congruence|]. intros x Hx. rewrite S2, S1 by exact Hx. reflexivity.
Qed.

Lemma sess_frame_lift {A} sid (r : result A) : sess_frame sid (lift r).
Proof. destruct r; [apply sess_frame_ret|apply sess_frame_throw]. Qed.

Lemma sess_frame_get_agent sid a : sess_frame sid (get_agent a).
Proof. intros m. unfold get_agent. destruct (agents m !! a); split; reflexivity. Qed.

Lemma sess_frame_update_agent sid a f : sess_frame sid (update_agent a f).
Proof. intros m. split; reflexivity. Qed.

Lemma sess_frame_new_chatbot sid : sess_frame sid new_chatbot.
Proof. intros m. split; reflexivity. Qed.

Lemma sess_frame_set_sessionCharacters sid f : sess_frame sid (set_sessionCharacters f).
Proof. intros m. split; reflexivity. Qed.

Lemma sess_frame_set_sessions sid a :
  sess_frame sid (set_sessions (fun s => <[sid := a]> s)).
Proof. intros m. split; [reflexivity|]. intros x Hx. cbn. apply lookup_insert_ne. congruence. Qed.

Create HintDb sess.

#[local] Hint Resolve sess_frame_ret sess_frame_throw sess_frame_bind sess_frame_lift
  sess_frame_get_agent sess_frame_update_agent sess_frame_new_chatbot
  sess_frame_set_sessionCharacters sess_frame_set_sessions : sess.

Lemma sess_frame_loadCharacterAsync sid ld a n : sess_frame sid (loadCharacterAsync ld a n).
Proof. unfold loadCharacterAsync. auto 8 with sess. Qed.

Lemma sess_frame_setEncryptionKey sid a k : sess_frame sid (setEncryptionKey a k).
Proof. apply sess_frame_update_agent. Qed.

Lemma sess_frame_reset_agent sid a : sess_frame sid (reset_agent a).
Proof. apply sess_frame_update_agent. Qed.

Lemma sess_frame_initialize_m sid ini a : sess_frame sid (initialize_m ini a).
Proof. unfold initialize_m. auto 8 with sess. Qed.

#[local] Hint Resolve sess_frame_loadCharacterAsync sess_frame_setEncryptionKey
  sess_frame_reset_agent sess_frame_initialize_m : sess.

Lemma getChatbot_frame ld ini sid cn key now (m : manager) :
  sid <> EmptyString ->
  lastActivity (snd (getChatbot ld ini sid cn key now m)) = <[sid := now]> (lastActivity m) /\
  forall x, x <> sid ->
    sessions (snd (getChatbot ld ini sid cn key now m)) !! x = sessions m !! x.
Proof.
  intros Hs. destruct (getChatbot ld ini sid cn key now m) as [res m'] eqn:E. cbn [snd].
  unfold getChatbot in E.
  destruct (String.eqb_spec sid EmptyString) as [Es|_]; [contradiction|].
  unfold bind at 1 in E. cbn [set_lastActivity] in E. cbv beta iota in E.
  set (m1 := mkManager (sessions m) (sessionCharacters m) (<[sid := now]> (lastActivity m))
                       (agents m) (next_agent m)) in E.
  destruct (sessions m1 !! sid) as [chatbot|];
  match type of E with ?op ?mm = _ =>
      enough (F : sess_frame sid op) by (pose proof (F mm) as G; rewrite E in G; exact G) end;
    repeat (apply sess_frame_bind; intros; auto with sess);
      repeat match goal with |- context [match ?x with _ => _ end] => destruct x end;
      auto 8 with sess.
Qed.

Abbreviation delete_all L m := (fold_left (fun m sessionId => deleteSession sessionId m) L m).

(** What [deleteSession] does to each part of the manager. *)
Lemma deleteSession_facts (m : manager) (sid : string) :
  sessions (deleteSession sid m) !! sid = None /\
  deleteSession sid (deleteSession sid m) = deleteSession sid m /\
  (is_Some (sessions m !! sid) ->
     lastActivity (deleteSession sid m) !! sid = None) /\
  (sessions m !! sid = None -> deleteSession sid m = m) /\
  (forall x, x <> sid ->
     sessions (deleteSession sid m) !! x = sessions m !! x /\
     lastActivity (deleteSession sid m) !! x = lastActivity m !! x) /\
  sessionCharacters (deleteSession sid m) = sessionCharacters m /\
  agents (deleteSession sid m) = agents m.
Proof.
  unfold deleteSession.
  destruct (sessions m !! sid) as [a|] eqn:Hs; simpl.
  - rewrite lookup_delete_eq.
    split; [reflexivity|]. split; [reflexivity|].
    split; [intros _; apply lookup_delete_eq|].
    split; [discriminate|].
    split; [|split; reflexivity].
    intros y Hy. rewrite !lookup_delete_ne by congruence. split; reflexivity.
  - rewrite Hs.
    split; [first [assumption|reflexivity]|]. split; [reflexivity|].
    split; [intros [a Ha]; discriminate|].
    split; [reflexivity|].
    split; [|split; reflexivity].
    intros y Hy. split; reflexivity.
Qed.

Lemma delete_all_spec (L : list string) : forall m,
  (forall x, In x L -> sessions (delete_all L m) !! x = None) /\
  (forall x, ~ In x L -> sessions (delete_all L m) !! x = sessions m !! x) /\
  (forall x, In x L -> is_Some (sessions m !! x) -> lastActivity (delete_all L m) !! x = None) /\
  (forall x, (~ In x L \/ sessions m !! x = None) ->
     lastActivity (delete_all L m) !! x = lastActivity m !! x) /\
  sessionCharacters (delete_all L m) = sessionCharacters m /\
  agents (delete_all L m) = agents m.
Proof.
  induction L as [|y L IH]; intros m.
  - cbn. repeat split; intros; try contradiction; try reflexivity.
  - cbn [fold_left]. destruct (IH (deleteSession y m)) as (S1 & S2 & L1 & L2 & C & A).
    pose proof (deleteSession_facts m y) as (D1 & _ & D3 & D4 & D5 & D6 & D7).
    repeat split.
    + intros x [->|Hx]; [|apply S1; exact Hx].
      destruct (in_dec string_dec x L) as [Hin|Hin]; [apply S1; exact Hin|].
      rewrite S2 by exact Hin. exact D1.
    + intros x Hx. rewrite S2 by (intros H; apply Hx; right; exact H).
      apply D5. intros <-. apply Hx. left. reflexivity.
    + intros x [->|Hx] Hs.
      * rewrite L2 by (right; exact D1). apply D3. exact Hs.
      * destruct (decide (x = y)) as [->|Hne].
        -- rewrite L2 by (right; exact D1). apply D3. exact Hs.
        -- apply L1; [exact Hx|]. destruct (D5 x Hne) as [-> _]. exact Hs.
    + intros x Hx. destruct (decide (x = y)) as [->|Hne].
      * destruct Hx as [Hx|Hx]; [exfalso; apply Hx; left; reflexivity|].
        rewrite L2 by (right; rewrite (D4 Hx); exact Hx). rewrite (D4 Hx). reflexivity.
      * rewrite L2.
        -- apply (D5 x Hne).
        -- destruct Hx as [Hx|Hx]; [left; intros H; apply Hx; right; exact H|].
           right. destruct (D5 x Hne) as [-> _]. exact Hx.
    + rewrite C. exact D6.
    + rewrite A. exact D7.
Qed.

Lemma stale_ids_spec (now : Z) (la : gmap string Z) (x : string) :
  In x (map fst (List.filter (fun e => Z.ltb sessionTimeout (now - snd e)) (map_to_list la)))
  <-> exists t, la !! x = Some t /\ (sessionTimeout < now - t)%Z.
Proof.
  rewrite in_map_iff. split.
  - intros [[y t] [Hy Hin]]. cbn in Hy. subst y.
    apply filter_In in Hin as [Hin Ht]. cbn in Ht.
    exists t. split; [|lia]. apply elem_of_map_to_list. apply list_elem_of_In. exact Hin.
  - intros [t [Ht Hs]]. exists (x, t). split; [reflexivity|].
    apply filter_In. split; [|cbn; lia].
    apply list_elem_of_In. apply elem_of_map_to_list. exact Ht.
Qed.

Lemma cleanup_delete_all (now : Z) (m : manager) :
  cleanupInactiveSessions now m =
  delete_all (map fst (List.filter (fun e => Z.ltb sessionTimeout (now - snd e))
                                   (map_to_list (lastActivity m)))) m.
Proof.
  unfold cleanupInactiveSessions. cbv zeta.
  destruct (map fst _) as [|y L]; reflexivity.
Qed.

(** Inactive sessions are removed: after [cleanupInactiveSessions(now)],
    every remaining session was active within the timeout, every session
    active within the timeout is kept with its agent, every session idle for
    longer is gone; the session-to-character map and the agents are not
    touched. *)
Theorem cleanupInactiveSessions_spec (now : Z) (m : manager) (Hcov : activity_covers m) :
  let m' := cleanupInactiveSessions now m in
  (forall sid a, sessions m' !! sid = Some a ->
     exists t, lastActivity m' !! sid = Some t /\ (now - t <= sessionTimeout)%Z) /\
  (forall sid t, lastActivity m !! sid = Some t -> (now - t <= sessionTimeout)%Z ->
     sessions m' !! sid = sessions m !! sid /\ lastActivity m' !! sid = Some t) /\
  (forall sid t, lastActivity m !! sid = Some t -> (sessionTimeout < now - t)%Z ->
     sessions m' !! sid = None) /\
  sessionCharacters m' = sessionCharacters m /\ agents m' = agents m.
Proof.
  cbv zeta. rewrite cleanup_delete_all.
  set (L := map fst _).
  destruct (delete_all_spec L m) as (S1 & S2 & L1 & L2 & C & A).
  assert (HL : forall x, In x L <-> exists t, lastActivity m !! x = Some t /\ (sessionTimeout < now - t)%Z)
    by (intros x; apply stale_ids_spec).
  split; [|split; [|split; [|split]]].
  - intros sid a Hs.
    destruct (in_dec string_dec sid L) as [Hin|Hin].
    { rewrite S1 in Hs by exact Hin. discriminate. }
    rewrite S2 in Hs by exact Hin.
    destruct (Hcov sid (mk_is_Some _ _ Hs)) as [t Ht].
    exists t. rewrite L2 by (left; exact Hin). split; [exact Ht|].
    destruct (Z.le_gt_cases (now - t) sessionTimeout) as [Hle|Hgt]; [exact Hle|].
    exfalso. apply Hin. apply HL. exists t. split; [exact Ht|lia].
  - intros sid t Ht Hle.
    assert (Hin : ~ In sid L).
    { intros H. apply HL in H as [t' [Ht' Hs]]. rewrite Ht in Ht'. injection Ht' as <-. lia. }
    rewrite S2, L2 by auto. split; [reflexivity|exact Ht].
  - intros sid t Ht Hs. apply S1. apply HL. exists t. split; assumption.
  - exact C.
  - exact A.
Qed.

(** A timestamp recorded for an id without a session (a failed creation) is
    never removed by [cleanupInactiveSessions], however old it is. *)
Theorem cleanupInactiveSessions_keeps_orphans (now : Z) (m : manager) (sid : string) (t : Z)
    (Hnone : sessions m !! sid = None) (Ht : lastActivity m !! sid = Some t) :
  lastActivity (cleanupInactiveSessions now m) !! sid = Some t.
Proof.
  rewrite cleanup_delete_all.
  destruct (delete_all_spec (map fst (List.filter (fun e => Z.ltb sessionTimeout (now - snd e))
                                   (map_to_list (lastActivity m)))) m) as (_ & _ & _ & L2 & _).
  rewrite L2 by (right; exact Hnone). exact Ht.
Qed.

Lemma cleanupInactiveSessions_keeps_orphans_witness :
  sessions Fixtures.after_failed_load !! "s1" = None /\
  lastActivity Fixtures.after_failed_load !! "s1" = Some 1000%Z /\
  lastActivity (cleanupInactiveSessions 10000000 Fixtures.after_failed_load) !! "s1" = Some 1000%Z.
Proof.
  assert (H1 : sessions Fixtures.after_failed_load !! "s1" = None) by (vm_compute; reflexivity).
  assert (H2 : lastActivity Fixtures.after_failed_load !! "s1" = Some 1000%Z) by (vm_compute; reflexivity).
  split; [exact H1|]. split; [exact H2|].
  exact (cleanupInactiveSessions_keeps_orphans 10000000 _ "s1" 1000%Z H1 H2).
Defined.

Lemma string_cons_neq (c : ascii) (x : string) : String c x <> x.
Proof. intros H. apply (f_equal String.length) in H. cbn in H. lia. Qed.

Lemma sess_frame_all {A} (op : SM A) :
  (forall sid, sess_frame sid op) ->
  forall m, sessions (snd (op m)) = sessions m /\ lastActivity (snd (op m)) = lastActivity m.
Proof.
  intros H m. split; [|apply (H EmptyString m)].
  apply map_eq. intros x. apply (H (String "a" x) m). apply not_eq_sym, string_cons_neq.
Qed.

Lemma setActiveCharacterForSession_frame ld sid c (m : manager) :
  sessions (snd (setActiveCharacterForSession ld sid c m)) = sessions m /\
  lastActivity (snd (setActiveCharacterForSession ld sid c m)) = lastActivity m.
Proof.
  unfold setActiveCharacterForSession.
  destruct (sessions m !! sid) as [a|]; [|split; reflexivity].
  apply (sess_frame_all (let! _ := loadCharacterAsync ld a (Some c) in
                         let! _ := set_sessionCharacters (fun sc => <[sid := Some c]> sc) in
                         reset_agent a)).
  intros s. auto 8 with sess.
Qed.

(** Every registered session keeps an activity timestamp: [getChatbot],
    [deleteSession], [clearSession], [setActiveCharacterForSession] and
    [cleanupInactiveSessions] preserve the invariant, whatever their outcome
    (a rejected [getChatbot] or [setActiveCharacterForSession] included). *)
Theorem activity_covers_preserved (m : manager) (Hcov : activity_covers m) :
  (forall ld ini sid cn key now, activity_covers (snd (getChatbot ld ini sid cn key now m))) /\
  (forall sid, activity_covers (deleteSession sid m)) /\
  (forall sid now, activity_covers (clearSession sid now m)) /\
  (forall ld sid c, activity_covers (snd (setActiveCharacterForSession ld sid c m))) /\
  (forall now, activity_covers (cleanupInactiveSessions now m)).
Proof.
  split; [|split; [|split; [|split]]].
  - intros ld ini sid cn key now x Hx.
    destruct (String.eqb_spec sid EmptyString) as [->|Hs].
    { unfold getChatbot in *. cbn in *. apply Hcov. exact Hx. }
    destruct (getChatbot_frame ld ini sid cn key now m Hs) as [La Se].
    rewrite La. destruct (decide (x = sid)) as [->|Hne].
    + rewrite lookup_insert_eq. eexists; reflexivity.
    + rewrite lookup_insert_ne by congruence. apply Hcov. rewrite <- Se by exact Hne. exact Hx.
  - intros sid x Hx. destruct (deleteSession_facts m sid) as (D1 & _ & _ & _ & D5 & _).
    destruct (decide (x = sid)) as [->|Hne].
    + rewrite D1 in Hx. destruct Hx as [? Hx]; discriminate.
    + destruct (D5 x Hne) as [Es El]. rewrite El. apply Hcov. rewrite <- Es. exact Hx.
  - intros sid now x Hx. unfold clearSession in *.
    destruct (sessions m !! sid) eqn:E; [|apply Hcov; exact Hx].
    cbn in *. destruct (decide (x = sid)) as [->|Hne].
    + rewrite lookup_insert_eq. eexists; reflexivity.
    + rewrite lookup_insert_ne by congruence. apply Hcov. exact Hx.
  - intros ld sid c x Hx. destruct (setActiveCharacterForSession_frame ld sid c m) as [Es El].
    rewrite El. apply Hcov. rewrite <- Es. exact Hx.
  - intros now x Hx.
    rewrite cleanup_delete_all in *.
    destruct (delete_all_spec (map fst (List.filter (fun e => Z.ltb sessionTimeout (now - snd e))
                                   (map_to_list (lastActivity m)))) m) as (S1 & S2 & _ & L2 & _).
    destruct (in_dec string_dec x (map fst (List.filter (fun e => Z.ltb sessionTimeout (now - snd e))
                                   (map_to_list (lastActivity m))))) as [Hin|Hin].
    + rewrite S1 in Hx by exact Hin. destruct Hx as [? Hx]; discriminate.
    + rewrite L2 by (left; exact Hin). apply Hcov. rewrite <- S2 by exact Hin. exact Hx.
Qed.

Lemma nova_session_covered : activity_covers Fixtures.nova_session.
Proof.
  intros sid Hs.
  assert (E1 : sessions Fixtures.nova_session = <["s1" := 0%nat]> ∅) by (vm_compute; reflexivity).
  assert (E2 : lastActivity Fixtures.nova_session = <["s1" := 1%Z]> ∅) by (vm_compute; reflexivity).
  rewrite E1 in Hs. rewrite E2.
  destruct (decide (sid = "s1")) as [->|Hne].
  - rewrite lookup_insert_eq. eexists; reflexivity.
  - rewrite lookup_insert_ne in Hs by congruence. destruct Hs as [? Hs]. discriminate.
Qed.

Lemma activity_covers_preserved_witness :
  activity_covers Fixtures.nova_session /\
  activity_covers (cleanupInactiveSessions 0 Fixtures.nova_session).
Proof.
  split; [exact nova_session_covered|].
  exact (proj2 (proj2 (proj2 (proj2 (activity_covers_preserved _ nova_session_covered)))) 0%Z).
Defined.

Lemma cleanupInactiveSessions_spec_witness :
  activity_covers Fixtures.nova_session /\
  sessions (cleanupInactiveSessions 10000000 Fixtures.nova_session) !! "s1" = None.
Proof.
  split; [exact nova_session_covered|].
  destruct (cleanupInactiveSessions_spec 10000000 _ nova_session_covered) as (_ & _ & H & _).
  apply (H "s1" 1%Z); [vm_compute; reflexivity | vm_compute; reflexivity].
Defined.

(** [setActiveCharacterForSession]: on an unknown session it rejects with
    "Session <id> not found"; when the character does not load it rejects
    with the loader's error; in both cases the manager is unchanged. When the
    character loads, the session records it, the agent's history and cached
    character are cleared and its active character is the loaded one; the
    registry, the activity timestamps and the other sessions' characters are
    not touched. *)
Theorem setActiveCharacterForSession_spec ld (sid c : string) (m : manager) :
  (sessions m !! sid = None ->
     setActiveCharacterForSession ld sid c m = (Err ("Session " ++ sid ++ " not found"), m)) /\
  (forall a ag e, sessions m !! sid = Some a -> agents m !! a = Some ag ->
     ld (Some c) (ag_key ag) = Err e ->
     setActiveCharacterForSession ld sid c m = (Err e, m)) /\
  (forall a ag loaded, sessions m !! sid = Some a -> agents m !! a = Some ag ->
     ld (Some c) (ag_key ag) = Ok loaded ->
     exists m', setActiveCharacterForSession ld sid c m = (Ok tt, m') /\
       sessionCharacters m' = <[sid := Some c]> (sessionCharacters m) /\
       agents m' = <[a := mkAgent (ag_key ag) (Some loaded) [] None]> (agents m) /\
       sessions m' = sessions m /\ lastActivity m' = lastActivity m).
Proof.
  unfold setActiveCharacterForSession. split; [|split].
  - intros H. rewrite H. reflexivity.
  - intros a ag e Hs Ha Hl. rewrite Hs.
    unfold bind, loadCharacterAsync, bind, get_agent. rewrite Ha. cbn. rewrite Hl. reflexivity.
  - intros a ag loaded Hs Ha Hl. rewrite Hs.
    eexists. split.
    { unfold bind, loadCharacterAsync, bind, get_agent. rewrite Ha. cbn. rewrite Hl. reflexivity. }
    cbn. split; [reflexivity|]. split; [|split; reflexivity].
    apply map_eq. intros b. destruct (decide (b = a)) as [->|Hne].
    + rewrite lookup_insert_eq, !lookup_alter_eq, Ha. reflexivity.
    + rewrite lookup_insert_ne, !lookup_alter_ne by congruence. reflexivity.
Qed.

Lemma setActiveCharacterForSession_spec_witness :
  exists m', setActiveCharacterForSession Fixtures.echo_loader "s1" "Astra" Fixtures.nova_session
             = (Ok tt, m') /\ sessionCharacters m' !! "s1" = Some (Some "Astra").
Proof.
  destruct (setActiveCharacterForSession_spec Fixtures.echo_loader "s1" "Astra" Fixtures.nova_session)
    as (_ & _ & H).
  destruct (H 0%nat (mkAgent None (Some "Nova") [] None) "Astra")
    as (m' & E & Sc & _); [vm_compute; reflexivity | vm_compute; reflexivity | reflexivity |].
  exists m'. split; [exact E|]. rewrite Sc. apply lookup_insert_eq.
Defined.

(** After [clearAllStarterTracking] (called at logout), and as long as it
    is not called again, a character needs a starter exactly when
    [markStarterShown] was not called for it since; whatever was marked
    before the clear is forgotten. *)
Theorem needsStarter_after_clear (s : gset string) (before after : list starter_call)
    (c : string) (Hmarks : forallb is_mark after = true) :
  needsStarter c (fold_left run_starter_call (before ++ ClearAllStarterTracking :: after) s)
  = negb (existsb (marks c) after).
Proof.
  rewrite fold_left_app. cbn [fold_left run_starter_call].
  assert (G : forall s1, bool_decide (c ∈ fold_left run_starter_call after s1)
                         = bool_decide (c ∈ s1) || existsb (marks c) after).
  { induction after as [|op after IH]; intros s1; cbn.
    - rewrite orb_false_r. reflexivity.
    - cbn in Hmarks. apply andb_prop in Hmarks as [Hop Hrest].
      rewrite (IH Hrest). destruct op as [n|]; [|discriminate]. cbn.
      unfold markStarterShown. destruct (String.eqb_spec c n) as [->|Hne].
      + rewrite bool_decide_eq_true_2 by set_solver. cbn.
        destruct (bool_decide (n ∈ s1)); reflexivity.
      + rewrite orb_false_l. f_equal. apply bool_decide_ext. set_solver. }
  unfold needsStarter. rewrite G. unfold clearAllStarterTracking.
  rewrite bool_decide_eq_false_2 by set_solver. reflexivity.
Qed.

Lemma needsStarter_after_clear_witness :
  forallb is_mark [MarkStarterShown "Astra"] = true /\
  needsStarter "Nova"
    (fold_left run_starter_call
       ([MarkStarterShown "Nova"] ++ ClearAllStarterTracking :: [MarkStarterShown "Astra"]) ∅)
  = true.
Proof.
  split; [reflexivity|].
  exact (needsStarter_after_clear ∅ [MarkStarterShown "Nova"] [MarkStarterShown "Astra"] "Nova"
           eq_refl).
Defined.

(** ** Profile storage: round trips, atomicity and failure behaviour *)

(** The avatar step of [deleteProfile] on the uploads directory, given by
    its listing ([None]: the directory does not exist, [readdir] throws). *)

(** [deleteProfile(profileName)]: the three unlinks are settled whatever
    their outcome; the uploads directory is returned. *)

(** One line of [user-settings.txt]: [if (key in settings) settings[key] = value].
    Assigning a string to [__proto__] does nothing. *)

(** [favoriteWithId], [Date.now()] being [now], the base-36 digits of
    [Math.random()] being [rnd] and [new Date().toISOString()] being [iso];
    a [text] that is [undefined] is left out, as [JSON.stringify] does.
    [None]: [favorite] is [null] and [favorite.id] throws. *)

(** [if (!data.character.favorites) data.character.favorites = []] on
    [data.character]. On an array the property is a named one, which
    [JSON.stringify] leaves out. *)
Lemma assoc_assoc_set_eq {A} (k : string) (v : A) (ps : list (string * A)) :
  assoc k (assoc_set k v ps) = Some v.
Proof.
  induction ps as [|[k0 v0] ps IH]; cbn; [rewrite String.eqb_refl; reflexivity|].
  destruct (String.eqb k k0) eqn:E; cbn; [rewrite E; reflexivity|rewrite E; exact IH].
Qed.

Lemma assoc_set_assoc_set_eq {A} (k : string) (v w : A) (ps : list (string * A)) :
  assoc_set k v (assoc_set k w ps) = assoc_set k v ps.
Proof.
  induction ps as [|[k0 v0] ps IH]; cbn; [rewrite String.eqb_refl; reflexivity|].
  destruct (String.eqb k k0) eqn:E; cbn; rewrite E; [reflexivity|rewrite IH; reflexivity].
Qed.

Lemma assoc_set_same {A} (k : string) (v : A) (ps : list (string * A)) :
  assoc k ps = Some v -> assoc_set k v ps = ps.
Proof.
  induction ps as [|[k0 v0] ps IH]; cbn; [discriminate|].
  destruct (String.eqb k k0) eqn:E.
  - intros H; injection H as ->. apply String.eqb_eq in E. subst. reflexivity.
  - intros H. rewrite (IH H). reflexivity.
Qed.

Lemma try_catch_ok {S A} (m : ST S A) (h : string -> ST S A) (st st' : S) (a : A) :
  m st = (Ok a, st') -> try_catch m h st = (Ok a, st').
Proof. intros H. unfold try_catch. rewrite H. reflexivity. Qed.

Lemma try_catch_err {S A} (m : ST S A) (h : string -> ST S A) (st st' : S) (e : string) :
  m st = (Err e, st') -> try_catch m h st = h e st'.
Proof. intros H. unfold try_catch. rewrite H. reflexivity. Qed.

Lemma bind_err {S A B} (m : ST S A) (k : A -> ST S B) (st st' : S) (e : string) :
  m st = (Err e, st') -> bind m k st = (Err e, st').
Proof. intros H. unfold bind. rewrite H. reflexivity. Qed.

Lemma writeFileContent_ok (p : string) (t : text) (k : option string) (b : bool) (st : store) :
  writeFileContent p t k b st = (Ok tt, snd (writeFileContent p t k b st)).
Proof.
  unfold writeFileContent, fs_writeFile.
  destruct k as [k|]; [destruct (key_truthy (Some k) && b)|]; reflexivity.
Qed.

Lemma writeFileContent_files_ne (p q : string) (t : text) (k : option string) (b : bool)
  (st : store) :
  q <> p -> files (snd (writeFileContent p t k b st)) !! q = files st !! q.
Proof.
  intros Hq. unfold writeFileContent, fs_writeFile.
  destruct k as [k|]; [destruct (key_truthy (Some k) && b)|]; cbn; apply lookup_insert_ne; congruence.
Qed.

Lemma JSON_parse_json (j : json) (st : store) : JSON_parse (TJson j) st = (Ok j, st).
Proof. reflexivity. Qed.

Ltac mrw H := rewrite (bind_ok _ _ _ _ _ H); cbv beta.

Lemma add_to_character_ok (fw : json) (cs : list (string * json)) (xs : list json)
  (st : store) :
  or_else (assoc "favorites" cs) (JArr []) = JArr xs ->
  exists c1, default_favorites (Some (JObj cs)) st = (Ok c1, st) /\
    push_favorite fw c1 st = (Ok (JObj (assoc_set "favorites" (JArr (xs ++ [fw])) cs)), st).
Proof.
  unfold default_favorites, or_else.
  destruct (assoc "favorites" cs) as [f|] eqn:E.
  - destruct (truthy f) eqn:T; intros H.
    + subst f. eexists; split; [reflexivity|]. cbn. rewrite E. reflexivity.
    + injection H as <-. eexists; split; [reflexivity|].
      cbn. rewrite assoc_assoc_set_eq, assoc_set_assoc_set_eq. reflexivity.
  - intros H; injection H as <-. eexists; split; [reflexivity|].
    cbn. rewrite assoc_assoc_set_eq, assoc_set_assoc_set_eq. reflexivity.
Qed.

Lemma addFavorite_run (st : store) (name : string) (key : option string)
  (favorite fw : json) (now : Z) (rnd iso : string) (ps cs : list (string * json))
  (xs : list json) :
  readFileContent (json_path name)
    (if shouldEncryptProfile name then key else None) st = (Ok (TJson (JObj ps)), st) ->
  assoc "version" ps = Some (JStr "2.0") -> assoc "type" ps = Some (JStr "character") ->
  assoc "character" ps = Some (JObj cs) ->
  or_else (assoc "favorites" cs) (JArr []) = JArr xs ->
  favorite_with_id favorite now rnd iso = Some fw ->
  addFavorite name favorite key now rnd iso st
  = (Ok fw, snd (writeFileContent (json_path name)
                   (TJson (JObj (assoc_set "character"
                                   (JObj (assoc_set "favorites" (JArr (xs ++ [fw])) cs)) ps)))
                   key (shouldEncryptProfile name) st)).
Proof.
  intros Hread Hv Ht Hc Hf Hfw. unfold addFavorite.
  erewrite (bind_ok _ _ st _ (Some fw)); [reflexivity|].
  apply try_catch_ok.
  mrw Hread. mrw (JSON_parse_json (JObj ps) st). mrw (is_v2_character_ok ps st Hv Ht).
  cbn [pget]. rewrite Hc.
  destruct (add_to_character_ok fw cs xs st Hf) as (c1 & D & P).
  mrw D. rewrite Hfw. cbn [lift_opt]. rewrite bind_ret. mrw P.
  mrw (writeFileContent_ok (json_path name)
         (TJson (JObj (assoc_set "character"
                         (JObj (assoc_set "favorites" (JArr (xs ++ [fw])) cs)) ps)))
         key (shouldEncryptProfile name) st).
  reflexivity.
Qed.

Lemma favorite_with_id_obj (favorite fw : json) (now : Z) (rnd iso : string) :
  favorite_with_id favorite now rnd iso = Some fw -> exists fs, fw = JObj fs.
Proof.
  unfold favorite_with_id. destruct (jget favorite "id"); [|discriminate].
  intros H; injection H as <-. eexists; reflexivity.
Qed.

(** [addFavorite] on a readable version-2.0 character document whose
    [favorite] has an [id] key: it returns the favorite it built, the
    document written back is the read one with that favorite appended to
    [character.favorites] (created when missing or falsy), [getFavorites]
    then returns the extended list, and no other file changes. *)
Theorem addFavorite_then_getFavorites (st : store) (name : string) (key : option string)
  (favorite fw : json) (now : Z) (rnd iso : string) (ps cs : list (string * json))
  (xs : list json)
  (Hread : readFileContent (json_path name)
             (if shouldEncryptProfile name then key else None) st = (Ok (TJson (JObj ps)), st))
  (Hv : assoc "version" ps = Some (JStr "2.0"))
  (Ht : assoc "type" ps = Some (JStr "character"))
  (Hc : assoc "character" ps = Some (JObj cs))
  (Hf : or_else (assoc "favorites" cs) (JArr []) = JArr xs)
  (Hfw : favorite_with_id favorite now rnd iso = Some fw) :
  let doc := JObj (assoc_set "character" (JObj (assoc_set "favorites" (JArr (xs ++ [fw])) cs)) ps) in
  exists st',
    addFavorite name favorite key now rnd iso st = (Ok fw, st') /\
    readFileContent (json_path name) (if shouldEncryptProfile name then key else None) st'
      = (Ok (TJson doc), st') /\
    getFavorites name key st' = (Ok (JArr (xs ++ [fw])), st') /\
    (forall p, p <> json_path name -> files st' !! p = files st !! p).
Proof.
  cbn zeta.
  set (doc := JObj (assoc_set "character" (JObj (assoc_set "favorites" (JArr (xs ++ [fw])) cs)) ps)).
  set (st' := snd (writeFileContent (json_path name) (TJson doc) key (shouldEncryptProfile name) st)).
  exists st'.
  assert (R : readFileContent (json_path name) (if shouldEncryptProfile name then key else None) st'
              = (Ok (TJson doc), st')) by apply write_then_read.
  split; [|split; [exact R|split]].
  - exact (addFavorite_run st name key favorite fw now rnd iso ps cs xs Hread Hv Ht Hc Hf Hfw).
  - unfold getFavorites. apply try_catch_ok.
    assert (Hv' : assoc "version" (assoc_set "character" (JObj (assoc_set "favorites" (JArr (xs ++ [fw])) cs)) ps) = Some (JStr "2.0"))
      by (rewrite assoc_assoc_set_ne; [exact Hv|discriminate]).
    assert (Ht' : assoc "type" (assoc_set "character" (JObj (assoc_set "favorites" (JArr (xs ++ [fw])) cs)) ps) = Some (JStr "character"))
      by (rewrite assoc_assoc_set_ne; [exact Ht|discriminate]).
    mrw R. mrw (JSON_parse_json doc st'). unfold doc. mrw (is_v2_character_ok _ st' Hv' Ht').
    cbn [pget]. rewrite assoc_assoc_set_eq. cbn [jget]. rewrite assoc_assoc_set_eq.
    reflexivity.
  - intros p Hp. apply writeFileContent_files_ne. exact Hp.
Qed.

(** A favorite added by [addFavorite] with an id no stored favorite has is
    removed again by [removeFavorite] with that id, which returns [true];
    the profile file then reads back as the original document, and no
    other file changes. *)
Theorem addFavorite_then_removeFavorite (st : store) (name fid : string)
  (key : option string) (favorite fw : json) (now : Z) (rnd iso : string)
  (ps cs : list (string * json)) (xs : list json)
  (Hread : readFileContent (json_path name)
             (if shouldEncryptProfile name then key else None) st = (Ok (TJson (JObj ps)), st))
  (Hv : assoc "version" ps = Some (JStr "2.0"))
  (Ht : assoc "type" ps = Some (JStr "character"))
  (Hc : assoc "character" ps = Some (JObj cs))
  (Hf : assoc "favorites" cs = Some (JArr xs))
  (Hxs : Forall (fun f => f <> JNull /\ fav_has_id fid f = false) xs)
  (Hfw : favorite_with_id favorite now rnd iso = Some fw)
  (Hid : fav_has_id fid fw = true) :
  exists st1 st2,
    addFavorite name favorite key now rnd iso st = (Ok fw, st1) /\
    removeFavorite name fid key st1 = (Ok true, st2) /\
    readFileContent (json_path name) (if shouldEncryptProfile name then key else None) st2
      = (Ok (TJson (JObj ps)), st2) /\
    (forall p, p <> json_path name -> files st2 !! p = files st !! p).
Proof.
  assert (Hf' : or_else (assoc "favorites" cs) (JArr []) = JArr xs) by (rewrite Hf; reflexivity).
  set (cs1 := assoc_set "favorites" (JArr (xs ++ [fw])) cs).
  set (doc := JObj (assoc_set "character" (JObj cs1) ps)).
  set (st1 := snd (writeFileContent (json_path name) (TJson doc) key (shouldEncryptProfile name) st)).
  set (doc2 := JObj (assoc_set "character" (JObj cs) (assoc_set "character" (JObj cs1) ps))).
  set (st2 := snd (writeFileContent (json_path name) (TJson doc2) key (shouldEncryptProfile name) st1)).
  assert (Edoc2 : doc2 = JObj ps).
  { unfold doc2. rewrite assoc_set_assoc_set_eq, assoc_set_same by exact Hc. reflexivity. }
  exists st1, st2. split; [|split; [|split]].
  - exact (addFavorite_run st name key favorite fw now rnd iso ps cs xs Hread Hv Ht Hc Hf' Hfw).
  - assert (R : readFileContent (json_path name) (if shouldEncryptProfile name then key else None) st1
                = (Ok (TJson doc), st1)) by apply write_then_read.
    assert (Hv' : assoc "version" (assoc_set "character" (JObj cs1) ps) = Some (JStr "2.0"))
      by (rewrite assoc_assoc_set_ne; [exact Hv|discriminate]).
    assert (Ht' : assoc "type" (assoc_set "character" (JObj cs1) ps) = Some (JStr "character"))
      by (rewrite assoc_assoc_set_ne; [exact Ht|discriminate]).
    assert (Hnn : Forall (fun f => f <> JNull) (xs ++ [fw])).
    { apply Forall_app; split.
      - eapply Forall_impl; [exact Hxs|]. intros f [H _]; exact H.
      - destruct (favorite_with_id_obj _ _ _ _ _ Hfw) as [fs ->]. constructor; [discriminate|constructor]. }
    assert (Hfilter : filter_favorites fid (xs ++ [fw]) = Some xs).
    { rewrite (filter_favorites_spec fid _ Hnn), List.filter_app, filter_none_match.
      - cbn. rewrite Hid. cbn. rewrite app_nil_r. reflexivity.
      - eapply Forall_impl; [exact Hxs|]. intros f [_ H]; exact H. }
    unfold removeFavorite.
    rewrite (bind_ok _ _ st1 st2 true); [reflexivity|].
    apply try_catch_ok.
    mrw R. mrw (JSON_parse_json doc st1). unfold doc. mrw (is_v2_character_ok _ st1 Hv' Ht').
    cbn [pget]. rewrite assoc_assoc_set_eq.
    assert (Rm : remove_from_character fid (Some (JObj cs1)) st1 = (Ok (JObj cs), st1)).
    { unfold remove_from_character, cs1. rewrite assoc_assoc_set_eq. cbn [or_else truthy].
      rewrite Hfilter. rewrite length_app. cbn [length].
      replace (Nat.eqb (length xs) (length xs + 1)) with false
        by (symmetry; apply Nat.eqb_neq; lia).
      rewrite assoc_set_assoc_set_eq, assoc_set_same by exact Hf. reflexivity. }
    mrw Rm. fold doc2.
    mrw (writeFileContent_ok (json_path name) (TJson doc2) key (shouldEncryptProfile name) st1).
    reflexivity.
  - rewrite <- Edoc2. apply write_then_read.
  - intros p Hp. unfold st2, st1.
    rewrite !writeFileContent_files_ne by exact Hp. reflexivity.
Qed.

Lemma pure_ret {A} (a : A) : pure_m (ret a).
Proof. intros st; reflexivity. Qed.

Lemma pure_throw {A} (msg : string) : pure_m (A:=A) (throw msg).
Proof. intros st; reflexivity. Qed.

Lemma pure_bind {A B} (m : M A) (k : A -> M B) :
  pure_m m -> (forall a, pure_m (k a)) -> pure_m (bind m k).
Proof.
  intros Hm Hk st. unfold bind. specialize (Hm st).
  destruct (m st) as [[a|e] s]; cbn in *; subst; [apply Hk|reflexivity].
Qed.

Lemma pure_try_catch {A} (m : M A) (h : string -> M A) :
  pure_m m -> (forall e, pure_m (h e)) -> pure_m (try_catch m h).
Proof.
  intros Hm Hh st. unfold try_catch. specialize (Hm st).
  destruct (m st) as [[a|e] s]; cbn in *; subst; [reflexivity|apply Hh].
Qed.

Lemma pure_lift_opt {A} (o : option A) (msg : string) : pure_m (lift_opt o msg).
Proof. intros st; destruct o; reflexivity. Qed.

Lemma pure_readFileContent (p : string) (k : option string) : pure_m (readFileContent p k).
Proof. intros st; apply readFileContent_pure. Qed.

Lemma pure_JSON_parse (t : text) : pure_m (JSON_parse t).
Proof. apply pure_lift_opt. Qed.

Lemma pure_is_v2_character (d : json) : pure_m (is_v2_character d).
Proof.
  intros st. unfold is_v2_character.
  destruct (jget d "version"); [|reflexivity].
  destruct (is_str o "2.0"); [|reflexivity]. destruct (jget d "type"); reflexivity.
Qed.

Lemma pure_default_favorites (c : option json) : pure_m (default_favorites c).
Proof.
  intros st. unfold default_favorites.
  destruct c as [[]|]; try reflexivity. destruct (assoc "favorites" ps); [destruct (truthy j)|]; reflexivity.
Qed.

Lemma pure_push_favorite (f c : json) : pure_m (push_favorite f c).
Proof.
  intros st. unfold push_favorite.
  destruct c; try reflexivity. destruct (assoc "favorites" ps) as [[]|]; reflexivity.
Qed.

Lemma pure_remove_from_character (fid : string) (c : option json) :
  pure_m (remove_from_character fid c).
Proof.
  intros st. unfold remove_from_character.
  destruct c as [[]|]; try reflexivity.
  destruct (or_else (assoc "favorites" ps) (JArr [])); try reflexivity.
  destruct (filter_favorites fid xs); [|reflexivity].
  destruct (Nat.eqb (length l) (length xs)); reflexivity.
Qed.

Create HintDb pure.

#[local] Hint Resolve pure_ret pure_throw pure_bind pure_try_catch pure_lift_opt
  pure_readFileContent pure_JSON_parse pure_is_v2_character pure_default_favorites
  pure_push_favorite pure_remove_from_character : pure.

Lemma keeps_pure {A} (P : A -> Prop) (m : M A) : pure_m m -> keeps_unless P m.
Proof. intros Hm st r st' E. left. specialize (Hm st). rewrite E in Hm. exact Hm. Qed.

Lemma keeps_bind_pure {A B} (P : B -> Prop) (m : M A) (k : A -> M B) :
  pure_m m -> (forall a, keeps_unless P (k a)) -> keeps_unless P (bind m k).
Proof.
  intros Hm Hk st r st' E. unfold bind in E. specialize (Hm st).
  destruct (m st) as [[a|e] s]; cbn in Hm; subst s.
  - exact (Hk a st r st' E).
  - injection E as <- <-. left; reflexivity.
Qed.

Lemma keeps_write_ret {A} (P : A -> Prop) (p : string) (t : text) (k : option string) (b : bool)
  (a : A) :
  P a -> keeps_unless P (let! _ := writeFileContent p t k b in ret a).
Proof.
  intros Ha st r st' E. right. exists a. split; [|exact Ha].
  rewrite (bind_ok _ _ _ _ _ (writeFileContent_ok p t k b st)) in E.
  injection E as <- _. reflexivity.
Qed.

Lemma keeps_write {P : unit -> Prop} (p : string) (t : text) (k : option string) (b : bool) :
  P tt -> keeps_unless P (writeFileContent p t k b).
Proof.
  intros Ha st r st' E. right. exists tt. split; [|exact Ha].
  rewrite writeFileContent_ok in E. injection E as <- _. reflexivity.
Qed.

Lemma keeps_rethrow {A} (P : A -> Prop) (m : M A) :
  keeps_unless P m -> keeps_unless P (try_catch m (fun err => throw err)).
Proof.
  intros Hm st r st' E. unfold try_catch in E.
  destruct (m st) as [[a|e] s] eqn:Em.
  - injection E as <- <-. exact (Hm st _ _ Em).
  - cbn in E. injection E as <- <-.
    destruct (Hm st _ _ Em) as [->|(a & Ha & _)]; [left; reflexivity|discriminate].
Qed.

(** The last step of a public operation: it fails only on a result of the
    step before that left the state as it was. *)
Lemma keeps_bind_last {A B} (P : A -> Prop) (m : M A) (k : A -> M B) :
  keeps_unless P m -> (forall a, P a -> forall st, exists b, k a st = (Ok b, st)) ->
  (forall a, pure_m (k a)) ->
  keeps_unless (fun _ => True) (bind m k).
Proof.
  intros Hm Hs Hk st r st' E. unfold bind in E.
  destruct (m st) as [[a|e] s] eqn:Em.
  - destruct (Hm st _ _ Em) as [->|(a' & Ha & Pa)].
    + left. specialize (Hk a st). rewrite E in Hk. exact Hk.
    + injection Ha as <-. destruct (Hs a Pa s) as [b Hb]. rewrite Hb in E.
      injection E as <- <-. right. exists b. split; [reflexivity|exact I].
  - injection E as <- <-. destruct (Hm st _ _ Em) as [->|(a' & Ha & _)];
      [left; reflexivity|discriminate].
Qed.

Lemma keeps_err {A} (m : M A) (st st' : store) (e : string) :
  keeps_unless (fun _ => True) m -> m st = (Err e, st') -> st' = st.
Proof.
  intros Hm E. destruct (Hm st _ _ E) as [H|(a & Ha & _)]; [exact H|discriminate].
Qed.

(** [addFavorite], [removeFavorite] and [saveProfile] are atomic: when one
    of them rejects, the directory and the heap are left as they were. *)
Theorem writers_atomic (name fid : string) (favorite d : json) (key : option string)
  (now : Z) (rnd iso : string) (st st' : store) (e : string) :
  (addFavorite name favorite key now rnd iso st = (Err e, st') -> st' = st) /\
  (removeFavorite name fid key st = (Err e, st') -> st' = st) /\
  (saveProfile name d key st = (Err e, st') -> st' = st).
Proof.
  split; [|split]; apply keeps_err.
  - unfold addFavorite. apply (keeps_bind_last (fun a => a <> None)).
    + apply keeps_rethrow. apply keeps_bind_pure; [auto with pure|intros c].
      apply keeps_bind_pure; [auto with pure|intros data].
      apply keeps_bind_pure; [auto with pure|intros v2].
      destruct v2; [|apply keeps_pure; auto with pure].
      apply keeps_bind_pure; [auto with pure|intros ch].
      apply keeps_bind_pure; [auto with pure|intros fw].
      apply keeps_bind_pure; [auto with pure|intros ch'].
      apply keeps_write_ret. discriminate.
    + intros [fw|] H st0; [eexists; reflexivity|congruence].
    + intros [fw|]; auto with pure.
  - unfold removeFavorite. apply (keeps_bind_last (fun b => b = true)).
    + apply keeps_rethrow. apply keeps_bind_pure; [auto with pure|intros c].
      apply keeps_bind_pure; [auto with pure|intros data].
      apply keeps_bind_pure; [auto with pure|intros v2].
      destruct v2; [|apply keeps_pure; auto with pure].
      apply keeps_bind_pure; [auto with pure|intros ch].
      apply keeps_write_ret. reflexivity.
    + intros b -> st0. eexists; reflexivity.
    + intros []; auto with pure.
  - unfold saveProfile. apply keeps_bind_pure; [auto with pure|intros full].
    apply keeps_bind_pure.
    + destruct full; auto with pure.
    + intros data. apply keeps_write. exact I.
Qed.

Lemma pure_fs_readFile (p : string) : pure_m (fs_readFile p).
Proof. intros st. unfold fs_readFile. destruct (files st !! p); reflexivity. Qed.

Lemma pure_fs_access (p : string) : pure_m (fs_access p).
Proof. intros st. unfold fs_access. destruct (files st !! p); reflexivity. Qed.

#[local] Hint Resolve pure_fs_readFile pure_fs_access : pure.

Lemma total_ret {A} (a : A) : total_m (ret a).
Proof. intros st; eexists; reflexivity. Qed.

Lemma total_bind {A B} (m : M A) (k : A -> M B) :
  total_m m -> (forall a, total_m (k a)) -> total_m (bind m k).
Proof.
  intros Hm Hk st. destruct (Hm st) as [a Ea]. rewrite (bind_ok _ _ _ _ _ Ea). apply Hk.
Qed.

Lemma total_try_catch {A} (m : M A) (h : string -> M A) :
  pure_m m -> (forall e, total_m (h e)) -> total_m (try_catch m h).
Proof.
  intros Hm Hh st. specialize (Hm st). unfold try_catch.
  destruct (m st) as [[a|e] s]; cbn in Hm; subst s; [eexists; reflexivity|apply Hh].
Qed.

Create HintDb total.

#[local] Hint Resolve total_ret total_bind total_try_catch : total.

(** The query methods never reject and change nothing: [getFavorites],
    [getActiveProfile], [getConsent], [getUserSettings] and [profileExists]
    always resolve, and [getProfile] and [listProfiles] leave the store
    unchanged whatever they return. *)
Theorem queries_never_reject (name : string) (key : option string) (st : store) :
  (exists j, getFavorites name key st = (Ok j, st)) /\
  (exists j, getActiveProfile key st = (Ok j, st)) /\
  (exists j, getConsent key st = (Ok j, st)) /\
  (exists j, getUserSettings key st = (Ok j, st)) /\
  (exists b, profileExists name st = (Ok b, st)) /\
  snd (getProfile name key st) = st /\
  snd (listProfiles st) = st.
Proof.
  split; [|split; [|split; [|split; [|split; [|split]]]]].
  - revert st. unfold getFavorites. apply total_try_catch; [|intros; apply total_ret].
    apply pure_bind; [auto with pure|intros c].
    apply pure_bind; [auto with pure|intros d].
    apply pure_bind; [auto with pure|intros [|]]; [|auto with pure].
    destruct (pget d "character") as [c'|]; [destruct (jget c' "favorites")|]; auto with pure.
  - revert st. unfold getActiveProfile. apply total_bind.
    + apply total_try_catch; [|intros; apply total_ret].
      apply pure_bind; [auto with pure|intros c].
      apply pure_bind; [auto with pure|intros d].
      destruct (jget d "version") as [v|]; [|auto with pure].
      destruct (is_str v "2.0"); [|auto with pure].
      destruct (jopt (jopt (Some d) "settings") "defaultActiveCharacter"); auto with pure.
    + intros [d|]; [apply total_ret|].
      apply total_try_catch; [auto with pure|intros; apply total_ret].
  - revert st. unfold getConsent. apply total_bind.
    + apply total_try_catch; [|intros; apply total_ret].
      apply pure_bind; [auto with pure|intros c].
      apply pure_bind; [auto with pure|intros d].
      destruct (jget d "consent") as [[c'|]|]; auto with pure.
    + intros [c|]; apply total_ret.
  - revert st. unfold getUserSettings. apply total_bind.
    + apply total_try_catch; [|intros; apply total_ret].
      apply pure_bind; [auto with pure|intros c].
      apply pure_bind; [auto with pure|intros d].
      destruct (jget d "version") as [v|]; [|auto with pure].
      destruct (is_str v "2.0"); [|auto with pure].
      destruct (jget d "type"); auto with pure.
    + intros [d|]; [apply total_ret|].
      apply total_try_catch; [auto with pure|intros; apply total_ret].
  - revert st. unfold profileExists. apply total_try_catch; [auto with pure|intros e].
    apply total_try_catch; [auto with pure|intros; apply total_ret].
  - revert st. unfold getProfile. apply pure_bind; [auto with pure|intros [d|]]; [auto with pure|].
    apply pure_bind; [auto with pure|intros []].
    apply pure_bind; auto with pure.
  - reflexivity.
Qed.

Lemma length_filter_remove_one (f : string) (fs : list string) :
  NoDup fs -> length fs <= S (length (List.filter (fun g => negb (String.eqb g f)) fs)).
Proof.
  induction 1 as [|g fs Hg Hnd IH]; cbn; [lia|].
  destruct (String.eqb g f) eqn:E; cbn.
  - apply String.eqb_eq in E; subst g.
    rewrite (List.filter_ext_in _ (fun _ => true)), filter_true; [lia|].
    intros g Hin. destruct (String.eqb g f) eqn:E'; [|reflexivity].
    apply String.eqb_eq in E'; subst g. contradiction Hg. apply list_elem_of_In. exact Hin.
  - lia.
Qed.

(** [deleteProfile(name)] always resolves: it removes [name.json],
    [name.txt] and [name_avatar.txt] where present, touches nothing else
    in the profiles directory, and afterwards [profileExists] is [false]
    and [getProfile] rejects. From the uploads listing it removes only
    entries whose name starts with [name.], keeps every other entry, and
    on a listing without duplicates removes at most one. *)
Theorem deleteProfile_spec (name : string) (uploads : option (list string))
  (key : option string) (st : store) :
  let st' := snd (deleteProfile name uploads st) in
  deleteProfile name uploads st = (Ok (delete_avatar_upload name uploads), st') /\
  files st' = delete (avatar_path name) (delete (txt_path name) (delete (json_path name) (files st))) /\
  heap st' = heap st /\ writes st' = writes st /\
  profileExists name st' = (Ok false, st') /\
  getProfile name key st' = (Err "Profile not found or cannot be decrypted", st') /\
  (forall fs, uploads = Some fs -> exists fs',
     delete_avatar_upload name uploads = Some fs' /\
     (forall f, In f fs' -> In f fs) /\
     (forall f, In f fs -> String.prefix (name ++ ".") f = false -> In f fs') /\
     (NoDup fs -> length fs <= S (length fs'))).
Proof.
  cbn zeta.
  assert (U : forall p (st0 : store),
             try_catch (fs_unlink p) (fun _ => ret tt) st0
             = (Ok tt, mkStore (delete p (files st0)) (heap st0) (next_loc st0) (writes st0))).
  { intros p [fs0 h0 n0 w0]. unfold try_catch, fs_unlink; cbn.
    destruct (fs0 !! p) eqn:E; [reflexivity|]. cbn. f_equal. f_equal.
    symmetry. apply delete_id. exact E. }
  assert (D : deleteProfile name uploads st =
              (Ok (delete_avatar_upload name uploads),
               mkStore (delete (avatar_path name) (delete (txt_path name) (delete (json_path name) (files st))))
                       (heap st) (next_loc st) (writes st))).
  { unfold deleteProfile. mrw (U (json_path name) st). erewrite (bind_ok _ _ _ _ _ (U (txt_path name) _)).
    erewrite (bind_ok _ _ _ _ _ (U (avatar_path name) _)).
    reflexivity. }
  rewrite D. cbn [snd files heap writes].
  assert (Hj : delete (avatar_path name) (delete (txt_path name) (delete (json_path name) (files st))) !! json_path name = None).
  { rewrite lookup_delete_ne, lookup_delete_ne, lookup_delete_eq; [reflexivity| |].
    - unfold txt_path, json_path. intros Heq. apply (inj (String.append name)) in Heq. discriminate.
    - unfold avatar_path, json_path. intros Heq. apply (inj (String.append name)) in Heq. discriminate. }
  assert (Ht : delete (avatar_path name) (delete (txt_path name) (delete (json_path name) (files st))) !! txt_path name = None).
  { rewrite lookup_delete_ne, lookup_delete_eq; [reflexivity|].
    unfold avatar_path, txt_path. intros Heq. apply (inj (String.append name)) in Heq. discriminate. }
  split; [reflexivity|split; [reflexivity|split; [reflexivity|split; [reflexivity|split; [|split]]]]].
  - unfold profileExists, try_catch, bind, fs_access; cbn [files]. rewrite Hj. cbn [files]. rewrite Ht. reflexivity.
  - unfold getProfile, readFileContent, fs_readFile, fs_access, try_catch, bind, ret, throw.
    cbv zeta beta. cbn [files]. rewrite Hj. cbv beta iota. cbn [files]. rewrite Ht. reflexivity.
  - intros fs ->. unfold delete_avatar_upload.
    destruct (List.find (fun f => String.prefix (name ++ ".") f) fs) as [a|] eqn:Ef.
    + eexists; split; [reflexivity|split; [|split]].
      * intros f Hf. apply filter_In in Hf. apply Hf.
      * intros f Hf Hp. apply filter_In. split; [exact Hf|].
        destruct (String.eqb f a) eqn:E; [|reflexivity].
        apply String.eqb_eq in E; subst f. apply find_some in Ef as [_ Ef]. congruence.
      * apply length_filter_remove_one.
    + eexists; split; [reflexivity|split; [|split]]; auto.
Qed.

(** Saving a full version-2.0 character document stores it as is:
    [getProfile] then returns it; a public profile is stored in plain JSON,
    a private one with a non-empty key is stored encrypted under that key. *)
Theorem saveProfile_v2_then_getProfile (name : string) (ps : list (string * json))
  (key : option string) (st : store)
  (Hv : assoc "version" ps = Some (JStr "2.0"))
  (Ht : assoc "type" ps = Some (JStr "character")) :
  let st' := snd (saveProfile name (JObj ps) key st) in
  saveProfile name (JObj ps) key st = (Ok tt, st') /\
  getProfile name key st' = (Ok (JObj ps), st') /\
  (shouldEncryptProfile name = false -> files st' !! json_path name = Some (TJson (JObj ps))) /\
  (shouldEncryptProfile name = true -> key_truthy key = true ->
   exists k, key = Some k /\ files st' !! json_path name = Some (encrypt (TJson (JObj ps)) k)).
Proof.
  assert (S : saveProfile name (JObj ps) key st
              = writeFileContent (json_path name) (TJson (JObj ps)) key (shouldEncryptProfile name) st).
  { unfold saveProfile. mrw (is_v2_character_ok ps st Hv Ht). reflexivity. }
  cbn zeta. rewrite S.
  set (st' := snd (writeFileContent (json_path name) (TJson (JObj ps)) key (shouldEncryptProfile name) st)).
  split; [apply writeFileContent_ok|split; [|split]].
  - unfold getProfile. cbv zeta.
    rewrite (bind_ok _ _ st' st' (Some (JObj ps))); [reflexivity|].
    apply try_catch_ok.
    mrw (write_then_read name (json_path name) (TJson (JObj ps)) key st).
    mrw (JSON_parse_json (JObj ps) st'). mrw (is_v2_character_ok ps st' Hv Ht). reflexivity.
  - intros He. unfold st', writeFileContent, fs_writeFile. rewrite He.
    destruct key as [k|]; [rewrite andb_false_r|]; cbn; apply lookup_insert_eq.
  - intros He Hk. destruct key as [k|]; [|discriminate]. exists k. split; [reflexivity|].
    unfold st', writeFileContent, fs_writeFile. rewrite He, Hk. cbn. apply lookup_insert_eq.
Qed.

(** ** Live objects: reading an object back after an update *)
Lemma alloc_props_spec (ps : list (string * json)) :
  forall h n vs h1 n1, alloc_props ps h n = (vs, h1, n1) ->
  n + depth_props ps <= n1 /\
  (forall l, (l < n \/ n1 <= l)%nat -> h1 !! l = h !! l) /\
  (forall f h'', (forall l, (n <= l < n1)%nat -> h'' !! l = h1 !! l) ->
     depth_props ps <= f -> to_json_props f h'' vs = Some ps).
Proof.
  induction ps as [|[k x] ps IHps]; intros h0 n0 vs h1 n1 E.
  - cbn in E. injection E as <- <- <-. split; [cbn; lia|].
    split; [reflexivity|]. intros; reflexivity.
  - cbn in E.
    destruct (alloc x h0 n0) as [[vx hx] nx] eqn:Ex.
    destruct (alloc_props ps hx nx) as [[vs' h2] n2] eqn:Eps.
    injection E as <- <- <-.
    destruct (alloc_spec _ _ _ _ _ _ Ex) as (Dx & Fx & Rx).
    destruct (IHps _ _ _ _ _ Eps) as (Ds & Fs & Rs).
    cbn [depth_props]. split; [lia|]. split.
    + intros l Hl. rewrite Fs by lia. apply Fx. lia.
    + intros f h'' Hag Hf. cbn [to_json_props].
      rewrite (Rx f h''), (Rs f h''); [reflexivity| | lia | | lia].
      * intros l Hl. apply Hag. lia.
      * intros l Hl. rewrite Hag by lia. apply Fs. lia.
Qed.

(** Allocating an object literal: its properties below the root [r], the
    root at [r]. *)
Lemma alloc_obj_spec (ps : list (string * json)) (h : gmap nat hobj) (n : nat)
  (v : jval) (h' : gmap nat hobj) (n' : nat) :
  alloc (JObj ps) h n = (v, h', n') ->
  exists r vs, v = VRef r /\ n' = S r /\ h' !! r = Some (HObj vs) /\
    n + depth_props ps <= r /\
    (forall l, (l < n \/ n' <= l)%nat -> h' !! l = h !! l) /\
    (forall f h'', (forall l, (n <= l < r)%nat -> h'' !! l = h' !! l) ->
       depth_props ps <= f -> to_json_props f h'' vs = Some ps).
Proof.
  rewrite alloc_JObj. destruct (alloc_props ps h n) as [[vs h1] r] eqn:Eps.
  intros E. injection E as <- <- <-.
  destruct (alloc_props_spec _ _ _ _ _ _ Eps) as (D & F & R).
  exists r, vs. split; [reflexivity|]. split; [reflexivity|].
  split; [apply lookup_insert_eq|]. split; [exact D|]. split.
  - intros l Hl. rewrite lookup_insert_ne by lia. apply F. lia.
  - intros f h'' Hag Hf. apply R; [|exact Hf].
    intros l Hl. rewrite Hag by lia. apply lookup_insert_ne. lia.
Qed.

Lemma to_json_props_assoc_set (f : nat) (h : gmap nat hobj) (k : string) (x : jval) (jx : json)
  (vs : list (string * jval)) (ps : list (string * json)) :
  to_json_props f h vs = Some ps -> to_json f h x = Some jx ->
  to_json_props f h (assoc_set k x vs) = Some (assoc_set k jx ps).
Proof.
  revert ps. induction vs as [|[k0 x0] vs IH]; intros ps Hvs Hx.
  - cbn in Hvs. injection Hvs as <-. cbn. rewrite Hx. reflexivity.
  - cbn in Hvs. destruct (to_json f h x0) as [j0|] eqn:E0; [|discriminate].
    destruct (to_json_props f h vs) as [js|] eqn:Evs; [|discriminate].
    injection Hvs as <-. cbn.
    destruct (String.eqb k k0).
    + cbn. rewrite Hx, Evs. reflexivity.
    + cbn. rewrite E0, (IH js eq_refl Hx). reflexivity.
Qed.

Lemma to_json_props_assoc (f : nat) (h : gmap nat hobj) (k : string)
  (vs : list (string * jval)) (ps : list (string * json)) :
  to_json_props f h vs = Some ps ->
  match assoc k vs with
  | Some x => exists j, assoc k ps = Some j /\ to_json f h x = Some j
  | None => assoc k ps = None
  end.
Proof.
  revert ps. induction vs as [|[k0 x0] vs IH]; intros ps Hvs.
  - cbn in Hvs. injection Hvs as <-. reflexivity.
  - cbn in Hvs. destruct (to_json f h x0) as [j0|] eqn:E0; [|discriminate].
    destruct (to_json_props f h vs) as [js|] eqn:Evs; [|discriminate].
    injection Hvs as <-. cbn. destruct (String.eqb k k0).
    + exists j0. split; [reflexivity|exact E0].
    + exact (IH js eq_refl).
Qed.

Lemma truthy_to_json (f : nat) (h : gmap nat hobj) (x : jval) (j : json) :
  to_json f h x = Some j -> truthy_val x = truthy j.
Proof.
  intros E. destruct f as [|f].
  { destruct x; cbn in E; try discriminate; injection E as <-; reflexivity. }
  destruct x as [| | | |l]; try (cbn in E; injection E as <-; reflexivity).
  rewrite to_json_ref in E.
  destruct (h !! l) as [[ps|vs ps]|]; [| |discriminate].
  - destruct (to_json_props f h ps); cbn in E; [|discriminate]. injection E as <-; reflexivity.
  - destruct (to_json_elems f h vs); cbn in E; [|discriminate]. injection E as <-; reflexivity.
Qed.

Lemma JSON_stringify_eq (v : jval) (j : json) (st : store) :
  to_json (S (next_loc st)) (heap st) v = Some j -> JSON_stringify v st = (Ok j, st).
Proof. intros H. unfold JSON_stringify. rewrite H. reflexivity. Qed.

Lemma JSON_parse_live_obj (ps : list (string * json)) (st : store) :
  JSON_parse_live (TJson (JObj ps)) st = alloc_m (JObj ps) st.
Proof. reflexivity. Qed.

Lemma key_write_read (p : string) (t : text) (key : option string) (b : bool) (st : store) :
  (b = key_truthy key \/ b = true) ->
  let st' := snd (writeFileContent p t key b st) in
  readFileContent p key st' = (Ok t, st').
Proof.
  intros Hb. cbn zeta. unfold writeFileContent, fs_writeFile, readFileContent, bind, fs_readFile; cbn.
  rewrite lookup_insert_eq.
  destruct key as [k|]; cbn; [|reflexivity].
  destruct Hb as [->| ->]; cbn;
    destruct (String.eqb k EmptyString) eqn:E; cbn; try reflexivity;
    rewrite String.eqb_refl; reflexivity.
Qed.

(** [saveConsent(c)] on a readable user document stores [c] under
    [consent] and keeps every other field; [getConsent] then returns [c]
    when it is truthy and the default consent otherwise; no other file
    changes. *)
Theorem saveConsent_then_getConsent (c : json) (key : option string) (st : store)
  (ps : list (string * json))
  (Hread : readFileContent user_profile_path key st = (Ok (TJson (JObj ps)), st)) :
  let doc := JObj (assoc_set "consent" c ps) in
  exists st',
    saveConsent c key st = (Ok tt, st') /\
    readFileContent user_profile_path key st' = (Ok (TJson doc), st') /\
    getConsent key st' = (Ok (if truthy c then c else default_consent), st') /\
    (forall p, p <> user_profile_path -> files st' !! p = files st !! p).
Proof.
  cbn zeta. destruct st as [fs h0 n0 w].
  destruct (alloc (JObj ps) h0 n0) as [[v h1] n1] eqn:E1.
  destruct (alloc_obj_spec _ _ _ _ _ _ E1) as (r & vs & -> & -> & Hr & D1 & F1 & R1).
  destruct (alloc c h1 (S r)) as [[vc h2] n2] eqn:E2.
  destruct (alloc_spec _ _ _ _ _ _ E2) as (D2 & F2 & R2).
  assert (Hr2 : h2 !! r = Some (HObj vs)) by (rewrite F2 by lia; exact Hr).
  assert (J : to_json (S n2) (<[r := HObj (assoc_set "consent" vc vs)]> h2) (VRef r)
              = Some (JObj (assoc_set "consent" c ps))).
  { rewrite to_json_ref, lookup_insert_eq. cbn [option_map].
    rewrite (to_json_props_assoc_set _ _ _ _ c vs ps); [reflexivity| |].
    - apply R1; [|lia]. intros l Hl. rewrite lookup_insert_ne by lia. apply F2. lia.
    - apply R2; [|lia]. intros l Hl. rewrite lookup_insert_ne by lia. reflexivity. }
  set (st3 := mkStore fs (<[r := HObj (assoc_set "consent" vc vs)]> h2) n2 w).
  set (T := TJson (JObj (assoc_set "consent" c ps))).
  set (st' := snd (writeFileContent user_profile_path T key (key_truthy key) st3)).
  assert (R : readFileContent user_profile_path key st' = (Ok T, st'))
    by (apply key_write_read; left; reflexivity).
  exists st'. split; [|split; [exact R|split]].
  - unfold saveConsent. cbv zeta.
    rewrite (bind_ok _ _ _ (mkStore fs h1 (S r) w) (VRef r)).
    2:{ apply try_catch_ok. mrw Hread. rewrite JSON_parse_live_obj. apply alloc_m_eq. exact E1. }
    mrw (alloc_m_eq c (mkStore fs h1 (S r) w) vc h2 n2 E2).
    mrw (set_prop_eq r "consent" vc vs (mkStore fs h2 n2 w) Hr2).
    cbn [files heap next_loc writes].
    mrw (JSON_stringify_eq (VRef r) _ st3 J).
    apply writeFileContent_ok.
  - unfold getConsent.
    rewrite (bind_ok _ _ st' st' (if truthy c then Some c else None)).
    2:{ apply try_catch_ok. mrw R. unfold T. mrw (JSON_parse_json (JObj (assoc_set "consent" c ps)) st').
        cbn [jget]. rewrite assoc_assoc_set_eq. reflexivity. }
    destruct (truthy c); reflexivity.
  - intros p Hp. unfold st'. rewrite writeFileContent_files_ne by exact Hp. reflexivity.
Qed.

(** A nested object property [k] of an allocated object literal: where it
    lives, and how the literal reads back after that object is updated. *)
Lemma alloc_props_nested (ps : list (string * json)) :
  forall h n vs h1 n1, alloc_props ps h n = (vs, h1, n1) ->
  forall k qs, assoc k ps = Some (JObj qs) ->
  exists s ws, assoc k vs = Some (VRef s) /\ h1 !! s = Some (HObj ws) /\
    (n + depth_props qs <= s < n1)%nat /\
    (forall f h'', (forall l, (n <= l < s)%nat -> h'' !! l = h1 !! l) ->
       depth_props qs <= f -> to_json_props f h'' ws = Some qs) /\
    (forall f h'' ws' qs',
       (forall l, (n <= l < n1)%nat -> l <> s -> h'' !! l = h1 !! l) ->
       depth_props ps <= S f -> h'' !! s = Some (HObj ws') ->
       to_json_props f h'' ws' = Some qs' ->
       to_json_props (S f) h'' vs = Some (assoc_set k (JObj qs') ps)).
Proof.
  induction ps as [|[k0 x] ps IHps]; intros h0 n0 vs h1 n1 E k qs Hk; [discriminate|].
  cbn in E.
  destruct (alloc x h0 n0) as [[vx hx] nx] eqn:Ex.
  destruct (alloc_props ps hx nx) as [[vs' h2] n2] eqn:Eps.
  injection E as <- <- <-.
  destruct (alloc_props_spec _ _ _ _ _ _ Eps) as (Ds & Fs & Rs).
  cbn in Hk. destruct (String.eqb k k0) eqn:Ek.
  - injection Hk as ->. apply String.eqb_eq in Ek; subst k0.
    destruct (alloc_obj_spec _ _ _ _ _ _ Ex) as (s & ws & -> & -> & Hs & Dx & Fx & Rx).
    exists s, ws. cbn [assoc]. rewrite String.eqb_refl.
    split; [reflexivity|]. split; [rewrite Fs by lia; exact Hs|]. split; [lia|]. split.
    + intros f h'' Hag Hf. apply Rx; [|exact Hf]. intros l Hl. rewrite Hag by lia. apply Fs. lia.
    + intros f h'' ws' qs' Hag Hd Hs' Hq. cbn [depth_props json_depth] in Hd.
      cbn [to_json_props]. rewrite to_json_ref, Hs'. cbn [option_map]. rewrite Hq.
      rewrite (Rs (S f) h''); [cbn; rewrite String.eqb_refl; reflexivity| |lia].
      intros l Hl. apply Hag; lia.
  - destruct (IHps _ _ _ _ _ Eps k qs Hk) as (s & ws & Ha & Hs & Hrange & Ro & Rm).
    destruct (alloc_spec _ _ _ _ _ _ Ex) as (Dx & Fx & Rx).
    exists s, ws. cbn [assoc]. rewrite Ek.
    split; [exact Ha|]. split; [exact Hs|]. split; [lia|]. split.
    + intros f h'' Hag Hf. apply Ro; [|exact Hf]. intros l Hl. apply Hag. lia.
    + intros f h'' ws' qs' Hag Hd Hs' Hq. cbn [depth_props] in Hd.
      cbn [to_json_props].
      rewrite (Rx (S f) h''), (Rm f h'' ws' qs'); [| | lia | exact Hs' | exact Hq | | lia].
      * cbn. rewrite Ek. reflexivity.
      * intros l Hl Hne. apply Hag; lia.
      * intros l Hl. rewrite Hag by lia. apply Fs. lia.
Qed.

Lemma to_json_str (f : nat) (h : gmap nat hobj) (s : string) :
  to_json f h (VStr s) = Some (JStr s).
Proof. destruct f; reflexivity. Qed.

Lemma alloc_empty_obj (h : gmap nat hobj) (n : nat) :
  alloc (JObj []) h n = (VRef n, <[n := HObj []]> h, S n).
Proof. reflexivity. Qed.

Lemma setActiveProfile_readable (name : string) (key : option string) (st : store)
  (ps : list (string * json)) :
  readFileContent user_profile_path key st = (Ok (TJson (JObj ps)), st) ->
  match assoc "settings" ps with Some (JObj _) | None => True | Some j => truthy j = false end ->
  let ss0 := match assoc "settings" ps with Some (JObj ss) => ss | _ => [] end in
  let doc := JObj (assoc_set "settings"
                     (JObj (assoc_set "defaultActiveCharacter" (JStr name) ss0)) ps) in
  exists st3, files st3 = files st /\
    setActiveProfile name key st = writeFileContent user_profile_path (TJson doc) key true st3.
Proof.
  intros Hread Hset. cbn zeta. destruct st as [fs h0 n0 w].
  destruct (alloc_props ps h0 n0) as [[vs h1] r] eqn:Eps.
  destruct (alloc_props_spec _ _ _ _ _ _ Eps) as (D1 & F1 & R1).
  assert (A : alloc (JObj ps) h0 n0 = (VRef r, <[r := HObj vs]> h1, S r))
    by (rewrite alloc_JObj, Eps; reflexivity).
  assert (Hr : <[r := HObj vs]> h1 !! r = Some (HObj vs)) by apply lookup_insert_eq.
  assert (B : truthy_opt (assoc "settings" vs) = false ->
    exists st3, files st3 = fs /\
      (setActiveProfile name key (mkStore fs h0 n0 w)
      = writeFileContent user_profile_path
          (TJson (JObj (assoc_set "settings"
                          (JObj (assoc_set "defaultActiveCharacter" (JStr name) [])) ps)))
          key true st3)).
  { intros Hf.
    set (hA := <[S r := HObj []]> (<[r := HObj vs]> h1)).
    set (h2 := <[r := HObj (assoc_set "settings" (VRef (S r)) vs)]> hA).
    set (h3 := <[S r := HObj (assoc_set "defaultActiveCharacter" (VStr name) [])]> h2).
    assert (J : to_json (S (S (S r))) h3 (VRef r)
                = Some (JObj (assoc_set "settings"
                        (JObj (assoc_set "defaultActiveCharacter" (JStr name) [])) ps))).
    { rewrite to_json_ref. unfold h3. rewrite lookup_insert_ne by lia.
      unfold h2. rewrite lookup_insert_eq. cbn [option_map]. fold h2. fold h3.
      rewrite (to_json_props_assoc_set _ _ _ _ (JObj (assoc_set "defaultActiveCharacter" (JStr name) [])) vs ps);
        [reflexivity| |].
      - apply R1; [|lia]. intros l Hl. unfold h3, h2, hA. rewrite !lookup_insert_ne by lia. reflexivity.
      - rewrite to_json_ref. unfold h3. rewrite lookup_insert_eq. reflexivity. }
    exists (mkStore fs h3 (S (S r)) w). split; [reflexivity|].
    unfold setActiveProfile. cbv zeta.
    rewrite writeFileContent_ok. apply try_catch_ok.
    mrw Hread. mrw (eq_trans (JSON_parse_live_obj ps _) (alloc_m_eq _ (mkStore fs h0 n0 w) _ _ _ A)).
    mrw (get_prop_eq r "settings" vs (mkStore fs (<[r := HObj vs]> h1) (S r) w) Hr).
    rewrite Hf. cbv iota.
    rewrite (bind_ok _ _ _ (mkStore fs h2 (S (S r)) w) tt).
    2:{ mrw (alloc_m_eq (JObj []) (mkStore fs (<[r := HObj vs]> h1) (S r) w) _ _ _ (alloc_empty_obj _ _)).
        apply set_prop_eq. cbn [heap next_loc]. rewrite lookup_insert_ne by lia. exact Hr. }
    cbv beta.
    assert (H2r : h2 !! r = Some (HObj (assoc_set "settings" (VRef (S r)) vs)))
      by apply lookup_insert_eq.
    mrw (get_prop_eq r "settings" _ (mkStore fs h2 (S (S r)) w) H2r).
    rewrite assoc_assoc_set_eq. cbn [set_on].
    assert (H2s : h2 !! S r = Some (HObj [])).
    { unfold h2, hA. rewrite lookup_insert_ne by lia. apply lookup_insert_eq. }
    mrw (set_prop_eq (S r) "defaultActiveCharacter" (VStr name) [] (mkStore fs h2 (S (S r)) w) H2s).
    cbn [files heap next_loc writes]. fold h3.
    mrw (JSON_stringify_eq (VRef r) _ (mkStore fs h3 (S (S r)) w) J).
    apply writeFileContent_ok. }
  assert (Hcorr := to_json_props_assoc (depth_props ps) h1 "settings" vs ps
                     (R1 _ h1 (fun _ _ => eq_refl) (le_n _))).
  destruct (assoc "settings" ps) as [j|] eqn:Es.
  - destruct j as [| | | | |ss]; cbn in Hset.
    5: { exfalso; discriminate. }
    5: {
      destruct (alloc_props_nested _ _ _ _ _ _ Eps "settings" ss Es)
        as (s & ws & Ha & Hs & Hrange & Ro & Rm).
      set (hF := <[s := HObj (assoc_set "defaultActiveCharacter" (VStr name) ws)]> (<[r := HObj vs]> h1)).
      assert (J : to_json (S (S r)) hF (VRef r)
                  = Some (JObj (assoc_set "settings"
                          (JObj (assoc_set "defaultActiveCharacter" (JStr name) ss)) ps))).
      { rewrite to_json_ref. unfold hF. rewrite lookup_insert_ne by lia. rewrite lookup_insert_eq.
        cbn [option_map]. fold hF.
        rewrite (Rm r hF (assoc_set "defaultActiveCharacter" (VStr name) ws)
                   (assoc_set "defaultActiveCharacter" (JStr name) ss)); [reflexivity| | lia | | ].
        - intros l Hl Hne. unfold hF. rewrite !lookup_insert_ne by lia. reflexivity.
        - unfold hF. apply lookup_insert_eq.
        - apply to_json_props_assoc_set; [|apply to_json_str].
          apply Ro; [|lia]. intros l Hl. unfold hF. rewrite !lookup_insert_ne by lia. reflexivity. }
      exists (mkStore fs hF (S r) w). split; [reflexivity|].
      rewrite writeFileContent_ok. apply try_catch_ok.
      mrw Hread. mrw (eq_trans (JSON_parse_live_obj ps _) (alloc_m_eq _ (mkStore fs h0 n0 w) _ _ _ A)).
      mrw (get_prop_eq r "settings" vs (mkStore fs (<[r := HObj vs]> h1) (S r) w) Hr).
      rewrite Ha. cbn [truthy_opt truthy_val]. rewrite bind_ret.
      mrw (get_prop_eq r "settings" vs (mkStore fs (<[r := HObj vs]> h1) (S r) w) Hr).
      rewrite Ha. cbn [set_on].
      assert (Hs' : <[r := HObj vs]> h1 !! s = Some (HObj ws))
        by (rewrite lookup_insert_ne by lia; exact Hs).
      mrw (set_prop_eq s "defaultActiveCharacter" (VStr name) ws
             (mkStore fs (<[r := HObj vs]> h1) (S r) w) Hs').
      cbn [files heap next_loc writes]. fold hF.
      mrw (JSON_stringify_eq (VRef r) _ (mkStore fs hF (S r) w) J).
      apply writeFileContent_ok. }
    all: apply B; destruct (assoc "settings" vs) as [x|]; [|reflexivity];
      destruct Hcorr as (j & Hj & Ex); injection Hj as <-;
      cbn [truthy_opt]; rewrite (truthy_to_json _ _ _ _ Ex); exact Hset.
  - apply B. destruct (assoc "settings" vs) as [x|]; [|reflexivity].
    destruct Hcorr as (j & Hj & _). discriminate.
Qed.

(** [setActiveProfile(name)] on a readable user document whose [settings]
    is an object, missing or falsy writes [name] into
    [settings.defaultActiveCharacter] and keeps every other field; on a
    version-2.0 document and a non-empty [name], [getActiveProfile] then
    returns [name]; no other file changes. *)
Theorem setActiveProfile_then_getActiveProfile (name : string) (key : option string)
  (st : store) (ps : list (string * json))
  (Hread : readFileContent user_profile_path key st = (Ok (TJson (JObj ps)), st))
  (Hset : match assoc "settings" ps with Some (JObj _) | None => True | Some j => truthy j = false end) :
  let ss0 := match assoc "settings" ps with Some (JObj ss) => ss | _ => [] end in
  let doc := JObj (assoc_set "settings"
                     (JObj (assoc_set "defaultActiveCharacter" (JStr name) ss0)) ps) in
  exists st',
    setActiveProfile name key st = (Ok tt, st') /\
    readFileContent user_profile_path key st' = (Ok (TJson doc), st') /\
    (is_str (assoc "version" ps) "2.0" = true -> name <> EmptyString ->
     getActiveProfile key st' = (Ok (JStr name), st')) /\
    (forall p, p <> user_profile_path -> files st' !! p = files st !! p).
Proof.
  destruct (setActiveProfile_readable name key st ps Hread Hset) as (st3 & Hf & E).
  cbn zeta. cbn zeta in E.
  set (ss0 := match assoc "settings" ps with Some (JObj ss) => ss | _ => [] end) in *.
  set (doc := JObj (assoc_set "settings"
                      (JObj (assoc_set "defaultActiveCharacter" (JStr name) ss0)) ps)) in *.
  set (st' := snd (writeFileContent user_profile_path (TJson doc) key true st3)).
  assert (R : readFileContent user_profile_path key st' = (Ok (TJson doc), st'))
    by (apply key_write_read; right; reflexivity).
  exists st'. split; [rewrite E; apply writeFileContent_ok|split; [exact R|split]].
  - intros Hv Hn. unfold getActiveProfile.
    rewrite (bind_ok _ _ st' st' (Some (JStr name))); [reflexivity|].
    apply try_catch_ok. mrw R. mrw (JSON_parse_json doc st').
    unfold doc. cbn [jget jopt]. rewrite assoc_assoc_set_ne by discriminate.
    rewrite Hv. rewrite !assoc_assoc_set_eq. cbn [truthy].
    cbn [jopt]. rewrite assoc_assoc_set_eq. cbn [truthy].
    apply String.eqb_neq in Hn. rewrite Hn. reflexivity.
  - intros p Hp. unfold st'. rewrite writeFileContent_files_ne by exact Hp. rewrite Hf. reflexivity.
Qed.

Lemma set_setting_at (r s : nat) (k : string) (x : jval) (ps qs : list (string * jval))
    (st : store) :
  heap st !! r = Some (HObj ps) -> assoc "settings" ps = Some (VRef s) ->
  heap st !! s = Some (HObj qs) ->
  set_setting (VRef r) k x st =
    (Ok tt, mkStore (files st) (<[s := HObj (assoc_set k x qs)]> (heap st)) (next_loc st) (writes st)).
Proof.
  intros Hr Hs Hl. unfold set_setting. rewrite (bind_ok _ _ _ _ _ (get_prop_eq _ _ _ _ Hr)).
  rewrite Hs. cbn [set_on]. apply set_prop_eq. exact Hl.
Qed.

(** The settings assignments of [saveUserSettings], on a document [r] whose
    settings object lives at [s]: only [s] changes below the allocation
    pointer, and [s] reads back as [saved_settings]. *)
Lemma settings_steps {B} (settings : list (string * json)) (r s : nat)
    (vsR ws : list (string * jval)) (K : M B) (st : store) :
  heap st !! r = Some (HObj vsR) -> assoc "settings" vsR = Some (VRef s) ->
  heap st !! s = Some (HObj ws) -> r <> s -> (r < next_loc st)%nat -> (s < next_loc st)%nat ->
  exists st' ws',
    (let! enableMemory :=
       alloc_m (match assoc "enableMemory" settings with Some j => j | None => JBool false end) in
     let! _ := set_setting (VRef r) "enableMemory" enableMemory in
     let! enableWebSearch :=
       alloc_m (match assoc "enableWebSearch" settings with Some j => j | None => JBool false end) in
     let! _ := set_setting (VRef r) "enableWebSearch" enableWebSearch in
     let! webSearchApiKey := alloc_m (or_else (assoc "webSearchApiKey" settings) (JStr EmptyString)) in
     let! _ := set_setting (VRef r) "webSearchApiKey" webSearchApiKey in
     let! _ := match assoc "defaultActiveCharacter" settings with
               | Some j => let! v := alloc_m j in
                           set_setting (VRef r) "defaultActiveCharacter" v
               | None => ret tt
               end in
     K) st = K st' /\
    files st' = files st /\ writes st' = writes st /\ (next_loc st <= next_loc st')%nat /\
    (forall l, (l < next_loc st)%nat -> l <> s -> heap st' !! l = heap st !! l) /\
    heap st' !! s = Some (HObj ws') /\
    (forall f h'' qs, (forall l, (next_loc st <= l < next_loc st')%nat -> h'' !! l = heap st' !! l) ->
       (next_loc st' <= S f)%nat -> to_json_props f h'' ws = Some qs ->
       to_json_props f h'' ws' = Some (saved_settings settings qs)).
Proof.
  intros Hr Hs Hws Hrs Hrn Hsn. destruct st as [fs h n w]; cbn [heap next_loc files writes] in *.
  set (jm := match assoc "enableMemory" settings with Some j => j | None => JBool false end).
  set (jw := match assoc "enableWebSearch" settings with Some j => j | None => JBool false end).
  set (jk := or_else (assoc "webSearchApiKey" settings) (JStr EmptyString)).
  destruct (alloc jm h n) as [[vm hm] nm] eqn:Em.
  destruct (alloc_spec _ _ _ _ _ _ Em) as (Dm & Fm & Rm).
  mrw (alloc_m_eq jm (mkStore fs h n w) vm hm nm Em).
  set (ws1 := assoc_set "enableMemory" vm ws).
  mrw (set_setting_at r s "enableMemory" vm vsR ws (mkStore fs hm nm w)
         ltac:(cbn [heap]; rewrite Fm by lia; exact Hr) Hs
         ltac:(cbn [heap]; rewrite Fm by lia; exact Hws)).
  cbn [files heap next_loc writes]. fold ws1.
  destruct (alloc jw (<[s := HObj ws1]> hm) nm) as [[vw hw] nw] eqn:Ew.
  destruct (alloc_spec _ _ _ _ _ _ Ew) as (Dw & Fw & Rw).
  mrw (alloc_m_eq jw (mkStore fs (<[s := HObj ws1]> hm) nm w) vw hw nw Ew).
  set (ws2 := assoc_set "enableWebSearch" vw ws1).
  mrw (set_setting_at r s "enableWebSearch" vw vsR ws1 (mkStore fs hw nw w)
         ltac:(cbn [heap]; solve_lookup; exact Hr) Hs
         ltac:(cbn [heap]; solve_lookup)).
  cbn [files heap next_loc writes]. fold ws2.
  destruct (alloc jk (<[s := HObj ws2]> hw) nw) as [[vk hk] nk] eqn:Ek.
  destruct (alloc_spec _ _ _ _ _ _ Ek) as (Dk & Fk & Rk).
  mrw (alloc_m_eq jk (mkStore fs (<[s := HObj ws2]> hw) nw w) vk hk nk Ek).
  set (ws3 := assoc_set "webSearchApiKey" vk ws2).
  mrw (set_setting_at r s "webSearchApiKey" vk vsR ws2 (mkStore fs hk nk w)
         ltac:(cbn [heap]; solve_lookup; exact Hr) Hs
         ltac:(cbn [heap]; solve_lookup)).
  cbn [files heap next_loc writes]. fold ws3.
  assert (R3 : forall f h'' qs,
            (forall l, (n <= l < nk)%nat -> h'' !! l = (<[s := HObj ws3]> hk) !! l) -> (nk <= S f)%nat ->
            to_json_props f h'' ws = Some qs ->
            to_json_props f h'' ws3 = Some
              (assoc_set "webSearchApiKey" jk (assoc_set "enableWebSearch" jw
                 (assoc_set "enableMemory" jm qs)))).
  { intros f h'' qs Hag Hf Hq. unfold ws3, ws2, ws1.
    apply to_json_props_assoc_set; [apply to_json_props_assoc_set;
                                    [apply to_json_props_assoc_set; [exact Hq|]|]|].
    - apply Rm; [|lia]. intros l Hl. rewrite Hag by lia. solve_lookup.
    - apply Rw; [|lia]. intros l Hl. rewrite Hag by lia. solve_lookup.
    - apply Rk; [|lia]. intros l Hl. rewrite Hag by lia. solve_lookup. }
  unfold saved_settings. cbv zeta. fold jm jw jk.
  destruct (assoc "defaultActiveCharacter" settings) as [jd|].
  - destruct (alloc jd (<[s := HObj ws3]> hk) nk) as [[vd hd] nd] eqn:Ed.
    destruct (alloc_spec _ _ _ _ _ _ Ed) as (Dd & Fd & Rd).
    exists (mkStore fs (<[s := HObj (assoc_set "defaultActiveCharacter" vd ws3)]> hd) nd w), (assoc_set "defaultActiveCharacter" vd ws3).
    split.
    { apply (bind_ok _ (fun _ => K) _ _ tt). mrw (alloc_m_eq jd (mkStore fs (<[s := HObj ws3]> hk) nk w) vd hd nd Ed).
      apply set_setting_at with vsR; cbn [heap]; [solve_lookup; exact Hr
                                                 | exact Hs | solve_lookup]. }
    cbn [files heap next_loc writes].
    split; [reflexivity|]. split; [reflexivity|]. split; [lia|]. split.
    { intros l Hl Hne. solve_lookup. }
    split; [apply lookup_insert_eq|].
    intros f h'' qs Hag Hf Hq. apply to_json_props_assoc_set.
    + apply R3; [|lia|exact Hq]. intros l Hl. rewrite Hag by lia. solve_lookup.
    + apply Rd; [|lia]. intros l Hl. rewrite Hag by lia. solve_lookup.
  - exists (mkStore fs (<[s := HObj ws3]> hk) nk w), ws3. split; [reflexivity|].
    cbn [files heap next_loc writes].
    split; [reflexivity|]. split; [reflexivity|]. split; [lia|]. split.
    { intros l Hl Hne. solve_lookup. }
    split; [apply lookup_insert_eq|]. exact R3.
Qed.

Lemma assoc_set_comm {A} (k1 k2 : string) (v1 v2 : A) (ps : list (string * A)) :
  k1 <> k2 -> assoc k1 ps <> None ->
  assoc_set k1 v1 (assoc_set k2 v2 ps) = assoc_set k2 v2 (assoc_set k1 v1 ps).
Proof.
  intros Hne. induction ps as [|[k v] ps IH]; cbn; [congruence|].
  destruct (String.eqb k1 k) eqn:E1; destruct (String.eqb k2 k) eqn:E2.
  - apply String.eqb_eq in E1, E2. congruence.
  - intros _. cbn. rewrite E1, E2. reflexivity.
  - intros _. cbn. rewrite E1, E2. reflexivity.
  - intros H. cbn. rewrite E1, E2. rewrite IH by exact H. reflexivity.
Qed.

Lemma saveUserSettings_readable (settings : list (string * json)) (key : option string)
  (st : store) (ps : list (string * json)) :
  readFileContent user_profile_path key st = (Ok (TJson (JObj ps)), st) ->
  match assoc "settings" ps with Some (JObj _) | None => True | Some j => truthy j = false end ->
  let ss0 := match assoc "settings" ps with Some (JObj ss) => ss | _ => [] end in
  let ps' := assoc_set "settings" (JObj (saved_settings settings ss0))
               (assoc_set "sharedMemory" (saved_sharedMemory settings)
                  (assoc_set "user" (saved_user settings) ps)) in
  exists st3, files st3 = files st /\
    saveUserSettings settings key st = writeFileContent user_profile_path (TJson (JObj ps')) key true st3.
Proof.
  intros Hread Hset. cbn zeta. destruct st as [fs h0 n0 w].
  destruct (alloc_props ps h0 n0) as [[vs h1] r] eqn:Eps.
  destruct (alloc_props_spec _ _ _ _ _ _ Eps) as (D1 & F1 & R1).
  assert (A : alloc (JObj ps) h0 n0 = (VRef r, <[r := HObj vs]> h1, S r))
    by (rewrite alloc_JObj, Eps; reflexivity).
  unfold saveUserSettings. cbv zeta.
  rewrite (bind_ok _ _ _ (mkStore fs (<[r := HObj vs]> h1) (S r) w) (VRef r)).
  2:{ apply try_catch_ok. mrw Hread.
      exact (eq_trans (JSON_parse_live_obj ps _) (alloc_m_eq _ (mkStore fs h0 n0 w) _ _ _ A)). }
  cbv beta.
  destruct (alloc (saved_user settings) (<[r := HObj vs]> h1) (S r)) as [[vu hu] nu] eqn:Eu.
  destruct (alloc_spec _ _ _ _ _ _ Eu) as (Du & Fu & Ru).
  mrw (alloc_m_eq (saved_user settings) (mkStore fs (<[r := HObj vs]> h1) (S r) w) vu hu nu Eu).
  mrw (set_prop_eq r "user" vu vs (mkStore fs hu nu w)
         ltac:(cbn [heap]; solve_lookup)).
  cbn [files heap next_loc writes].
  destruct (alloc (saved_sharedMemory settings) (<[r := HObj (assoc_set "user" vu vs)]> hu) nu)
    as [[vm hm] nm] eqn:Em.
  destruct (alloc_spec _ _ _ _ _ _ Em) as (Dm & Fm & Rm).
  mrw (alloc_m_eq (saved_sharedMemory settings)
         (mkStore fs (<[r := HObj (assoc_set "user" vu vs)]> hu) nu w) vm hm nm Em).
  set (vs2 := assoc_set "sharedMemory" vm (assoc_set "user" vu vs)).
  mrw (set_prop_eq r "sharedMemory" vm (assoc_set "user" vu vs) (mkStore fs hm nm w)
         ltac:(cbn [heap]; solve_lookup)).
  cbn [files heap next_loc writes]. fold vs2.
  assert (H2r : <[r := HObj vs2]> hm !! r = Some (HObj vs2)) by apply lookup_insert_eq.
  mrw (get_prop_eq r "settings" vs2 (mkStore fs (<[r := HObj vs2]> hm) nm w) H2r).
  assert (Hs2 : assoc "settings" vs2 = assoc "settings" vs)
    by (unfold vs2; rewrite !assoc_assoc_set_ne by discriminate; reflexivity).
  rewrite Hs2.
  (* the locations below [r] other than the settings object are untouched *)
  assert (Below : forall l, (l < r)%nat -> <[r := HObj vs2]> hm !! l = h1 !! l)
    by (intros l Hl; solve_lookup).
  assert (User : forall f h'', (forall l, (S r <= l < nm)%nat -> h'' !! l = <[r := HObj vs2]> hm !! l) ->
            (nm <= f)%nat -> to_json f h'' vu = Some (saved_user settings)).
  { intros f h'' Hag Hf. apply Ru; [|lia]. intros l Hl. rewrite Hag by lia. solve_lookup. }
  assert (Shared : forall f h'', (forall l, (nu <= l < nm)%nat -> h'' !! l = <[r := HObj vs2]> hm !! l) ->
            (nm <= f)%nat -> to_json f h'' vm = Some (saved_sharedMemory settings)).
  { intros f h'' Hag Hf. apply Rm; [|lia]. intros l Hl. rewrite Hag by lia. solve_lookup. }
  clear Fu Ru Fm Rm H2r.
  assert (Hcorr := to_json_props_assoc (depth_props ps) h1 "settings" vs ps
                     (R1 _ h1 (fun _ _ => eq_refl) (le_n _))).
  assert (CaseB : truthy_opt (assoc "settings" vs) = false ->
    exists st3, files st3 = fs /\
      ((let! _ := if truthy_opt (assoc "settings" vs) then ret tt
                  else let! o := alloc_m (JObj []) in set_prop (VRef r) "settings" o in
        let! enableMemory :=
          alloc_m (match assoc "enableMemory" settings with Some j => j | None => JBool false end) in
        let! _ := set_setting (VRef r) "enableMemory" enableMemory in
        let! enableWebSearch :=
          alloc_m (match assoc "enableWebSearch" settings with Some j => j | None => JBool false end) in
        let! _ := set_setting (VRef r) "enableWebSearch" enableWebSearch in
        let! webSearchApiKey := alloc_m (or_else (assoc "webSearchApiKey" settings) (JStr EmptyString)) in
        let! _ := set_setting (VRef r) "webSearchApiKey" webSearchApiKey in
        let! _ := match assoc "defaultActiveCharacter" settings with
                  | Some j => let! v := alloc_m j in
                              set_setting (VRef r) "defaultActiveCharacter" v
                  | None => ret tt
                  end in
        let! j := JSON_stringify (VRef r) in
        writeFileContent user_profile_path (TJson j) key true)
         (mkStore fs (<[r := HObj vs2]> hm) nm w)
       = writeFileContent user_profile_path
           (TJson (JObj (assoc_set "settings" (JObj (saved_settings settings []))
                           (assoc_set "sharedMemory" (saved_sharedMemory settings)
                              (assoc_set "user" (saved_user settings) ps))))) key true st3)).
  { intros Hf. rewrite Hf. cbv iota.
    set (vs3 := assoc_set "settings" (VRef nm) vs2).
    rewrite (bind_ok _ _ _ (mkStore fs (<[r := HObj vs3]> (<[nm := HObj []]> (<[r := HObj vs2]> hm))) (S nm) w) tt).
    2:{ mrw (alloc_m_eq (JObj []) (mkStore fs (<[r := HObj vs2]> hm) nm w) _ _ _ (alloc_empty_obj _ _)).
        apply set_prop_eq. cbn [heap next_loc]. solve_lookup. }
    cbv beta.
    destruct (settings_steps (B:=unit) settings r nm vs3 []
                (let! j := JSON_stringify (VRef r) in
                 writeFileContent user_profile_path (TJson j) key true)
                (mkStore fs (<[r := HObj vs3]> (<[nm := HObj []]> (<[r := HObj vs2]> hm))) (S nm) w))
      as (st' & ws' & Erun & Ef & Ew & Hn & Pres & Hs' & Rd);
      cbn [heap next_loc files writes] in *;
      [solve_lookup | unfold vs3; apply assoc_assoc_set_eq | solve_lookup | lia | lia | lia |].
    rewrite Erun. exists st'. split; [exact Ef|].
    assert (Hr' : heap st' !! r = Some (HObj vs3)) by (rewrite Pres by lia; solve_lookup).
    apply (bind_ok _ (fun j => writeFileContent user_profile_path (TJson j) key true)).
    apply JSON_stringify_eq. destruct (next_loc st') as [|f] eqn:En; [lia|].
    rewrite to_json_ref, Hr'. cbn [option_map].
    assert (Ag : forall l, (l < r)%nat -> heap st' !! l = h1 !! l).
    { intros l Hl. rewrite Pres by lia. rewrite 2!lookup_insert_ne by lia. apply Below. exact Hl. }
    unfold vs3, vs2.
    rewrite (to_json_props_assoc_set _ _ "settings" _ (JObj (saved_settings settings [])) _
               (assoc_set "sharedMemory" (saved_sharedMemory settings)
                  (assoc_set "user" (saved_user settings) ps))); [reflexivity| |].
    - apply to_json_props_assoc_set; [apply to_json_props_assoc_set|].
      + apply R1; [|lia]. intros l Hl. apply Ag. lia.
      + apply User; [|lia]. intros l Hl. rewrite Pres by lia. solve_lookup.
      + apply Shared; [|lia]. intros l Hl. rewrite Pres by lia. solve_lookup.
    - rewrite to_json_ref. destruct f as [|f]; [lia|].
      rewrite Hs'. cbn [option_map].
      rewrite (Rd (S f) (heap st') []); [reflexivity|reflexivity|lia|reflexivity]. }
  destruct (assoc "settings" ps) as [j|] eqn:Es.
  - destruct j as [| | | | |ss]; cbn in Hset.
    5: { exfalso; discriminate. }
    5: {
      destruct (alloc_props_nested _ _ _ _ _ _ Eps "settings" ss Es)
        as (s & ws & Ha & Hs & Hrange & Ro & Rm).
      rewrite Ha. cbn [truthy_opt truthy_val]. rewrite bind_ret.
      destruct (settings_steps (B:=unit) settings r s vs2 ws
                  (let! j := JSON_stringify (VRef r) in
                   writeFileContent user_profile_path (TJson j) key true)
                  (mkStore fs (<[r := HObj vs2]> hm) nm w))
        as (st' & ws' & Erun & Ef & Ew & Hn & Pres & Hs' & Rd);
        cbn [heap next_loc files writes] in *;
        [apply lookup_insert_eq | rewrite Hs2; exact Ha | rewrite Below by lia; exact Hs
        | lia | lia | lia |].
      rewrite Erun. exists st'. split; [exact Ef|].
      assert (Hr' : heap st' !! r = Some (HObj vs2))
        by (rewrite Pres by lia; apply lookup_insert_eq).
      apply (bind_ok _ (fun j => writeFileContent user_profile_path (TJson j) key true)).
      apply JSON_stringify_eq. destruct (next_loc st') as [|f] eqn:En; [lia|].
      rewrite to_json_ref, Hr'. cbn [option_map].
      assert (Ag : forall l, (l < r)%nat -> l <> s -> heap st' !! l = h1 !! l).
      { intros l Hl Hne. rewrite Pres by lia. apply Below. exact Hl. }
      rewrite (assoc_set_comm "settings" "sharedMemory") by
        (discriminate || (rewrite assoc_assoc_set_ne by discriminate; rewrite Es; discriminate)).
      rewrite (assoc_set_comm "settings" "user") by (discriminate || (rewrite Es; discriminate)).
      unfold vs2.
      rewrite (to_json_props_assoc_set _ _ "sharedMemory" _ (saved_sharedMemory settings) _
                 (assoc_set "user" (saved_user settings)
                    (assoc_set "settings" (JObj (saved_settings settings ss)) ps)));
        [reflexivity| |].
      - apply to_json_props_assoc_set.
        + apply (Rm f (heap st') ws'); [| lia | exact Hs' |].
          * intros l Hl Hne. apply Ag; lia.
          * apply (Rd f (heap st') ss); [reflexivity | lia |].
            apply Ro; [|lia]. intros l Hl. apply Ag; lia.
        + apply User; [|lia]. intros l Hl. rewrite Pres by lia. reflexivity.
      - apply Shared; [|lia]. intros l Hl. rewrite Pres by lia. reflexivity. }
    all: apply CaseB; destruct (assoc "settings" vs) as [x|]; [|reflexivity];
      destruct Hcorr as (j & Hj & Ex); injection Hj as <-;
      cbn [truthy_opt]; rewrite (truthy_to_json _ _ _ _ Ex); exact Hset.
  - apply CaseB. destruct (assoc "settings" vs) as [x|]; [|reflexivity].
    destruct Hcorr as (j & Hj & _). discriminate.
Qed.

(** [saveUserSettings(settings)] on a readable user document whose
    [settings] is an object, missing or falsy replaces [user] and
    [sharedMemory], sets the four settings keys it assigns, and keeps every
    other top-level field (consent, version, type, ...) and every other key
    of [settings]; on a version-2.0 user document [getUserSettings] then
    returns the written document; no other file changes. *)
Theorem saveUserSettings_then_getUserSettings (settings : list (string * json))
  (key : option string) (st : store) (ps : list (string * json))
  (Hread : readFileContent user_profile_path key st = (Ok (TJson (JObj ps)), st))
  (Hset : match assoc "settings" ps with Some (JObj _) | None => True | Some j => truthy j = false end) :
  let ss0 := match assoc "settings" ps with Some (JObj ss) => ss | _ => [] end in
  let ps' := assoc_set "settings" (JObj (saved_settings settings ss0))
               (assoc_set "sharedMemory" (saved_sharedMemory settings)
                  (assoc_set "user" (saved_user settings) ps)) in
  exists st',
    saveUserSettings settings key st = (Ok tt, st') /\
    readFileContent user_profile_path key st' = (Ok (TJson (JObj ps')), st') /\
    (forall k, k <> "user" -> k <> "sharedMemory" -> k <> "settings" ->
       assoc k ps' = assoc k ps) /\
    (forall k, k <> "enableMemory" -> k <> "enableWebSearch" -> k <> "webSearchApiKey" ->
       k <> "defaultActiveCharacter" ->
       assoc k (saved_settings settings ss0) = assoc k ss0) /\
    (is_str (assoc "version" ps) "2.0" = true -> is_str (assoc "type" ps) "user" = true ->
     getUserSettings key st' = (Ok (JObj ps'), st')) /\
    (forall p, p <> user_profile_path -> files st' !! p = files st !! p).
Proof.
  destruct (saveUserSettings_readable settings key st ps Hread Hset) as (st3 & Hf & E).
  cbn zeta. cbn zeta in E.
  set (ss0 := match assoc "settings" ps with Some (JObj ss) => ss | _ => [] end) in *.
  set (ps' := assoc_set "settings" (JObj (saved_settings settings ss0))
                (assoc_set "sharedMemory" (saved_sharedMemory settings)
                   (assoc_set "user" (saved_user settings) ps))) in *.
  set (st' := snd (writeFileContent user_profile_path (TJson (JObj ps')) key true st3)).
  assert (R : readFileContent user_profile_path key st' = (Ok (TJson (JObj ps')), st'))
    by (apply key_write_read; right; reflexivity).
  assert (Keep : forall k, k <> "user" -> k <> "sharedMemory" -> k <> "settings" ->
            assoc k ps' = assoc k ps).
  { intros k H1 H2 H3. unfold ps'. rewrite !assoc_assoc_set_ne by assumption. reflexivity. }
  exists st'. split; [rewrite E; apply writeFileContent_ok|split; [exact R|split; [exact Keep|split; [|split]]]].
  - intros k H1 H2 H3 H4. unfold saved_settings. cbv zeta.
    destruct (assoc "defaultActiveCharacter" settings);
      rewrite !assoc_assoc_set_ne by assumption; reflexivity.
  - intros Hv Ht. unfold getUserSettings.
    rewrite (bind_ok _ _ st' st' (Some (JObj ps'))); [reflexivity|].
    apply try_catch_ok. mrw R. mrw (JSON_parse_json (JObj ps') st').
    cbn [jget]. rewrite !Keep by discriminate. rewrite Hv, Ht. reflexivity.
  - intros p Hp. unfold st'. rewrite writeFileContent_files_ne by exact Hp. rewrite Hf. reflexivity.
Qed.

Lemma addFavorite_then_getFavorites_witness :
  exists st',
    addFavorite "Nova" Fixtures.fav_hello (Some "k") 7 "x1" "now" Fixtures.nova_store = (Ok Fixtures.fw_hello, st') /\
    getFavorites "Nova" (Some "k") st' = (Ok (JArr [Fixtures.nova_f1; Fixtures.fw_hello]), st').
Proof.
  destruct (addFavorite_then_getFavorites Fixtures.nova_store "Nova" (Some "k") Fixtures.fav_hello Fixtures.fw_hello
              7 "x1" "now" Fixtures.nova_props Fixtures.nova_character [Fixtures.nova_f1]
              ltac:(vm_compute; reflexivity) eq_refl eq_refl eq_refl eq_refl
              ltac:(vm_compute; reflexivity))
    as (st' & E1 & _ & E2 & _).
  exists st'. split; [exact E1 | exact E2].
Defined.

Lemma addFavorite_then_removeFavorite_witness :
  exists st1 st2,
    addFavorite "Nova" Fixtures.fav_hello (Some "k") 7 "x1" "now" Fixtures.nova_store = (Ok Fixtures.fw_hello, st1) /\
    removeFavorite "Nova" "fav-7-x1" (Some "k") st1 = (Ok true, st2) /\
    readFileContent "Nova.json" (Some "k") st2 = (Ok (TJson Fixtures.nova_doc), st2).
Proof.
  destruct (addFavorite_then_removeFavorite Fixtures.nova_store "Nova" "fav-7-x1" (Some "k")
              Fixtures.fav_hello Fixtures.fw_hello 7 "x1" "now" Fixtures.nova_props Fixtures.nova_character [Fixtures.nova_f1]
              ltac:(vm_compute; reflexivity) eq_refl eq_refl eq_refl eq_refl
              ltac:(constructor; [split; [discriminate | reflexivity] | constructor])
              ltac:(vm_compute; reflexivity) ltac:(vm_compute; reflexivity))
    as (st1 & st2 & E1 & E2 & E3 & _).
  exists st1, st2. split; [exact E1|]. split; [exact E2|]. exact E3.
Defined.

Lemma saveProfile_v2_then_getProfile_witness :
  let st' := snd (saveProfile "Nova" (JObj Fixtures.nova_props) (Some "k") (init_store ∅)) in
  getProfile "Nova" (Some "k") st' = (Ok (JObj Fixtures.nova_props), st') /\
  files st' !! "Nova.json" = Some (encrypt (TJson (JObj Fixtures.nova_props)) "k").
Proof.
  destruct (saveProfile_v2_then_getProfile "Nova" Fixtures.nova_props (Some "k") (init_store ∅)
              eq_refl eq_refl) as (_ & G & _ & Enc).
  split; [exact G|].
  destruct (Enc eq_refl eq_refl) as (k & Hk & E). injection Hk as <-. exact E.
Defined.

Lemma saveConsent_then_getConsent_witness :
  exists st',
    saveConsent (JObj [("accepted", JBool false)]) (Some "k") Fixtures.nova_store = (Ok tt, st') /\
    getConsent (Some "k") st' = (Ok (JObj [("accepted", JBool false)]), st').
Proof.
  pose proof (saveConsent_then_getConsent (JObj [("accepted", JBool false)]) (Some "k")
                Fixtures.nova_store Fixtures.user_props ltac:(vm_compute; reflexivity)) as H.
  cbn zeta in H. destruct H as (st' & E1 & _ & E2 & _).
  exists st'. split; [exact E1 | exact E2].
Defined.

Lemma setActiveProfile_then_getActiveProfile_witness :
  exists st',
    setActiveProfile "Astra" (Some "k") Fixtures.nova_store = (Ok tt, st') /\
    getActiveProfile (Some "k") st' = (Ok (JStr "Astra"), st').
Proof.
  pose proof (setActiveProfile_then_getActiveProfile "Astra" (Some "k") Fixtures.nova_store
                Fixtures.user_props ltac:(vm_compute; reflexivity) I) as H.
  cbn zeta in H. destruct H as (st' & E1 & _ & E2 & _).
  exists st'. split; [exact E1 | exact (E2 eq_refl ltac:(discriminate))].
Defined.

Lemma saveUserSettings_then_getUserSettings_witness :
  exists st' j,
    saveUserSettings [("userName", JStr "Ada"); ("enableMemory", JBool true)] (Some "k")
      Fixtures.nova_store = (Ok tt, st') /\
    getUserSettings (Some "k") st' = (Ok j, st') /\
    jget j "consent" = Some (Some (JObj [("accepted", JBool true)])).
Proof.
  pose proof (saveUserSettings_then_getUserSettings
                [("userName", JStr "Ada"); ("enableMemory", JBool true)] (Some "k")
                Fixtures.nova_store Fixtures.user_props ltac:(vm_compute; reflexivity) I) as H.
  cbn zeta in H. destruct H as (st' & E1 & _ & _ & _ & E2 & _).
  eexists st', _. split; [exact E1|]. split; [exact (E2 eq_refl eq_refl)|].
  vm_compute. reflexivity.
Defined.

Lemma settings_line_ok (ps : list (string * json)) (line : string) :
  legacy_settings_ok ps -> legacy_settings_ok (settings_line ps line).
Proof.
  intros P. unfold settings_line.
  destruct (String.index 0 "=" line) as [i|]; [|exact P].
  set (key := trim (substring 0 i line)).
  destruct (String.eqb key "__proto__") eqn:Ep; [exact P|].
  destruct ((if assoc key ps then true else false)
            || existsb (String.eqb key) object_prototype_names) eqn:Ec; [|exact P].
  intros k v Hk. destruct (String.eqb_spec k key) as [->|Hne].
  - rewrite assoc_assoc_set_eq in Hk. injection Hk as <-.
    split; [|left; eexists; reflexivity].
    apply orb_prop in Ec as [Ec|Ec].
    + destruct (assoc key ps) as [w|] eqn:Ew; [|discriminate].
      exact (proj1 (P key w Ew)).
    + right. apply existsb_exists in Ec as (x & Hx & Ex).
      apply String.eqb_eq in Ex. subst x. split; [exact Hx|].
      apply String.eqb_neq. exact Ep.
  - rewrite assoc_assoc_set_ne in Hk by exact Hne. exact (P k v Hk).
Qed.

(** Without a user document, [getUserSettings] parses [user-settings.txt]
    line by line over its defaults. A line sets a key only when the key is
    a default or a name inherited from [Object.prototype] other than
    [__proto__], and the value it sets is a string. *)
Theorem getUserSettings_legacy (key : option string) (st : store) (t : text)
  (Hno : files st !! user_profile_path = None)
  (Ht : files st !! user_settings_path = Some t) :
  let ps := fold_left settings_line (split_on nl (text_string t)) default_user_settings in
  getUserSettings key st = (Ok (JObj ps), st) /\
  (forall k v, assoc k ps = Some v ->
     (assoc k default_user_settings <> None \/ (In k object_prototype_names /\ k <> "__proto__")) /\
     ((exists s, v = JStr s) \/ assoc k default_user_settings = Some v)).
Proof.
  cbn zeta. split.
  - unfold getUserSettings.
    rewrite (bind_ok _ _ st st None).
    2:{ unfold try_catch, bind at 1, readFileContent, bind at 1, fs_readFile.
        rewrite Hno. reflexivity. }
    unfold try_catch, bind, fs_readFile. rewrite Ht. reflexivity.
  - assert (G : forall lines ps, legacy_settings_ok ps ->
                  legacy_settings_ok (fold_left settings_line lines ps)).
    { induction lines as [|l lines IH]; intros ps P; [exact P|].
      apply IH. apply settings_line_ok. exact P. }
    apply G. intros k v Hk. split; [left; congruence|right; exact Hk].
Qed.

Lemma getUserSettings_legacy_witness :
  getUserSettings None Fixtures.legacy_settings_store
  = (Ok (JObj [("userName", JStr "Ada=B"); ("userGender", JStr "non-binary");
               ("userSpecies", JStr "human"); ("timezone", JStr "UTC");
               ("userBackstory", JStr EmptyString); ("userPreferences", empty_preferences);
               ("majorLifeEvents", JArr []); ("sharedRoleplayEvents", JArr []);
               ("toString", JStr "x")]),
     Fixtures.legacy_settings_store).
Proof.
  refine (proj1 (getUserSettings_legacy None Fixtures.legacy_settings_store (TRaw Fixtures.legacy_settings_text)
                   ltac:(vm_compute; reflexivity) ltac:(vm_compute; reflexivity))).
Defined.
